(** * Resume parser: a shallow embedding of [resume_parser] and its specification

    The development follows the package layout of the Python sources:

    - [PyStr]      the [str] methods the code calls ([strip], [split],
                   [join], [lower], [in], [len]);
    - [Re]         the fragment of Python's [re] the patterns of the
                   extractors are written in, as a backtracking matcher,
                   with a declarative semantics it is proved against;
    - [Py]         exceptions and the result of a call that may raise;
    - [Json]       [json.dumps] and [json.loads];
    - the extractors ([NameExtractor], [EmailExtractor], [SkillsExtractor]),
      the data class [ResumeData], the PDF reader [PDFParser], the
      coordinator [ResumeExtractor] and the facade [ResumeParserFramework];
    - further down, with the properties that go beyond the specification,
      the reader of Word documents [WordParser], the configuration
      [Config] and the constructor of the skills extractor.

    The texts the package reads (a resume, a path, the reply of the remote
    model) are modelled by a Rocq [string]: each character is the code
    point of the same number, so these are the texts over U+0000..U+00FF,
    and the character tables below ([isspace], [\w], [lower]) are Python's
    tables on that range. The strings the package computes with as values
    (what [json.loads] decodes, the fields of a record, what [json.dumps]
    writes) are [Json.ustring]s: lists of code points up to U+10FFFF,
    surrogates included. The interpreter's recursion limit is a parameter
    of what descends into a value: the room left for nested calls. *)

From Stdlib Require Import String Ascii List ZArith NArith Lia Bool DecimalString.
From stdpp Require Import gmap strings.
Import ListNotations.
Local Open Scope string_scope.
Set Warnings "-register-all".
(* stdpp keeps [simpl] from unfolding string concatenation; the proofs below
   compute with it. *)
Arguments String.append !s1 s2.

(* ===================================================================== *)
(** ** Python strings *)
(* ===================================================================== *)

Module PyStr.

(** [ord(c)] *)
Definition ord (c : ascii) : N := N_of_ascii c.

Definition in_range (lo hi c : ascii) : bool :=
  (ord lo <=? ord c)%N && (ord c <=? ord hi)%N.

(** [c.isspace()], which is also what [strip()], [split()] and the regex
    class [\s] use: U+0009..U+000D, U+001C..U+0020, U+0085, U+00A0. *)
Definition isspace (c : ascii) : bool :=
  ((9 <=? ord c) && (ord c <=? 13) || (28 <=? ord c) && (ord c <=? 32)
   || (ord c =? 133) || (ord c =? 160))%N.

(** [c.lower()]: the cased letters of the range are A-Z, U+00C0..U+00D6
    and U+00D8..U+00DE; each lowers to the code point 32 above. *)
Definition lower_char (c : ascii) : ascii :=
  if ((65 <=? ord c) && (ord c <=? 90) || (192 <=? ord c) && (ord c <=? 214)
      || (216 <=? ord c) && (ord c <=? 222))%N
  then ascii_of_N (ord c + 32) else c.

(** [c.upper()] where the result is one character of the range; U+00B5,
    U+00DF and U+00FF have no such upper case and are left as they are. *)
Definition upper_char (c : ascii) : ascii :=
  if ((97 <=? ord c) && (ord c <=? 122) || (224 <=? ord c) && (ord c <=? 246)
      || (248 <=? ord c) && (ord c <=? 254))%N
  then ascii_of_N (ord c - 32) else c.

(** [s.lower()] *)
Fixpoint lower (s : string) : string :=
  match s with
  | "" => ""
  | String c s' => String (lower_char c) (lower s')
  end.

(** [bool(s)]: a string is true when it is not empty. *)
Definition truthy (s : string) : bool :=
  match s with "" => false | String _ _ => true end.

(** [s.lstrip()] *)
Fixpoint lstrip (s : string) : string :=
  match s with
  | "" => ""
  | String c s' => if isspace c then lstrip s' else s
  end.

(** [s.rstrip()] *)
Fixpoint rstrip (s : string) : string :=
  match s with
  | "" => ""
  | String c s' =>
      match rstrip s' with
      | "" => if isspace c then "" else String c ""
      | r => String c r
      end
  end.

(** [s.strip()] *)
Definition strip (s : string) : string := rstrip (lstrip s).

(** [s.split(sep)] for a one-character separator: cut at every occurrence,
    empty pieces kept, so there is always at least one piece. *)
Fixpoint split (sep : ascii) (s : string) : list string :=
  match s with
  | "" => [""]
  | String c s' =>
      if Ascii.eqb c sep then "" :: split sep s'
      else match split sep s' with
           | piece :: rest => String c piece :: rest
           | [] => [String c ""]
           end
  end.

(** [s.split()]: the maximal runs of characters that are not whitespace. *)
Fixpoint split_ws (s : string) : list string :=
  match s with
  | "" => []
  | String c s' =>
      if isspace c then split_ws s'
      else match s' with
           | "" => [String c ""]
           | String c' _ =>
               if isspace c' then String c "" :: split_ws s'
               else match split_ws s' with
                    | w :: ws => String c w :: ws
                    | [] => [String c ""]
                    end
           end
  end.

(** [sep.join(l)] *)
Fixpoint join (sep : string) (l : list string) : string :=
  match l with
  | [] => ""
  | [x] => x
  | x :: xs => x ++ sep ++ join sep xs
  end.

(** [hay.startswith(needle)] *)
Fixpoint startswith (needle hay : string) : bool :=
  match needle, hay with
  | "", _ => true
  | String a n', String b h' => Ascii.eqb a b && startswith n' h'
  | String _ _, "" => false
  end.

(** [needle in hay] *)
Fixpoint contains (needle hay : string) : bool :=
  startswith needle hay ||
  match hay with
  | "" => false
  | String _ h' => contains needle h'
  end.

(** [s[:n]] and [s[n:]] for [0 <= n] *)
Fixpoint take (n : nat) (s : string) : string :=
  match n, s with
  | S n', String c s' => String c (take n' s')
  | _, _ => ""
  end.

Fixpoint drop (n : nat) (s : string) : string :=
  match n, s with
  | S n', String _ s' => drop n' s'
  | _, _ => s
  end.

(** [not text or not text.strip()], the guard every extractor starts with *)
Definition is_blank (text : string) : bool :=
  negb (truthy text) || negb (truthy (strip text)).

(** The line feed, written ['\n'] in the sources. *)
Definition LF : ascii := "010"%char.
Definition nl : string := String LF "".

End PyStr.

(* ===================================================================== *)
(** ** Regular expressions: the fragment of [re] the extractors use *)
(* ===================================================================== *)

Module Re.
Import PyStr.

(** A compiled pattern. [Cls p] is one character of a class (a literal,
    [[A-Z]], [\s], [.]); [Star true r] is [r*] and [Star false r] is the
    lazy [r*?]; [Bol] and [Eol] are [^] and [$] without [re.MULTILINE].
    A capturing group adds nothing to what matches, so it is not a
    constructor: the one group the sources read, group 1 of the two name
    patterns, spans all that lies between [^] and [$], which is the whole
    match. *)
Inductive regex : Type :=
| Eps
| Cls (p : ascii -> bool)
| Cat (r1 r2 : regex)
| Alt (r1 r2 : regex)
| Star (greedy : bool) (r : regex)
| Bol
| Eol.

(** The loop of a star. [body s k] matches the repeated pattern once at the
    head of [s] and continues with [k]. A greedy star first tries one more
    repetition and falls back to the continuation; a lazy star does it the
    other way round. A repetition that consumed nothing is not repeated
    again. [fuel] bounds the repetitions; the length of [s] is enough. *)
Fixpoint star_loop {A : Type} (greedy : bool)
    (body : string -> (string -> option A) -> option A)
    (k : string -> option A) (fuel : nat) (s : string) : option A :=
  match fuel with
  | O => k s
  | S fuel' =>
      let again :=
        body s (fun s1 =>
          if (String.length s1 <? String.length s)%nat
          then star_loop greedy body k fuel' s1
          else None) in
      if greedy then
        match again with Some x => Some x | None => k s end
      else
        match k s with Some x => Some x | None => again end
  end.

(** The backtracking matcher. [exec n0 r s k] matches [r] at the head of
    [s], the part of the subject not consumed yet, and hands what is left
    to the continuation [k]; when [k] fails it tries the next way to match
    [r], in the order of Python's engine: the left alternative first, the
    repetitions of a star as [star_loop] orders them. [n0] is the length of
    the whole subject, by which [^] knows the start. *)
Fixpoint exec {A : Type} (n0 : nat) (r : regex) (s : string)
    (k : string -> option A) {struct r} : option A :=
  match r with
  | Eps => k s
  | Cls p =>
      match s with
      | String c s' => if p c then k s' else None
      | "" => None
      end
  | Cat r1 r2 => exec n0 r1 s (fun s1 => exec n0 r2 s1 k)
  | Alt r1 r2 =>
      match exec n0 r1 s k with
      | Some x => Some x
      | None => exec n0 r2 s k
      end
  | Star greedy r1 => star_loop greedy (exec n0 r1) k (String.length s) s
  | Bol => if (String.length s =? n0)%nat then k s else None
  | Eol =>
      match s with
      | "" => k s
      | String c "" => if Ascii.eqb c LF then k s else None
      | _ => None
      end
  end.

(** Quantifiers, by their expansion. *)
Definition plus (r : regex) : regex := Cat r (Star true r).        (* r+ *)
Definition opt (r : regex) : regex := Alt r Eps.                   (* r? *)
Fixpoint times (n : nat) (r : regex) : regex :=                    (* r{n} *)
  match n with
  | O => Eps
  | S n' => Cat r (times n' r)
  end.
Definition at_least (n : nat) (r : regex) : regex :=               (* r{n,} *)
  Cat (times n r) (Star true r).
Fixpoint up_to (n : nat) (r : regex) : regex :=                    (* r{0,n} *)
  match n with
  | O => Eps
  | S n' => opt (Cat r (up_to n' r))
  end.
Definition between (lo hi : nat) (r : regex) : regex :=            (* r{lo,hi} *)
  Cat (times lo r) (up_to (hi - lo) r).

(** Character classes and literals. *)
Definition chr (c : ascii) : regex := Cls (Ascii.eqb c).
Definition any_of (cs : string) (c : ascii) : bool :=
  contains (String c "") cs.
Definition upper_az : ascii -> bool := in_range "A" "Z".            (* [A-Z] *)
Definition lower_az : ascii -> bool := in_range "a" "z".            (* [a-z] *)
Definition digit09 : ascii -> bool := in_range "0" "9".             (* [0-9], \d *)
Definition dot_nl (c : ascii) : bool := negb (Ascii.eqb c LF).      (* . *)
Definition dot_all (_ : ascii) : bool := true.              (* . with re.DOTALL *)

(** [\w]: letters, digits and the underscore; on this range the letters
    and numeric characters beyond ASCII are U+00AA, U+00B2, U+00B3, U+00B5,
    U+00B9, U+00BA, U+00BC..U+00BE, U+00C0..U+00D6, U+00D8..U+00F6 and
    U+00F8..U+00FF. *)
Definition word_char (c : ascii) : bool :=
  (digit09 c || upper_az c || lower_az c || (ord c =? 95)
   || (ord c =? 170) || (ord c =? 178) || (ord c =? 179) || (ord c =? 181)
   || (ord c =? 185) || (ord c =? 186)
   || (188 <=? ord c) && (ord c <=? 190)
   || (192 <=? ord c) && (ord c <=? 214)
   || (216 <=? ord c) && (ord c <=? 246)
   || (248 <=? ord c))%N.

(** A literal word, character by character. *)
Fixpoint lit (w : string) : regex :=
  match w with
  | "" => Eps
  | String c w' => Cat (chr c) (lit w')
  end.

(** [re.IGNORECASE]: a character matches a class when its lower case or
    its upper case does. *)
Fixpoint ignorecase (r : regex) : regex :=
  match r with
  | Cls p => Cls (fun c => p c || p (lower_char c) || p (upper_char c))
  | Cat r1 r2 => Cat (ignorecase r1) (ignorecase r2)
  | Alt r1 r2 => Alt (ignorecase r1) (ignorecase r2)
  | Star g r1 => Star g (ignorecase r1)
  | Eps | Bol | Eol => r
  end.

(** [re.match(r, s)]: a match at position 0; the result is [group(0)]. *)
Definition re_match (r : regex) (s : string) : option string :=
  match exec (String.length s) r s Some with
  | Some rest => Some (take (String.length s - String.length rest) s)
  | None => None
  end.

(** The scan of [re.search]: the first position, left to right, at which
    the pattern matches; [s] is the subject from the current position on.
    The result is what precedes the match in [s], and [group(0)]. *)
Fixpoint scan (n0 : nat) (r : regex) (s : string) : option (string * string) :=
  match exec n0 r s Some with
  | Some rest => Some ("", take (String.length s - String.length rest) s)
  | None =>
      match s with
      | "" => None
      | String c s' =>
          match scan n0 r s' with
          | Some (pre, m) => Some (String c pre, m)
          | None => None
          end
      end
  end.

(** [re.search(r, s)], as [(s[:m.start()], m.group(0))]. *)
Definition re_search (r : regex) (s : string) : option (string * string) :=
  scan (String.length s) r s.

(** [re.findall(r, s)] for a pattern without groups: the matches of
    successive scans, each starting where the previous match ended (one
    character further after an empty match). *)
Fixpoint findall_from (fuel n0 : nat) (r : regex) (s : string) : list string :=
  match fuel with
  | O => []
  | S fuel' =>
      match scan n0 r s with
      | None => []
      | Some (pre, m) =>
          let rest := drop (String.length pre + String.length m) s in
          m :: match m, rest with
               | "", "" => []
               | "", String _ rest' => findall_from fuel' n0 r rest'
               | _, _ => findall_from fuel' n0 r rest
               end
      end
  end.

Definition re_findall (r : regex) (s : string) : list string :=
  findall_from (S (String.length s)) (String.length s) r s.

(** [re.sub(r, repl, s)] for a pattern that is one character class: every
    character of the class is replaced. *)
Fixpoint sub_class (p : ascii -> bool) (repl : string) (s : string) : string :=
  match s with
  | "" => ""
  | String c s' =>
      (if p c then repl else String c "") ++ sub_class p repl s'
  end.

End Re.

(* ===================================================================== *)
(** ** Exceptions *)
(* ===================================================================== *)

Module Py.

(** The exception classes the package raises or catches. All of them derive
    from [Exception], the class the [except Exception] clauses of the
    package name; [OtherError] stands for any further subclass of
    [Exception] a collaborator may raise. *)
Inductive exc_class : Type :=
| Exception
| ValueError
| KeyError
| FileNotFoundError
| JSONDecodeError
| OtherError (name : string).

(** An exception instance: its class and [str(e)]. *)
Record exn : Type := mk_exn { exn_class : exc_class; exn_str : string }.

(** [issubclass(c, ValueError)] *)
Definition is_ValueError (c : exc_class) : bool :=
  match c with
  | ValueError | JSONDecodeError => true
  | _ => false
  end.

(** What a call does: it returns a value or raises. *)
Inductive result (A : Type) : Type :=
| Return (a : A)
| Raise (e : exn).
Arguments Return {A} a.
Arguments Raise {A} e.

Definition bind {A B : Type} (m : result A) (f : A -> result B) : result B :=
  match m with
  | Return a => f a
  | Raise e => Raise e
  end.

(** [try: m  except Exception as e: h(e)] *)
Definition try_except {A : Type} (m : result A) (h : exn -> result A) : result A :=
  match m with
  | Return a => Return a
  | Raise e => h e
  end.

(** Calls that act on the world ([W]: the file system, the network, the
    console, whatever a collaborator touches) and may raise. *)
Definition eff (W A : Type) : Type := W -> result A * W.

Definition ret {W A : Type} (a : A) : eff W A := fun w => (Return a, w).

Definition raise {W A : Type} (e : exn) : eff W A := fun w => (Raise e, w).

Definition ebind {W A B : Type} (m : eff W A) (f : A -> eff W B) : eff W B :=
  fun w =>
    match m w with
    | (Return a, w') => f a w'
    | (Raise e, w') => (Raise e, w')
    end.

(** [try: m  except Exception as e: h(e)], with effects *)
Definition etry {W A : Type} (m : eff W A) (h : exn -> eff W A) : eff W A :=
  fun w =>
    match m w with
    | (Return a, w') => (Return a, w')
    | (Raise e, w') => h e w'
    end.

(** A pure computation that may raise, as a call. *)
Definition lift {W A : Type} (r : result A) : eff W A := fun w => (r, w).

End Py.

Declare Scope eff_scope.
Delimit Scope eff_scope with eff.
Notation "x <- m ;; k" := (Py.ebind m (fun x => k))
  (at level 100, m at next level, right associativity) : eff_scope.

(* ===================================================================== *)
(** ** extractors/name_extractor.py *)
(* ===================================================================== *)

Module NameExtractor.
Import PyStr Re.

(** [[A-Z][a-z]+] *)
Definition capitalized : regex := Cat (Cls upper_az) (plus (Cls lower_az)).

(** [r'^([A-Z][a-z]+(?:\s+[A-Z][a-z]+){1,3})$'] *)
Definition name_pattern : regex :=
  Cat Bol
   (Cat (Cat capitalized
             (between 1 3 (Cat (plus (Cls isspace)) capitalized)))
        Eol).

(** [alt_pattern]: [^(], [[A-Z][a-z]+], then the optional middle initial
    [(?:\s+[A-Z]\.?\s{0,})?], then [(?:\s+[A-Z][a-z]+)+], then [)$]; the
    sources write the [{0,}] as a star. *)
Definition alt_pattern : regex :=
  Cat Bol
   (Cat (Cat capitalized
          (Cat (opt (Cat (plus (Cls isspace))
                      (Cat (Cls upper_az)
                        (Cat (opt (chr ".")) (Star true (Cls isspace))))))
               (plus (Cat (plus (Cls isspace)) capitalized))))
        Eol).

(** [[a-zA-Z0-9._%+-]] *)
Definition local_char (c : ascii) : bool :=
  lower_az c || upper_az c || digit09 c || any_of "._%+-" c.

(** [email_pattern]: [[@]], or [[a-zA-Z0-9._%+-]+], whitespace ([\s] under a
    star) and one of [(gmail|yahoo|hotmail|outlook|mail|email)]; searched
    with [re.IGNORECASE]. *)
Definition email_pattern : regex :=
  ignorecase
   (Alt (Cls (any_of "@"))
        (Cat (plus (Cls local_char))
          (Cat (Star true (Cls isspace))
            (Alt (lit "gmail") (Alt (lit "yahoo") (Alt (lit "hotmail")
              (Alt (lit "outlook") (Alt (lit "mail") (lit "email"))))))))).

(** [r'[^\w\s\.]'] *)
Definition artifact (c : ascii) : bool :=
  negb (word_char c || isspace c || Ascii.eqb c ".").

(** [r'\d{3,}|\..*\.'] *)
Definition digits_or_dots : regex :=
  Alt (at_least 3 (Cls digit09))
      (Cat (chr ".") (Cat (Star true (Cls dot_nl)) (chr "."))).

(** [[line.strip() for line in text.split('\n') if line.strip()]] *)
Definition lines_of (text : string) : list string :=
  map strip (List.filter (fun line => truthy (strip line)) (split LF text)).

(** The loop [for line in lines[:5]]; [Some name] when it returns. *)
Fixpoint first_name_match (lines : list string) : option string :=
  match lines with
  | [] => None
  | line :: rest =>
      match re_match name_pattern line with
      | Some g => Some g
      | None =>
          match re_match alt_pattern line with
          | Some g => Some g
          | None => first_name_match rest
          end
      end
  end.

(** What follows once [first_line] is chosen: the clean-up and the two
    filters. *)
Definition clean_and_filter (first_line : string) : string :=
  let first_line := sub_class artifact " " first_line in
  let first_line := join " " (split_ws first_line) in
  match re_search digits_or_dots first_line with
  | Some _ => "Unknown"
  | None =>
      if (String.length first_line <=? 50)%nat
         && (0 <? String.length first_line)%nat
      then first_line
      else "Unknown"
  end.

(** [NameExtractor.extract] *)
Definition extract (text : string) : string :=
  if is_blank text then "Unknown" else
  let lines := lines_of text in
  match lines with
  | [] => "Unknown"
  | line0 :: others =>
      match first_name_match (firstn 5 lines) with
      | Some name => name
      | None =>
          match re_search email_pattern line0 with
          | Some _ =>
              match others with
              | line1 :: _ => clean_and_filter line1
              | [] => "Unknown"
              end
          | None => clean_and_filter line0
          end
      end
  end.

End NameExtractor.

(* ===================================================================== *)
(** ** extractors/email_extractor.py *)
(* ===================================================================== *)

Module EmailExtractor.
Import PyStr Re.

Definition local_char (c : ascii) : bool :=         (* [a-zA-Z0-9._%+-] *)
  lower_az c || upper_az c || digit09 c || any_of "._%+-" c.
Definition domain_char (c : ascii) : bool :=        (* [a-zA-Z0-9.-] *)
  lower_az c || upper_az c || digit09 c || any_of ".-" c.
Definition letter (c : ascii) : bool :=             (* [a-zA-Z] *)
  lower_az c || upper_az c.

(** [EMAIL_PATTERN = r'[a-zA-Z0-9._%+-]+@[a-zA-Z0-9.-]+\.[a-zA-Z]{2,}'] *)
Definition EMAIL_PATTERN : regex :=
  Cat (plus (Cls local_char))
   (Cat (chr "@")
     (Cat (plus (Cls domain_char))
       (Cat (chr ".") (at_least 2 (Cls letter))))).

Definition sentinel : string := "unknown@example.com".

(** [EmailExtractor.extract] *)
Definition extract (text : string) : string :=
  if is_blank text then sentinel else
  match re_findall EMAIL_PATTERN text with
  | first :: _ => first
  | [] => sentinel
  end.

End EmailExtractor.

(* ===================================================================== *)
(** ** Python values and the [json] module *)
(* ===================================================================== *)

Module Json.
Import PyStr Py.

Definition DQUOTE : ascii := "034"%char.
Definition BACKSLASH : ascii := "092"%char.

(** *** Strings as values *)

(** A Python [str] as a value of the package: its code points, U+0000 to
    U+10FFFF, the surrogates U+D800..U+DFFF included. The texts the
    extractors read are [string]s; what [json.loads] decodes from their
    escapes is not bound to their range. *)
Definition ustring : Type := list N.

(** A text as a value: the code points of its characters. *)
Fixpoint wide (s : string) : ustring :=
  match s with
  | "" => []
  | String c s' => ord c :: wide s'
  end.
Coercion wide : string >-> ustring.

Fixpoint ustring_eqb (a b : ustring) : bool :=
  match a, b with
  | [], [] => true
  | x :: a', y :: b' => (x =? y)%N && ustring_eqb a' b'
  | _, _ => false
  end.

(** [c.isspace()] on every code point; [strip()] removes these. *)
Definition uisspace (c : N) : bool :=
  ((9 <=? c) && (c <=? 13) || (28 <=? c) && (c <=? 32)
   || (c =? 133) || (c =? 160) || (c =? 5760)
   || (8192 <=? c) && (c <=? 8202) || (c =? 8232) || (c =? 8233)
   || (c =? 8239) || (c =? 8287) || (c =? 12288))%N.

(** [s.lstrip()], [s.rstrip()] and [s.strip()] *)
Fixpoint ulstrip (s : ustring) : ustring :=
  match s with
  | [] => []
  | c :: s' => if uisspace c then ulstrip s' else s
  end.

Fixpoint urstrip (s : ustring) : ustring :=
  match s with
  | [] => []
  | c :: s' =>
      match urstrip s' with
      | [] => if uisspace c then [] else [c]
      | r => c :: r
      end
  end.

Definition ustrip (s : ustring) : ustring := urstrip (ulstrip s).

(** [sep.join(l)] *)
Fixpoint ujoin (sep : ustring) (l : list ustring) : ustring :=
  match l with
  | [] => []
  | [x] => x
  | x :: xs => (x ++ sep ++ ujoin sep xs)%list
  end.

(** *** Values *)

(** A [float], as far as the package observes one: its [repr], its JSON
    text and whether it is non-zero. *)
Record pyfloat : Type :=
  mk_float { float_repr : string; float_json : string; float_nonzero : bool }.

(** The values [json.loads] returns and [json.dumps] accepts. A [dict] keeps
    its keys in insertion order. *)
Inductive pyobj : Type :=
| PNone
| PBool (b : bool)
| PInt (z : Z)
| PFloat (f : pyfloat)
| PStr (s : ustring)
| PList (l : list pyobj)
| PDict (d : list (ustring * pyobj)).

(** [bool(o)] *)
Definition py_truthy (o : pyobj) : bool :=
  match o with
  | PNone => false
  | PBool b => b
  | PInt z => negb (z =? 0)%Z
  | PFloat f => float_nonzero f
  | PStr s => match s with [] => false | _ :: _ => true end
  | PList l => match l with [] => false | _ :: _ => true end
  | PDict d => match d with [] => false | _ :: _ => true end
  end.

(** [d[key] = value] *)
Fixpoint dict_set (key : ustring) (value : pyobj) (d : list (ustring * pyobj))
    : list (ustring * pyobj) :=
  match d with
  | [] => [(key, value)]
  | (k, v) :: d' =>
      if ustring_eqb k key then (k, value) :: d'
      else (k, v) :: dict_set key value d'
  end.

Definition hex_digit (n : N) : ascii :=
  match String.get (N.to_nat n) "0123456789abcdef" with
  | Some c => c
  | None => "0"%char
  end.

(** The two hexadecimal digits of a character. *)
Definition hex2 (c : ascii) : string :=
  String (hex_digit (ord c / 16)) (String (hex_digit (ord c mod 16)) "").

(** A number in [digits] hexadecimal digits, the lower ones when it has
    more. *)
Fixpoint hex_of (digits : nat) (n : N) : string :=
  match digits with
  | O => ""
  | S d => hex_of d (n / 16) ++ String (hex_digit (n mod 16)) ""
  end.

(** *** Integers as text *)

(** [sys.int_info.default_max_str_digits]: [int()] on a longer literal and
    [str()] or [repr()] of a longer integer raise [ValueError]. *)
Definition int_max_str_digits : nat := 4300.

(** The decimal digits of an integer, with its sign: a helper of
    [int_str], which is what Python computes. *)
Definition decimal (z : Z) : string :=
  DecimalString.NilZero.string_of_int (Z.to_int z).

Definition int_too_long : exn :=
  mk_exn ValueError
    ("Exceeds the limit (4300 digits) for integer string conversion; "
     ++ "use sys.set_int_max_str_digits() to increase the limit").

(** [repr(z)], which is also [str(z)] and what [json.dumps] writes *)
Definition int_str (z : Z) : result string :=
  if (int_max_str_digits <? String.length (decimal (Z.abs z)))%nat
  then Raise int_too_long
  else Return (decimal z).

(** *** [repr] and [str] *)

(** [repr(s)] for a text: single quotes, unless the string has a single
    quote and no double quote; the backslash, the chosen quote and the
    characters that are not printable are escaped. *)
Definition repr_char (quote c : ascii) : string :=
  if Ascii.eqb c BACKSLASH then String BACKSLASH (String BACKSLASH "")
  else if Ascii.eqb c quote then String BACKSLASH (String quote "")
  else if Ascii.eqb c "009" then String BACKSLASH "t"
  else if Ascii.eqb c "010" then String BACKSLASH "n"
  else if Ascii.eqb c "013" then String BACKSLASH "r"
  else if ((ord c <? 32) || (127 <=? ord c) && (ord c <=? 160)
           || (ord c =? 173))%N
       then String BACKSLASH ("x" ++ hex2 c)
  else String c "".

Fixpoint repr_chars (quote : ascii) (s : string) : string :=
  match s with
  | "" => ""
  | String c s' => repr_char quote c ++ repr_chars quote s'
  end.

Definition str_repr (s : string) : string :=
  let quote :=
    if contains "'" s && negb (contains (String DQUOTE "") s)
    then DQUOTE else "'"%char in
  String quote (repr_chars quote s ++ String quote "").

(** The errors of a value nested deeper than the interpreter has room
    for. *)
Definition RecursionError (where_ : string) : exn :=
  mk_exn (OtherError "RecursionError")
    ("maximum recursion depth exceeded" ++ where_).
Definition repr_overflow : exn := RecursionError " while getting the repr of an object".
Definition str_overflow : exn := RecursionError " while getting the str of an object".

Fixpoint mapM {A B : Type} (f : A -> result B) (l : list A) : result (list B) :=
  match l with
  | [] => Return []
  | x :: l' => bind (f x) (fun y => bind (mapM f l') (fun ys => Return (y :: ys)))
  end.

Section Repr.

(** [c.isprintable()] for the code points above U+00FF, from the Unicode
    database of the interpreter. *)
Variable unicode_printable : N -> bool.

Definition printable_cp (c : N) : bool :=
  if (c <? 256)%N
  then negb ((c <? 32) || (127 <=? c) && (c <=? 160) || (c =? 173))%N
  else unicode_printable c.

(** One code point of [repr(s)] *)
Definition urepr_char (quote c : N) : ustring :=
  if (c =? 92)%N then wide (String BACKSLASH (String BACKSLASH ""))
  else if (c =? quote)%N then [92%N; quote]
  else if (c =? 9)%N then wide (String BACKSLASH "t")
  else if (c =? 10)%N then wide (String BACKSLASH "n")
  else if (c =? 13)%N then wide (String BACKSLASH "r")
  else if printable_cp c then [c]
  else if (c <? 256)%N then wide (String BACKSLASH ("x" ++ hex_of 2 c))
  else if (c <? 65536)%N then wide (String BACKSLASH ("u" ++ hex_of 4 c))
  else wide (String BACKSLASH ("U" ++ hex_of 8 c)).

(** [repr(s)] *)
Definition ustr_repr (s : ustring) : ustring :=
  let quote :=
    if existsb (N.eqb 39) s && negb (existsb (N.eqb 34) s) then 34%N else 39%N in
  (quote :: flat_map (urepr_char quote) s ++ [quote])%list.

(** What [tp_repr] does on a value, with room for [limit] values nested in
    it: the [repr] of every entry of a list or of a dictionary is one call
    deeper. *)
Fixpoint repr_body (limit : nat) (o : pyobj) {struct o} : result ustring :=
  match o with
  | PNone => Return (wide "None")
  | PBool true => Return (wide "True")
  | PBool false => Return (wide "False")
  | PInt z => bind (int_str z) (fun t => Return (wide t))
  | PFloat f => Return (wide (float_repr f))
  | PStr s => Return (ustr_repr s)
  | PList l =>
      match limit with
      | O => match l with [] => Return (wide "[]") | _ :: _ => Raise repr_overflow end
      | S limit' =>
          bind (mapM (repr_body limit') l) (fun rs =>
            Return (wide "[" ++ ujoin (wide ", ") rs ++ wide "]")%list)
      end
  | PDict d =>
      match limit with
      | O => match d with [] => Return (wide "{}") | _ :: _ => Raise repr_overflow end
      | S limit' =>
          bind (mapM (fun kv =>
                  bind (repr_body limit' (snd kv)) (fun r =>
                    Return (ustr_repr (fst kv) ++ wide ": " ++ r)%list)) d)
            (fun rs => Return (wide "{" ++ ujoin (wide ", ") rs ++ wide "}")%list)
      end
  end.

(** [repr(o)] with room for [limit] nested calls *)
Definition py_repr (limit : nat) (o : pyobj) : result ustring :=
  match limit with
  | O => Raise repr_overflow
  | S limit' => repr_body limit' o
  end.

(** [str(o)]: a string is returned as it is; for every other value the
    call of [str] is one nested call, and it hands over to [tp_repr]. *)
Definition py_str (limit : nat) (o : pyobj) : result ustring :=
  match o with
  | PStr s => Return s
  | _ =>
      match limit with
      | O => Raise str_overflow
      | S limit' => repr_body limit' o
      end
  end.

End Repr.

(** *** [json.dumps(o, indent=indent)] for an integer [indent] *)

(** One code point of a string, as [ensure_ascii] writes it: the
    characters beyond the Basic Multilingual Plane as the two escapes of a
    surrogate pair. *)
Definition escape_cp (c : N) : string :=
  if (c =? 34)%N then String BACKSLASH (String DQUOTE "")
  else if (c =? 92)%N then String BACKSLASH (String BACKSLASH "")
  else if (c =? 10)%N then String BACKSLASH "n"
  else if (c =? 13)%N then String BACKSLASH "r"
  else if (c =? 9)%N then String BACKSLASH "t"
  else if (c =? 8)%N then String BACKSLASH "b"
  else if (c =? 12)%N then String BACKSLASH "f"
  else if (32 <=? c)%N && (c <=? 126)%N then String (ascii_of_N c) ""
  else if (c <? 65536)%N then String BACKSLASH ("u" ++ hex_of 4 c)
  else
    let v := (c - 65536)%N in
    String BACKSLASH ("u" ++ hex_of 4 (55296 + v / 1024))
    ++ String BACKSLASH ("u" ++ hex_of 4 (56320 + v mod 1024)).

Fixpoint escape (s : ustring) : string :=
  match s with
  | [] => ""
  | c :: s' => escape_cp c ++ escape s'
  end.

Definition encode_basestring_ascii (s : ustring) : string :=
  String DQUOTE (escape s ++ String DQUOTE "").

Fixpoint spaces (n : nat) : string :=
  match n with
  | O => ""
  | S n' => String " " (spaces n')
  end.

(** What [json.dumps] comes to: the text, the [ValueError] of an integer of
    too many digits, or the [RecursionError] of a value nested deeper than
    the interpreter has room for. *)
Inductive dumped : Type :=
| Written (text : string)
| IntTooLong
| TooDeep.

Fixpoint encode_all {A : Type} (f : A -> dumped) (l : list A)
    : list string + dumped :=
  match l with
  | [] => inl []
  | x :: l' =>
      match f x with
      | Written t =>
          match encode_all f l' with
          | inl ts => inl (t :: ts)
          | inr e => inr e
          end
      | e => inr e
      end
  end.

(** The encoder at nesting depth [level], with [ind] spaces per level and
    room for [limit] more lists or dictionaries, one inside the other. *)
Fixpoint encode (limit ind level : nat) (o : pyobj) {struct o} : dumped :=
  match o with
  | PNone => Written "null"
  | PBool true => Written "true"
  | PBool false => Written "false"
  | PInt z =>
      match int_str z with
      | Return t => Written t
      | Raise _ => IntTooLong
      end
  | PFloat f => Written (float_json f)
  | PStr s => Written (encode_basestring_ascii s)
  | PList l =>
      match limit with
      | O => TooDeep
      | S limit' =>
          match l with
          | [] => Written "[]"
          | _ :: _ =>
              let newline_indent := nl ++ spaces (ind * S level) in
              match encode_all (encode limit' ind (S level)) l with
              | inl ts =>
                  Written ("[" ++ newline_indent
                           ++ join ("," ++ newline_indent) ts
                           ++ nl ++ spaces (ind * level) ++ "]")
              | inr e => e
              end
          end
      end
  | PDict d =>
      match limit with
      | O => TooDeep
      | S limit' =>
          match d with
          | [] => Written "{}"
          | _ :: _ =>
              let newline_indent := nl ++ spaces (ind * S level) in
              match encode_all
                      (fun kv =>
                         match encode limit' ind (S level) (snd kv) with
                         | Written t =>
                             Written (encode_basestring_ascii (fst kv) ++ ": " ++ t)
                         | e => e
                         end) d with
              | inl ts =>
                  Written ("{" ++ newline_indent
                           ++ join ("," ++ newline_indent) ts
                           ++ nl ++ spaces (ind * level) ++ "}")
              | inr e => e
              end
          end
      end
  end.

Definition dumps (limit : nat) (indent : Z) (o : pyobj) : dumped :=
  encode limit (Z.to_nat indent) 0 o.

(** *** [json.loads(s)] *)

(** The exceptions [json.loads] raises: [json.JSONDecodeError] on a
    malformed document, the [ValueError] of [int()] on an integer literal
    of too many digits, and the [RecursionError] of an array or object
    nested deeper than the interpreter has room for. *)
Inductive decode_failure : Type :=
| JSONDecodeError
| IntValueError
| DecodeRecursionError (container : string).

Definition failure_class (f : decode_failure) : exc_class :=
  match f with
  | JSONDecodeError => Py.JSONDecodeError
  | IntValueError => Py.ValueError
  | DecodeRecursionError _ => OtherError "RecursionError"
  end.

(** The exception of a document nested too deep, as the decoder words it. *)
Definition decode_overflow (container : string) : exn :=
  RecursionError (" while decoding a JSON " ++ container
                  ++ " from a unicode string").

(** What decoding comes to: a value or an exception. *)
Inductive outcome (A : Type) : Type :=
| Ok (a : A)
| Fail (f : decode_failure).
Arguments Ok {A} a.
Arguments Fail {A} f.

Definition and_then {A B : Type} (m : outcome A) (f : A -> outcome B)
    : outcome B :=
  match m with
  | Ok a => f a
  | Fail e => Fail e
  end.

Definition is_json_ws (c : ascii) : bool :=
  Ascii.eqb c " " || Ascii.eqb c "009" || Ascii.eqb c "010" || Ascii.eqb c "013".

Fixpoint skip_ws (s : string) : string :=
  match s with
  | "" => ""
  | String c s' => if is_json_ws c then skip_ws s' else s
  end.

Definition hex_value (c : ascii) : option N :=
  if in_range "0" "9" c then Some (ord c - 48)%N
  else if in_range "a" "f" c then Some (ord c - 87)%N
  else if in_range "A" "F" c then Some (ord c - 55)%N
  else None.

Definition hex4 (a b c d : ascii) : option N :=
  match hex_value a, hex_value b, hex_value c, hex_value d with
  | Some x, Some y, Some z, Some w => Some (((x * 16 + y) * 16 + z) * 16 + w)%N
  | _, _, _, _ => None
  end.

(** A simple escape: the character after the backslash. *)
Definition unescape (e : ascii) : option ascii :=
  if Ascii.eqb e DQUOTE then Some DQUOTE
  else if Ascii.eqb e BACKSLASH then Some BACKSLASH
  else if Ascii.eqb e "/" then Some "/"%char
  else if Ascii.eqb e "b" then Some "008"%char
  else if Ascii.eqb e "f" then Some "012"%char
  else if Ascii.eqb e "n" then Some "010"%char
  else if Ascii.eqb e "r" then Some "013"%char
  else if Ascii.eqb e "t" then Some "009"%char
  else None.

Definition is_high_surrogate (n : N) : bool := ((55296 <=? n) && (n <=? 56319))%N.
Definition is_low_surrogate (n : N) : bool := ((56320 <=? n) && (n <=? 57343))%N.

(** The code point of a surrogate pair *)
Definition join_surrogates (hi lo : N) : N :=
  (65536 + ((hi - 55296) * 1024 + (lo - 56320)))%N.

(** The body of a string, from after the opening quote: the decoded string
    and what follows the closing quote. Control characters are refused
    ([strict] is the default). The escape of a high surrogate that is
    followed by the escape of a low one gives the one code point of the
    pair; when the escape that follows is well formed but not of a low
    surrogate, it is read on its own. *)
Fixpoint scanstring (s : string) : outcome (ustring * string) :=
  match s with
  | "" => Fail JSONDecodeError
  | String c s' =>
      if Ascii.eqb c DQUOTE then Ok ([], s')
      else if Ascii.eqb c BACKSLASH then
        match s' with
        | "" => Fail JSONDecodeError
        | String e s'' =>
            if Ascii.eqb e "u" then
              match s'' with
              | String h1 (String h2 (String h3 (String h4 s4))) =>
                  match hex4 h1 h2 h3 h4 with
                  | None => Fail JSONDecodeError
                  | Some n =>
                      let alone :=
                        and_then (scanstring s4) (fun r => Ok (n :: fst r, snd r)) in
                      if is_high_surrogate n then
                        match s4 with
                        | String b (String u
                            (String g1 (String g2 (String g3 (String g4 s5))))) =>
                            if Ascii.eqb b BACKSLASH && Ascii.eqb u "u" then
                              match hex4 g1 g2 g3 g4 with
                              | None => Fail JSONDecodeError
                              | Some m =>
                                  if is_low_surrogate m then
                                    and_then (scanstring s5) (fun r =>
                                      Ok (join_surrogates n m :: fst r, snd r))
                                  else alone
                              end
                            else alone
                        | _ => alone
                        end
                      else alone
                  end
              | _ => Fail JSONDecodeError
              end
            else
              match unescape e with
              | None => Fail JSONDecodeError
              | Some c' =>
                  and_then (scanstring s'') (fun r =>
                    Ok (ord c' :: fst r, snd r))
              end
        end
      else if (ord c <? 32)%N then Fail JSONDecodeError
      else and_then (scanstring s') (fun r => Ok (ord c :: fst r, snd r))
  end.

(** The longest prefix of characters of a class, and the rest. *)
Fixpoint span (p : ascii -> bool) (s : string) : string * string :=
  match s with
  | "" => ("", "")
  | String c s' =>
      if p c then let r := span p s' in (String c (fst r), snd r)
      else ("", s)
  end.

Definition digit (c : ascii) : bool := in_range "0" "9" c.

(** The number at the head of [s]: its text, whether it has a fraction or
    an exponent, and the rest. *)
Definition match_number (s : string) : option (string * bool * string) :=
  let '(sign, s1) :=
    match s with
    | String "-" t => ("-", t)
    | _ => ("", s)
    end in
  match
    match s1 with
    | String c t =>
        if in_range "1" "9" c then
          let r := span digit t in Some (String c (fst r), snd r)
        else if Ascii.eqb c "0" then Some ("0", t)
        else None
    | "" => None
    end
  with
  | None => None
  | Some (int_part, s2) =>
      let '(frac, s3) :=
        match s2 with
        | String "." (String d t) =>
            if digit d then
              let r := span digit t in ("." ++ String d (fst r), snd r)
            else ("", s2)
        | _ => ("", s2)
        end in
      let '(exp, s4) :=
        match s3 with
        | String e t =>
            if Ascii.eqb e "e" || Ascii.eqb e "E" then
              let '(esign, t1) :=
                match t with
                | String "+" t' => ("+", t')
                | String "-" t' => ("-", t')
                | _ => ("", t)
                end in
              match span digit t1 with
              | ("", _) => ("", s3)
              | (ds, rest) => (String e (esign ++ ds), rest)
              end
            else ("", s3)
        | "" => ("", s3)
        end in
      Some (sign ++ int_part ++ frac ++ exp,
            negb (String.eqb frac "" && String.eqb exp ""), s4)
  end.

Definition int_of_literal (lit : string) : outcome pyobj :=
  let digits := match lit with String "-" t => t | _ => lit end in
  if (int_max_str_digits <? String.length digits)%nat then Fail IntValueError
  else
    match DecimalString.NilZero.int_of_string lit with
    | Some i => Ok (PInt (Z.of_int i))
    | None => Fail JSONDecodeError
    end.

Section Decoder.

(** The [parse_float] hook of the decoder ([float] by default), which also
    stands for [parse_constant] on [NaN], [Infinity] and [-Infinity]. *)
Variable parse_float : string -> pyfloat.

(** [scan_once] with the array and object loops. [limit] is the room the
    interpreter has for arrays and objects one inside the other: entering
    one more raises [RecursionError]. [fuel] bounds the number of calls of
    the model; the length of the document is always enough. *)
Fixpoint scan_once (fuel limit : nat) (s : string) : outcome (pyobj * string) :=
  match fuel with
  | O => Fail JSONDecodeError
  | S fuel' =>
      match s with
      | "" => Fail JSONDecodeError
      | String c s' =>
          if Ascii.eqb c DQUOTE then
            and_then (scanstring s') (fun r => Ok (PStr (fst r), snd r))
          else if Ascii.eqb c "{" then
            match limit with
            | O => Fail (DecodeRecursionError "object")
            | S limit' =>
                match skip_ws s' with
                | String "}" rest => Ok (PDict [], rest)
                | s1 => members fuel' limit' s1 []
                end
            end
          else if Ascii.eqb c "[" then
            match limit with
            | O => Fail (DecodeRecursionError "array")
            | S limit' =>
                match skip_ws s' with
                | String "]" rest => Ok (PList [], rest)
                | s1 => items fuel' limit' s1 []
                end
            end
          else if startswith "null" s then Ok (PNone, drop 4 s)
          else if startswith "true" s then Ok (PBool true, drop 4 s)
          else if startswith "false" s then Ok (PBool false, drop 5 s)
          else if startswith "NaN" s then Ok (PFloat (parse_float "NaN"), drop 3 s)
          else if startswith "Infinity" s
               then Ok (PFloat (parse_float "Infinity"), drop 8 s)
          else if startswith "-Infinity" s
               then Ok (PFloat (parse_float "-Infinity"), drop 9 s)
          else
            match match_number s with
            | None => Fail JSONDecodeError
            | Some (lit, true, rest) => Ok (PFloat (parse_float lit), rest)
            | Some (lit, false, rest) =>
                and_then (int_of_literal lit) (fun v => Ok (v, rest))
            end
      end
  end
with items (fuel limit : nat) (s : string) (acc : list pyobj)
    : outcome (pyobj * string) :=
  match fuel with
  | O => Fail JSONDecodeError
  | S fuel' =>
      and_then (scan_once fuel' limit s) (fun r =>
        match skip_ws (snd r) with
        | String "]" rest => Ok (PList (acc ++ [fst r]), rest)
        | String "," rest => items fuel' limit (skip_ws rest) (acc ++ [fst r])
        | _ => Fail JSONDecodeError
        end)
  end
with members (fuel limit : nat) (s : string) (acc : list (ustring * pyobj))
    : outcome (pyobj * string) :=
  match fuel with
  | O => Fail JSONDecodeError
  | S fuel' =>
      match s with
      | String c s' =>
          if Ascii.eqb c DQUOTE then
            and_then (scanstring s') (fun key =>
              match skip_ws (snd key) with
              | String ":" s1 =>
                  and_then (scan_once fuel' limit (skip_ws s1)) (fun r =>
                    let acc' := dict_set (fst key) (fst r) acc in
                    match skip_ws (snd r) with
                    | String "}" rest => Ok (PDict acc', rest)
                    | String "," rest => members fuel' limit (skip_ws rest) acc'
                    | _ => Fail JSONDecodeError
                    end)
              | _ => Fail JSONDecodeError
              end)
          else Fail JSONDecodeError
      | "" => Fail JSONDecodeError
      end
  end.

(** [json.loads(s)]: one value, whitespace around it, nothing else. *)
Definition loads (limit : nat) (s : string) : outcome pyobj :=
  and_then (scan_once (S (String.length s)) limit (skip_ws s)) (fun r =>
    match skip_ws (snd r) with
    | "" => Ok (fst r)
    | String _ _ => Fail JSONDecodeError
    end).

End Decoder.

End Json.

(* ===================================================================== *)
(** ** extractors/skills_extractor.py *)
(* ===================================================================== *)

Module SkillsExtractor.
Import PyStr Re Py Json.

(** The [common_skills] of [_fallback_extraction]. *)
Definition common_skills : list string :=
  [ "Python"; "Java"; "JavaScript"; "C++"; "C#"; "Ruby"; "Go"; "Rust";
    "SQL"; "NoSQL"; "MongoDB"; "PostgreSQL"; "MySQL";
    "React"; "Angular"; "Vue"; "Node.js"; "Django"; "Flask"; "Spring";
    "Docker"; "Kubernetes"; "AWS"; "Azure"; "GCP";
    "Git"; "CI/CD"; "Jenkins"; "Linux"; "Unix";
    "Machine Learning"; "Deep Learning"; "AI"; "NLP"; "Computer Vision";
    "TensorFlow"; "PyTorch"; "Scikit-learn"; "Pandas"; "NumPy";
    "REST API"; "GraphQL"; "Microservices"; "Agile"; "Scrum" ].

(** [_fallback_extraction]: the loop appends to [found_skills]. *)
Definition _fallback_extraction (text : string) : list string :=
  let text_lower := lower text in
  fold_left
    (fun (found_skills : list string) (skill : string) =>
       if contains (lower skill) text_lower
       then (found_skills ++ [skill])%list
       else found_skills)
    common_skills [].

(** [r'\[.*?\]'] with [re.DOTALL] *)
Definition bracketed : regex :=
  Cat (chr "[") (Cat (Star false (Cls dot_all)) (chr "]")).

(** [except (json.JSONDecodeError, ValueError): return []]: the classes
    the clause names, [JSONDecodeError] being a [ValueError]; an exception
    of another class is not caught. *)
Definition except_ValueError {A : Type} (body : result A) (handler : result A)
    : result A :=
  match body with
  | Return a => Return a
  | Raise e => if is_ValueError (exn_class e) then handler else Raise e
  end.

Section Parse.

Variable parse_float : string -> pyfloat.
Variable unicode_printable : N -> bool.
(** The room the interpreter has left, in nested calls, where [json.loads]
    is called and where [str] is; both depend on how deep in calls the
    extractor itself runs. *)
Variable decode_limit : nat.
Variable str_limit : nat.

(** [_parse_skills_from_response]. The two exceptions of [json.loads] the
    [except] clause names give the empty list, and so does a [ValueError]
    of [str]; a [RecursionError], of [json.loads] or of [str], is not
    caught here. *)
Definition _parse_skills_from_response (response_text : string)
    : result (list ustring) :=
  match re_search bracketed response_text with
  | Some (_, json_str) =>
      match loads parse_float decode_limit json_str with
      | Ok (PList skills) =>
          except_ValueError
            (mapM (fun skill =>
                     bind (py_str unicode_printable str_limit skill)
                       (fun s => Return (ustrip s)))
                  (List.filter py_truthy skills))
            (Return [])
      | Ok _ => Return []
      | Fail JSONDecodeError => Return []
      | Fail IntValueError => Return []
      | Fail (DecodeRecursionError container) => Raise (decode_overflow container)
      end
  | None => Return []
  end.

End Parse.

Definition quoted (s : string) : string := String DQUOTE (s ++ String DQUOTE "").

(** The f-string of the request: the resume text on a line of its own. *)
Definition prompt_of (text : string) : string :=
  let pad := spaces 16 in
  join nl
    [ "";
      pad ++ "You are a resume parser. Extract all technical skills from the following resume text.";
      pad;
      pad ++ "Instructions:";
      pad ++ "1. Identify programming languages, frameworks, tools, technologies, and technical methodologies";
      pad ++ "2. Return ONLY a valid JSON array of skills as strings";
      pad ++ "3. Each skill should be a concise term or phrase";
      pad ++ "4. Remove duplicates and normalize similar terms";
      pad ++ "5. Include only technical skills, not soft skills";
      pad ++ "6. Do not include any explanation, just the JSON array";
      pad;
      pad ++ "Resume Text:";
      pad ++ text;
      pad;
      pad ++ "Return format (example):";
      pad ++ "[" ++ join ", " (map quoted
               ["Python"; "Machine Learning"; "TensorFlow"; "Docker"; "AWS"; "SQL"])
          ++ "]";
      pad;
      pad ++ "JSON Array of Skills:";
      pad ].

(** What [generate_content] returns: an object that may be false, and
    whose [text] property may itself raise. *)
Inductive response : Type :=
| Falsy
| Reply (text : result string).

Section Extract.

Variable W : Type.
(** [self.model.generate_content], the remote call *)
Variable generate_content : string -> eff W response.
(** [print] *)
Variable print : string -> W -> W.
Variable parse_float : string -> pyfloat.
Variable unicode_printable : N -> bool.
Variable decode_limit : nat.
Variable str_limit : nat.

Local Open Scope eff_scope.

(** [SkillsExtractor.extract] *)
Definition extract (text : string) : eff W (list ustring) :=
  if is_blank text then ret [] else
  etry
    (response <- generate_content (prompt_of text) ;;
     match response with
     | Falsy => ret []
     | Reply text_property =>
         response_text <- lift text_property ;;
         if negb (truthy response_text) then ret []
         else lift (_parse_skills_from_response parse_float unicode_printable
                      decode_limit str_limit response_text)
     end)
    (fun e w =>
       (Return (map wide (_fallback_extraction text)),
        print ("Warning: Gemini API call failed: " ++ exn_str e) w)).

End Extract.

End SkillsExtractor.

(* ===================================================================== *)
(** ** models/resume_data.py *)
(* ===================================================================== *)

Module ResumeData.
Import Json.

(** The data class. The field annotations ([str], [str], [List[str]]) are
    not checked by Python: a field holds whatever the extractor returned. *)
Record t : Type := mk { name : pyobj; email : pyobj; skills : pyobj }.

(** [to_dict]: [asdict(self)], the fields in declaration order. *)
Definition to_dict (self : t) : pyobj :=
  PDict [(wide "name", name self); (wide "email", email self);
         (wide "skills", skills self)].

(** [to_json(indent)]: [json.dumps(self.to_dict(), indent=indent)].
    [asdict] and the encoder both descend into the lists and dictionaries
    of the fields and raise [RecursionError] where the interpreter has no
    room left; [limit] is the number of lists or dictionaries one inside
    the other there is room for, the mapping of the record being the
    first. *)
Definition to_json (limit : nat) (self : t) (indent : Z) : dumped :=
  dumps limit indent (to_dict self).

End ResumeData.

(* ===================================================================== *)
(** ** parsers/pdf_parser.py *)
(* ===================================================================== *)

Module PDFParser.
Import PyStr Py.

Section Parse.

(** [Path(p).exists()] and [Path(p).suffix] *)
Variable exists_ : string -> bool.
Variable suffix : string -> string.
(** [pdfplumber.open(p)]: it raises, or gives the pages; a page is what its
    [extract_text()] does: it raises, or returns a text or [None]. *)
Variable pdfplumber_open : string -> result (list (result (option string))).

(** The loop over [pdf.pages]. *)
Fixpoint extract_pages (pages : list (result (option string)))
    (text_content : list string) : result (list string) :=
  match pages with
  | [] => Return text_content
  | page :: rest =>
      bind page (fun page_text =>
        match page_text with
        | Some t =>
            if truthy t then extract_pages rest (text_content ++ [t])%list
            else extract_pages rest text_content
        | None => extract_pages rest text_content
        end)
  end.

(** [PDFParser.parse] *)
Definition parse (file_path : string) : result string :=
  if negb (exists_ file_path) then
    Raise (mk_exn FileNotFoundError ("PDF file not found: " ++ file_path))
  else if negb (String.eqb (lower (suffix file_path)) ".pdf") then
    Raise (mk_exn ValueError ("File is not a PDF: " ++ file_path))
  else
    try_except
      (bind (pdfplumber_open file_path) (fun pages =>
       bind (extract_pages pages []) (fun text_content =>
         let full_text := join nl text_content in
         if negb (truthy (strip full_text)) then
           Raise (mk_exn ValueError
                    "PDF appears to be empty or contains no extractable text")
         else Return full_text)))
      (fun e => Raise (mk_exn Exception ("Failed to parse PDF file: " ++ exn_str e))).

End Parse.

End PDFParser.

(* ===================================================================== *)
(** ** core/resume_extractor.py *)
(* ===================================================================== *)

Module ResumeExtractor.
Import PyStr Py Json.

Section Coordinator.

Variable W : Type.

(** A field extractor: its [extract] method. *)
Definition FieldExtractor : Type := string -> eff W pyobj.

(** [str(KeyError(key))] is [repr(key)]. *)
Definition KeyError_of (key : string) : exn := mk_exn KeyError (str_repr key).

(** [d[key]] *)
Definition getitem (d : gmap string FieldExtractor) (key : string)
    : result FieldExtractor :=
  match d !! key with
  | Some x => Return x
  | None => Raise (KeyError_of key)
  end.

Definition required_fields : gset string := {[ "name"; "email"; "skills" ]}.

(** [__init__]: the new object is its [field_extractors]. [set_str] is
    [str] on a set, whose order of elements Python does not fix. *)
Definition init (set_str : gset string -> string)
    (field_extractors : gmap string FieldExtractor)
    : result (gmap string FieldExtractor) :=
  let provided_fields := dom field_extractors in
  if negb (bool_decide (required_fields ⊆ provided_fields)) then
    let missing := required_fields ∖ provided_fields in
    Raise (mk_exn ValueError
             ("Missing required field extractors: " ++ set_str missing))
  else Return field_extractors.

Local Open Scope eff_scope.

(** [extract] *)
Definition extract (self : gmap string FieldExtractor) (text : string)
    : eff W ResumeData.t :=
  if is_blank text then
    raise (mk_exn ValueError "Cannot extract from empty text")
  else
    etry
      (name_extractor <- lift (getitem self "name") ;;
       name <- name_extractor text ;;
       email_extractor <- lift (getitem self "email") ;;
       email <- email_extractor text ;;
       skills_extractor <- lift (getitem self "skills") ;;
       skills <- skills_extractor text ;;
       ret (ResumeData.mk name email skills))
      (fun e =>
         raise (mk_exn Exception ("Failed to extract resume data: " ++ exn_str e))).

(** [add_extractor] *)
Definition add_extractor (self : gmap string FieldExtractor)
    (field_name : string) (extractor : FieldExtractor)
    : gmap string FieldExtractor :=
  <[field_name := extractor]> self.

(** [remove_extractor]: the outcome of the call and the registry after it. *)
Definition remove_extractor (self : gmap string FieldExtractor)
    (field_name : string) : result unit * gmap string FieldExtractor :=
  match self !! field_name with
  | Some _ => (Return tt, delete field_name self)
  | None =>
      (Raise (KeyError_of ("Field extractor '" ++ field_name ++ "' not found")),
       self)
  end.

(** [get_extractor] *)
Definition get_extractor (self : gmap string FieldExtractor)
    (field_name : string) : result FieldExtractor :=
  match self !! field_name with
  | Some x => Return x
  | None =>
      Raise (KeyError_of ("Field extractor '" ++ field_name ++ "' not found"))
  end.

End Coordinator.

End ResumeExtractor.

(* ===================================================================== *)
(** ** core/framework.py *)
(* ===================================================================== *)

Module ResumeParserFramework.
Import PyStr Py Json.

Section Facade.

Variable W : Type.
(** [Path(p).exists()], in the current state of the file system *)
Variable exists_ : string -> W -> bool.

(** The facade: the parser and the coordinator it is bound to. *)
Record t : Type := mk {
  file_parser : string -> eff W string;
  resume_extractor : gmap string (ResumeExtractor.FieldExtractor W)
}.

Local Open Scope eff_scope.

(** [parse_resume] *)
Definition parse_resume (self : t) (file_path : string) : eff W ResumeData.t :=
  fun w =>
    if negb (exists_ file_path w) then
      (Raise (mk_exn FileNotFoundError ("Resume file not found: " ++ file_path)), w)
    else
      (text <- etry (file_parser self file_path)
                 (fun e => raise (mk_exn Exception
                                    ("Failed to parse file: " ++ exn_str e))) ;;
       etry (ResumeExtractor.extract W (resume_extractor self) text)
         (fun e => raise (mk_exn Exception
                            ("Failed to extract resume data: " ++ exn_str e)))) w.

(** [set_parser] and [set_extractor] *)
Definition set_parser (self : t) (p : string -> eff W string) : t :=
  mk p (resume_extractor self).
Definition set_extractor (self : t)
    (x : gmap string (ResumeExtractor.FieldExtractor W)) : t :=
  mk (file_parser self) x.

End Facade.

End ResumeParserFramework.

(* ===================================================================== *)
(** * Properties *)
(* ===================================================================== *)

(** ** Strings *)

Module PyStrFacts.
Import PyStr.

(** Every character of [s] is in the class [p]. *)
Fixpoint all_chars (p : ascii -> bool) (s : string) : bool :=
  match s with
  | "" => true
  | String c s' => p c && all_chars p s'
  end.

Lemma append_nil_r (s : string) : s ++ "" = s.
Proof. induction s as [|c s IH]; simpl; [reflexivity | now rewrite IH]. Qed.

Lemma append_assoc (a b c : string) : (a ++ b) ++ c = a ++ (b ++ c).
Proof. induction a as [|x a IH]; simpl; [reflexivity | now rewrite IH]. Qed.

Lemma length_append (a b : string) :
  String.length (a ++ b) = String.length a + String.length b.
Proof. induction a as [|x a IH]; simpl; [reflexivity | now rewrite IH]. Qed.

Lemma append_eq_nil (a b : string) : a ++ b = "" -> a = "" /\ b = "".
Proof. destruct a; simpl; [auto | discriminate]. Qed.

Lemma append_cancel_l (a b c : string) : a ++ b = a ++ c -> b = c.
Proof. induction a as [|x a IH]; simpl; [auto | intros H; injection H; auto]. Qed.

Lemma all_chars_append p (a b : string) :
  all_chars p (a ++ b) = all_chars p a && all_chars p b.
Proof.
  induction a as [|x a IH]; simpl; [reflexivity |].
  rewrite IH. now rewrite andb_assoc.
Qed.

Lemma take_append (a b : string) : take (String.length a) (a ++ b) = a.
Proof. induction a as [|x a IH]; simpl; [now destruct b | now rewrite IH]. Qed.

Lemma drop_append (a b : string) : drop (String.length a) (a ++ b) = b.
Proof. induction a as [|x a IH]; simpl; [reflexivity | exact IH]. Qed.

Lemma take_all (s : string) : take (String.length s) s = s.
Proof. induction s as [|x s IH]; simpl; [reflexivity | now rewrite IH]. Qed.

Lemma lower_append (a b : string) : lower (a ++ b) = lower a ++ lower b.
Proof. induction a as [|x a IH]; simpl; [reflexivity | now rewrite IH]. Qed.

(** *** [strip] and blank texts *)

Lemma rstrip_nil_iff (s : string) :
  rstrip s = "" <-> all_chars isspace s = true.
Proof.
  induction s as [|c s IH]; simpl; [tauto |].
  destruct (rstrip s) eqn:E.
  - destruct (isspace c); simpl.
    + split; [intros _; now apply IH | reflexivity].
    + split; discriminate.
  - split; [discriminate |].
    intros H. apply andb_true_iff in H as [_ H].
    apply IH in H. discriminate.
Qed.

Lemma all_space_lstrip (s : string) :
  all_chars isspace (lstrip s) = all_chars isspace s.
Proof.
  induction s as [|c s IH]; simpl; [reflexivity |].
  destruct (isspace c) eqn:E; simpl; [exact IH | now rewrite E].
Qed.

Lemma strip_nil_iff (s : string) :
  strip s = "" <-> all_chars isspace s = true.
Proof. unfold strip. now rewrite rstrip_nil_iff, all_space_lstrip. Qed.

(** The guard [not text or not text.strip()] holds exactly of the texts
    that are empty or whitespace-only. *)
Lemma is_blank_iff (text : string) :
  is_blank text = true <-> all_chars isspace text = true.
Proof.
  unfold is_blank. rewrite <- strip_nil_iff.
  destruct text as [|c s]; simpl; [tauto |].
  destruct (strip (String c s)); simpl; split; congruence.
Qed.

Lemma is_blank_false_iff (text : string) :
  is_blank text = false <-> all_chars isspace text = false.
Proof.
  pose proof (is_blank_iff text) as H.
  destruct (is_blank text), (all_chars isspace text); intuition congruence.
Qed.

(** *** [startswith] and [in] *)

Lemma startswith_iff (needle hay : string) :
  startswith needle hay = true <-> exists post, hay = needle ++ post.
Proof.
  revert hay. induction needle as [|a n IH]; intros hay; simpl.
  - split; [intros _; now exists hay | reflexivity].
  - destruct hay as [|b h].
    + split; [discriminate | intros [p Hp]; discriminate].
    + rewrite andb_true_iff, IH. split.
      * intros [Hab [p ->]]. apply Ascii.eqb_eq in Hab as ->. now exists p.
      * intros [p Hp]. injection Hp as -> ->. split; [apply Ascii.eqb_refl | now exists p].
Qed.

Lemma contains_iff (needle hay : string) :
  contains needle hay = true <-> exists pre post, hay = pre ++ needle ++ post.
Proof.
  induction hay as [|b h IH].
  - simpl. rewrite orb_false_r, startswith_iff. split.
    + intros [p Hp]. now exists "", p.
    + intros [pre [post H]]. symmetry in H.
      apply append_eq_nil in H as [-> H]. now exists post.
  - cbn [contains]. rewrite orb_true_iff, startswith_iff, IH. split.
    + intros [[p Hp] | [pre [post Hp]]].
      * now exists "", p.
      * exists (String b pre), post. simpl. now rewrite Hp.
    + intros [[|c pre] [post Hp]]; simpl in Hp.
      * left. now exists post.
      * right. injection Hp as _ ->. now exists pre, post.
Qed.

End PyStrFacts.

(** ** The coordinator *)

Module CoordinatorFacts.
Import PyStr PyStrFacts Py Json.
Import ResumeExtractor.

(** The two errors of [extract]: the one for an empty text, and the one
    that wraps the cause of a failed extraction. *)
Definition EmptyInput : exn := mk_exn ValueError "Cannot extract from empty text".
Definition ExtractionFailed (cause : exn) : exn :=
  mk_exn Exception ("Failed to extract resume data: " ++ exn_str cause).

(** Extractors that log their call in a world of log lines, for examples. *)
Definition logging (field : string) (outcome : result pyobj)
    : FieldExtractor (list string) :=
  fun text w => (outcome, (w ++ [(field ++ " <- " ++ text)%string])%list).

Definition logged_registry (n e s : result pyobj)
    : gmap string (FieldExtractor (list string)) :=
  <["name" := logging "name" n]>
    (<["email" := logging "email" e]>
       (<["skills" := logging "skills" s]> ∅)).

Section Extract.

Variable W : Type.
Implicit Types (self : gmap string (FieldExtractor W)) (text : string) (w : W).

Lemma getitem_Some self key x :
  self !! key = Some x -> getitem W self key = Return x.
Proof. unfold getitem. now intros ->. Qed.

Lemma getitem_None self key :
  self !! key = None -> getitem W self key = Raise (KeyError_of key).
Proof. unfold getitem. now intros ->. Qed.

Lemma extract_blank self text w :
  is_blank text = true -> extract W self text w = (Raise EmptyInput, w).
Proof. unfold extract. now intros ->. Qed.

(** C1. On an empty or whitespace-only text [extract] raises the
    empty-input error and calls no extractor. On any other text it calls
    the extractors registered under name, email and skills, in that order,
    each on the same text and each in the world the previous one left; it
    returns the record of the three results when all three return, and
    otherwise raises one error that wraps the first cause, with no record. *)
Theorem extract_calls_three_extractors_in_order
    self (name_x email_x skills_x : FieldExtractor W) text w :
  self !! "name" = Some name_x ->
  self !! "email" = Some email_x ->
  self !! "skills" = Some skills_x ->
  (all_chars isspace text = true ->
     extract W self text w = (Raise EmptyInput, w))
  /\ (all_chars isspace text = false ->
     extract W self text w =
       match name_x text w with
       | (Raise e, w1) => (Raise (ExtractionFailed e), w1)
       | (Return name, w1) =>
           match email_x text w1 with
           | (Raise e, w2) => (Raise (ExtractionFailed e), w2)
           | (Return email, w2) =>
               match skills_x text w2 with
               | (Raise e, w3) => (Raise (ExtractionFailed e), w3)
               | (Return skills, w3) =>
                   (Return (ResumeData.mk name email skills), w3)
               end
           end
       end).
Proof.
  intros Hn He Hs. split.
  - intros Hb. apply extract_blank. now apply is_blank_iff.
  - intros Hb. apply is_blank_false_iff in Hb.
    unfold extract. rewrite Hb.
    unfold etry, ebind, lift, ret, raise.
    rewrite (getitem_Some _ _ _ Hn), (getitem_Some _ _ _ He),
      (getitem_Some _ _ _ Hs).
    destruct (name_x text w) as [[name | e] w1]; [| reflexivity].
    destruct (email_x text w1) as [[email | e] w2]; [| reflexivity].
    destruct (skills_x text w2) as [[skills | e] w3]; reflexivity.
Qed.

(** C10. A registry that passed the check of the constructor loses the
    reserved keys like any other: [remove_extractor] succeeds on every key
    that is present and raises only on an absent one, [add_extractor]
    overwrites whatever is registered, and once a reserved key is removed
    [extract] on a text that is not blank raises the wrapped [KeyError] of
    the lookup (after the extractors called before it returned) and returns
    no record; the constructor would refuse the registry that is left. *)
Theorem reserved_keys_can_be_removed
    (set_str : gset string -> string)
    self (name_x email_x skills_x : FieldExtractor W) text w :
  self !! "name" = Some name_x ->
  self !! "email" = Some email_x ->
  self !! "skills" = Some skills_x ->
  all_chars isspace text = false ->
  init W set_str self = Return self
  /\ (forall key, is_Some (self !! key) ->
        remove_extractor W self key = (Return tt, delete key self))
  /\ (forall key, self !! key = None ->
        remove_extractor W self key =
          (Raise (KeyError_of ("Field extractor '" ++ key ++ "' not found")), self))
  /\ (forall key x, add_extractor W self key x !! key = Some x)
  /\ extract W (snd (remove_extractor W self "name")) text w =
       (Raise (ExtractionFailed (KeyError_of "name")), w)
  /\ extract W (snd (remove_extractor W self "email")) text w =
       match name_x text w with
       | (Raise e, w1) => (Raise (ExtractionFailed e), w1)
       | (Return _, w1) => (Raise (ExtractionFailed (KeyError_of "email")), w1)
       end
  /\ extract W (snd (remove_extractor W self "skills")) text w =
       match name_x text w with
       | (Raise e, w1) => (Raise (ExtractionFailed e), w1)
       | (Return _, w1) =>
           match email_x text w1 with
           | (Raise e, w2) => (Raise (ExtractionFailed e), w2)
           | (Return _, w2) =>
               (Raise (ExtractionFailed (KeyError_of "skills")), w2)
           end
       end
  /\ exn_str (ExtractionFailed (KeyError_of "name"))
       = "Failed to extract resume data: 'name'"
  /\ (forall key, key ∈ required_fields ->
        exists e, init W set_str (delete key self) = Raise e
                  /\ exn_class e = ValueError).
Proof.
  intros Hn He Hs Hb. apply is_blank_false_iff in Hb.
  assert (Hdom : required_fields ⊆ dom self).
  { unfold required_fields. intros k Hk.
    apply elem_of_dom.
    apply elem_of_union in Hk as [Hk | Hk];
      [apply elem_of_union in Hk as [Hk | Hk] |];
      apply elem_of_singleton in Hk as ->; eauto. }
  repeat split.
  - unfold init. now rewrite bool_decide_eq_true_2.
  - intros key [x Hx]. unfold remove_extractor. now rewrite Hx.
  - intros key Hx. unfold remove_extractor. now rewrite Hx.
  - intros key x. unfold add_extractor. apply lookup_insert_eq.
  - unfold remove_extractor. rewrite Hn. cbn [snd].
    unfold extract. rewrite Hb. unfold etry, ebind, lift, raise.
    rewrite getitem_None by apply lookup_delete_eq. reflexivity.
  - unfold remove_extractor. rewrite He. cbn [snd].
    unfold extract. rewrite Hb. unfold etry, ebind, lift, raise.
    rewrite (getitem_Some _ "name" name_x)
      by (rewrite lookup_delete_ne; [exact Hn | discriminate]).
    rewrite getitem_None by apply lookup_delete_eq.
    destruct (name_x text w) as [[name | e] w1]; reflexivity.
  - unfold remove_extractor. rewrite Hs. cbn [snd].
    unfold extract. rewrite Hb. unfold etry, ebind, lift, raise.
    rewrite (getitem_Some _ "name" name_x)
      by (rewrite lookup_delete_ne; [exact Hn | discriminate]).
    rewrite (getitem_Some _ "email" email_x)
      by (rewrite lookup_delete_ne; [exact He | discriminate]).
    rewrite getitem_None by apply lookup_delete_eq.
    destruct (name_x text w) as [[name | e] w1]; [| reflexivity].
    destruct (email_x text w1) as [[email | e] w2]; reflexivity.
  - intros key Hk. unfold init.
    rewrite bool_decide_eq_false_2.
    + eexists. split; reflexivity.
    + intros Hsub. specialize (Hsub key Hk).
      apply elem_of_dom in Hsub as [x Hx].
      rewrite lookup_delete_eq in Hx. discriminate.
Qed.

End Extract.

(** The theorem of C1 at a registry of logging extractors: the log shows
    the three calls, in order, each on the text. *)
Lemma extract_calls_three_extractors_witness :
  extract (list string)
    (logged_registry (Return (PStr "Ada Lovelace"))
       (Return (PStr "ada@example.com")) (Return (PList [PStr "Python"])))
    "Ada" []
  = (Return (ResumeData.mk (PStr "Ada Lovelace") (PStr "ada@example.com")
               (PList [PStr "Python"])),
     ["name <- Ada"; "email <- Ada"; "skills <- Ada"]).
Proof.
  exact (proj2 (extract_calls_three_extractors_in_order (list string)
           (logged_registry (Return (PStr "Ada Lovelace"))
              (Return (PStr "ada@example.com")) (Return (PList [PStr "Python"])))
           (logging "name" (Return (PStr "Ada Lovelace")))
           (logging "email" (Return (PStr "ada@example.com")))
           (logging "skills" (Return (PList [PStr "Python"])))
           "Ada" [] eq_refl eq_refl eq_refl) eq_refl).
Defined.

(** The theorem of C10 at the same registry: with the name extractor
    removed, [extract] raises the wrapped [KeyError] and no extractor is
    called. *)
Lemma reserved_keys_can_be_removed_witness :
  extract (list string)
    (snd (remove_extractor (list string)
            (logged_registry (Return (PStr "Ada Lovelace"))
               (Return (PStr "ada@example.com")) (Return (PList [])))
            "name"))
    "Ada" []
  = (Raise (mk_exn Exception "Failed to extract resume data: 'name'"), []).
Proof.
  exact (proj1 (proj2 (proj2 (proj2 (proj2
           (reserved_keys_can_be_removed (list string) (fun _ => "")
              (logged_registry (Return (PStr "Ada Lovelace"))
                 (Return (PStr "ada@example.com")) (Return (PList [])))
              (logging "name" (Return (PStr "Ada Lovelace")))
              (logging "email" (Return (PStr "ada@example.com")))
              (logging "skills" (Return (PList [])))
              "Ada" [] eq_refl eq_refl eq_refl eq_refl)))))).
Defined.

End CoordinatorFacts.

(** ** The facade *)

Module FrameworkFacts.
Import PyStr PyStrFacts Py Json.
Import ResumeParserFramework.

(** The errors of [parse_resume]. *)
Definition FileNotFound (file_path : string) : exn :=
  mk_exn FileNotFoundError ("Resume file not found: " ++ file_path).
Definition ReadStageFailed (cause : exn) : exn :=
  mk_exn Exception ("Failed to parse file: " ++ exn_str cause).
Definition ExtractStageFailed (cause : exn) : exn :=
  mk_exn Exception ("Failed to extract resume data: " ++ exn_str cause).

(** The errors of the two stages never coincide: their descriptions
    already differ in the fourteenth character. *)
Lemma stage_errors_differ (c1 c2 : exn) : ReadStageFailed c1 <> ExtractStageFailed c2.
Proof. unfold ReadStageFailed, ExtractStageFailed. simpl. intros H. discriminate H. Qed.

Section Run.

Variable W : Type.
Variable exists_ : string -> W -> bool.

(** C2. [parse_resume] on a path that does not exist raises the
    file-not-found error, whatever the reader is and without running it.
    On an existing path a failure of the reader is raised again as the
    read-stage error, which carries the description of the cause, and a
    failure of the coordinator as the extract-stage error; the two are told
    apart by their own descriptions, and from the file-not-found error by
    their class. *)
Theorem parse_resume_wraps_each_stage (self : t W) (file_path : string) (w : W) :
  (exists_ file_path w = false ->
     forall other_parser,
       parse_resume W exists_ (set_parser W self other_parser) file_path w
       = (Raise (FileNotFound file_path), w))
  /\ (exists_ file_path w = true ->
     parse_resume W exists_ self file_path w =
       match file_parser W self file_path w with
       | (Raise e, w1) => (Raise (ReadStageFailed e), w1)
       | (Return text, w1) =>
           match ResumeExtractor.extract W (resume_extractor W self) text w1 with
           | (Raise e, w2) => (Raise (ExtractStageFailed e), w2)
           | (Return record, w2) => (Return record, w2)
           end
       end)
  /\ (forall c1 c2, ReadStageFailed c1 <> ExtractStageFailed c2)
  /\ (forall c, exists rest,
        exn_str (ReadStageFailed c) = "Failed to parse file: " ++ rest
        /\ rest = exn_str c)
  /\ (forall c, exn_class (ReadStageFailed c) <> exn_class (FileNotFound file_path)
                /\ exn_class (ExtractStageFailed c)
                   <> exn_class (FileNotFound file_path)).
Proof.
  repeat split.
  - intros Hx other. unfold parse_resume. now rewrite Hx.
  - intros Hx. unfold parse_resume. rewrite Hx. simpl.
    unfold ebind, etry, raise.
    destruct (file_parser W self file_path w) as [[text | e] w1]; [| reflexivity].
    destruct (ResumeExtractor.extract W (resume_extractor W self) text w1)
      as [[record | e] w2]; reflexivity.
  - intros c1 c2. apply stage_errors_differ.
  - eexists. split; reflexivity.
  - discriminate.
  - discriminate.
Qed.

End Run.

(** The theorem of C2 in a world that logs the calls: the path is missing,
    so nothing is logged and the error is the file-not-found one. *)
Lemma parse_resume_wraps_each_stage_witness :
  parse_resume (list string) (fun _ _ => false)
    (mk (list string)
       (fun p w => (Return "Ada", (w ++ ["read"])%list))
       (CoordinatorFacts.logged_registry (Return PNone) (Return PNone) (Return PNone)))
    "missing.pdf" []
  = (Raise (mk_exn FileNotFoundError "Resume file not found: missing.pdf"), []).
Proof.
  exact (proj1 (parse_resume_wraps_each_stage (list string) (fun _ _ => false)
           (mk (list string)
              (fun p w => (Return "Ada", (w ++ ["read"])%list))
              (CoordinatorFacts.logged_registry (Return PNone) (Return PNone) (Return PNone)))
           "missing.pdf" []) eq_refl
           (fun p w => (Return "Ada", (w ++ ["read"])%list))).
Defined.

End FrameworkFacts.

(** ** The PDF reader *)

Module PDFParserFacts.
Import PyStr PyStrFacts Py.
Import PDFParser.

(** The error of [parse] for a failure inside its [try] block. *)
Definition ParseFailure (cause : exn) : exn :=
  mk_exn Exception ("Failed to parse PDF file: " ++ exn_str cause).
(** The exception raised, inside the [try] block, for a document without
    text. *)
Definition no_text : exn :=
  mk_exn ValueError "PDF appears to be empty or contains no extractable text".

(** The texts the loop keeps: those of the pages that yield a text that
    is not empty, in page order. *)
Fixpoint kept_texts (texts : list (option string)) : list string :=
  match texts with
  | [] => []
  | Some t :: rest => if truthy t then t :: kept_texts rest else kept_texts rest
  | None :: rest => kept_texts rest
  end.

Lemma extract_pages_all_return (texts : list (option string)) (acc : list string) :
  extract_pages (map Return texts) acc = Return (acc ++ kept_texts texts)%list.
Proof.
  revert acc. induction texts as [|t texts IH]; intros acc; simpl.
  - now rewrite app_nil_r.
  - destruct t as [t|]; [destruct (truthy t) |]; rewrite IH; try reflexivity.
    now rewrite <- app_assoc.
Qed.

Lemma extract_pages_raise (texts : list (option string)) (e : exn)
    (later : list (result (option string))) (acc : list string) :
  extract_pages (map Return texts ++ Raise e :: later)%list acc = Raise e.
Proof.
  revert acc. induction texts as [|t texts IH]; intros acc; simpl.
  - reflexivity.
  - destruct t as [t|]; [destruct (truthy t) |]; apply IH.
Qed.

Section Parse.

Variable exists_ : string -> bool.
Variable suffix : string -> string.
Variable pdfplumber_open : string -> result (list (result (option string))).

(** C5, as the code has it. [parse] checks by itself that the path exists
    (else [FileNotFoundError]) and that its suffix is [.pdf] in any case of
    letters (else [ValueError]). Then it takes the text of every page in
    document order, drops the pages without text and joins the rest with
    line feeds. A failure to open the file or to read a page is raised
    again as the parse failure that wraps it; and when the joined text is
    blank, the error raised for it is wrapped in the same way: it is the
    parse failure whose cause reads that the PDF appears to be empty. *)
Theorem parse_pdf_pages_in_order (file_path : string) :
  (exists_ file_path = false ->
     parse exists_ suffix pdfplumber_open file_path =
       Raise (mk_exn FileNotFoundError ("PDF file not found: " ++ file_path)))
  /\ (exists_ file_path = true -> lower (suffix file_path) <> ".pdf" ->
     parse exists_ suffix pdfplumber_open file_path =
       Raise (mk_exn ValueError ("File is not a PDF: " ++ file_path)))
  /\ (exists_ file_path = true -> lower (suffix file_path) = ".pdf" ->
     (forall e, pdfplumber_open file_path = Raise e ->
        parse exists_ suffix pdfplumber_open file_path = Raise (ParseFailure e))
     /\ (forall texts e later,
           pdfplumber_open file_path
             = Return (map Return texts ++ Raise e :: later)%list ->
           parse exists_ suffix pdfplumber_open file_path = Raise (ParseFailure e))
     /\ (forall texts,
           pdfplumber_open file_path = Return (map Return texts) ->
           let full_text := join nl (kept_texts texts) in
           parse exists_ suffix pdfplumber_open file_path =
             if all_chars isspace full_text
             then Raise (ParseFailure no_text)
             else Return full_text)).
Proof.
  split; [| split].
  - intros Hx. unfold parse. now rewrite Hx.
  - intros Hx Hs. unfold parse. rewrite Hx. simpl.
    destruct (String.eqb_spec (lower (suffix file_path)) ".pdf") as [E | E];
      [contradiction | reflexivity].
  - intros Hx Hs. unfold parse. rewrite Hx, Hs. simpl.
    split; [| split].
    + intros e ->. reflexivity.
    + intros texts e later ->. simpl. now rewrite extract_pages_raise.
    + intros texts ->. simpl. rewrite extract_pages_all_return. simpl.
      destruct (all_chars isspace (join nl (kept_texts texts))) eqn:E.
      * apply strip_nil_iff in E. now rewrite E.
      * destruct (strip (join nl (kept_texts texts))) eqn:E'; [| reflexivity].
        apply strip_nil_iff in E'. congruence.
Qed.

End Parse.

(** C5 as stated fails: the error for a document without text is not
    distinct from the error for a decode failure. A document of one page
    without text, and a file the library cannot open and reports in the
    same words, make [parse] raise the very same exception, of class
    [Exception] in both cases. *)
Lemma empty_document_error_is_a_parse_failure :
  let empty_pdf := fun _ : string => Return [Return (Some "")] in
  let broken_pdf := fun _ : string =>
    Raise (A := list (result (option string)))
      (mk_exn (OtherError "PDFSyntaxError")
         "PDF appears to be empty or contains no extractable text") in
  parse (fun _ => true) (fun _ => ".pdf") empty_pdf "resume.pdf"
  = parse (fun _ => true) (fun _ => ".pdf") broken_pdf "resume.pdf"
  /\ parse (fun _ => true) (fun _ => ".pdf") empty_pdf "resume.pdf"
     = Raise (mk_exn Exception
         "Failed to parse PDF file: PDF appears to be empty or contains no extractable text").
Proof. split; reflexivity. Qed.

(** The theorem of C5 at a document of three pages, the second without
    text. *)
Lemma parse_pdf_pages_in_order_witness :
  parse (fun _ => true) (fun _ => ".PDF")
    (fun _ => Return (map Return [Some "Ada Lovelace"; None; Some "Python"]))
    "resume.PDF"
  = Return ("Ada Lovelace" ++ nl ++ "Python").
Proof.
  exact (proj2 (proj2 (proj2 (proj2
           (parse_pdf_pages_in_order (fun _ => true) (fun _ => ".PDF")
              (fun _ => Return (map Return [Some "Ada Lovelace"; None; Some "Python"]))
              "resume.PDF")) eq_refl eq_refl))
           [Some "Ada Lovelace"; None; Some "Python"] eq_refl).
Defined.

End PDFParserFacts.

(** ** The skills extractor: the fallback *)

Module SkillsFallbackFacts.
Import PyStr PyStrFacts Py Json.
Import SkillsExtractor.

(** The loop of [_fallback_extraction] is a filter of the catalogue. *)
Lemma fold_append_filter (keep : string -> bool) (catalogue found : list string) :
  fold_left (fun (found_skills : list string) (skill : string) =>
               if keep skill then (found_skills ++ [skill])%list else found_skills)
            catalogue found
  = (found ++ List.filter keep catalogue)%list.
Proof.
  revert found. induction catalogue as [|s l IH]; intros found; simpl.
  - now rewrite app_nil_r.
  - rewrite IH. cbn [filter]. destruct (keep s); cbn.
    + now rewrite <- app_assoc.
    + reflexivity.
Qed.

Lemma fallback_is_filter (text : string) :
  _fallback_extraction text
  = List.filter (fun skill => contains (lower skill) (lower text)) common_skills.
Proof. unfold _fallback_extraction. now rewrite fold_append_filter. Qed.

Section Extract.

Variable W : Type.
Variable generate_content : string -> eff W response.
Variable print : string -> W -> W.
Variable parse_float : string -> pyfloat.
Variable unicode_printable : N -> bool.
Variable decode_limit : nat.
Variable str_limit : nat.

(** C4. When the remote call fails on a text that is not blank (the call
    raises, or the reply raises when its text is read), [extract] does not
    raise: it prints the warning and returns the fallback result. That
    result is the catalogue filtered, order and spelling kept, by the test
    that the lower-cased entry occurs in the lower-cased text; and every
    text that contains the phrase of the scenario gives a result with
    [Python] and [Machine Learning]. *)
Theorem remote_failure_falls_back (text : string) (e : exn) (w w1 : W) :
  all_chars isspace text = false ->
  generate_content (prompt_of text) w = (Raise e, w1)
  \/ generate_content (prompt_of text) w = (Return (Reply (Raise e)), w1) ->
  extract W generate_content print parse_float unicode_printable
      decode_limit str_limit text w
    = (Return (map wide (_fallback_extraction text)),
       print ("Warning: Gemini API call failed: " ++ exn_str e) w1)
  /\ _fallback_extraction text
     = List.filter (fun skill => contains (lower skill) (lower text)) common_skills
  /\ (forall skill,
        In skill (_fallback_extraction text) <->
        In skill common_skills
        /\ exists pre post, lower text = pre ++ lower skill ++ post)
  /\ List.length common_skills = 45
  /\ (forall pre post,
        text = pre ++ "Python, JavaScript, and Machine Learning" ++ post ->
        In "Python" (_fallback_extraction text)
        /\ In "Machine Learning" (_fallback_extraction text)).
Proof.
  intros Hb Hcall. apply is_blank_false_iff in Hb.
  split; [| split; [| split; [| split]]].
  - unfold extract. rewrite Hb. unfold etry, ebind, lift.
    destruct Hcall as [-> | ->]; reflexivity.
  - apply fallback_is_filter.
  - intros skill. rewrite fallback_is_filter, filter_In, contains_iff. tauto.
  - reflexivity.
  - intros pre post ->.
    rewrite fallback_is_filter, !filter_In, !contains_iff.
    rewrite !lower_append. cbn [lower].
    split; (split; [cbn; tauto |]).
    + exists (lower pre).
      eexists. vm_compute (lower "Python"). cbn [String.append]. reflexivity.
    + exists (lower pre ++ "python, javascript, and ").
      exists (lower post). rewrite append_assoc. reflexivity.
Qed.

End Extract.

(** The theorem of C4 at the text of the scenario, the remote call raising
    ["API Error"]; the console is the list of the lines printed. *)
Lemma remote_failure_falls_back_witness :
  extract (list string)
    (fun _ w => (Raise (mk_exn Exception "API Error"), w))
    (fun line w => (w ++ [line])%list)
    (fun lit => mk_float lit lit true) (fun _ => true) 1000 1000
    "Experienced with Python, JavaScript, and Machine Learning" []
  = (Return (map wide ["Python"; "Java"; "JavaScript"; "Machine Learning"]),
     ["Warning: Gemini API call failed: API Error"]).
Proof.
  exact (proj1 (remote_failure_falls_back (list string)
           (fun _ w => (Raise (mk_exn Exception "API Error"), w))
           (fun line w => (w ++ [line])%list)
           (fun lit => mk_float lit lit true) (fun _ => true) 1000 1000
           "Experienced with Python, JavaScript, and Machine Learning"
           (mk_exn Exception "API Error") [] [] eq_refl (or_introl eq_refl))).
Defined.

End SkillsFallbackFacts.

(** ** Regular expressions: what the matcher finds *)

Module ReFacts.
Import PyStr PyStrFacts Re.

(** [Matches n0 r m rest]: the pattern [r] matches the text [m] when [rest]
    is what follows [m] in a subject of length [n0]. This is the relation
    "[m] is in the language of [r]", with the context the two anchors look
    at. *)
Inductive Matches (n0 : nat) : regex -> string -> string -> Prop :=
| M_Eps rest : Matches n0 Eps "" rest
| M_Cls p c rest : p c = true -> Matches n0 (Cls p) (String c "") rest
| M_Cat r1 r2 m1 m2 rest :
    Matches n0 r1 m1 (m2 ++ rest) -> Matches n0 r2 m2 rest ->
    Matches n0 (Cat r1 r2) (m1 ++ m2) rest
| M_AltL r1 r2 m rest : Matches n0 r1 m rest -> Matches n0 (Alt r1 r2) m rest
| M_AltR r1 r2 m rest : Matches n0 r2 m rest -> Matches n0 (Alt r1 r2) m rest
| M_Star0 g r rest : Matches n0 (Star g r) "" rest
| M_StarS g r m1 m2 rest :
    m1 <> "" ->
    Matches n0 r m1 (m2 ++ rest) -> Matches n0 (Star g r) m2 rest ->
    Matches n0 (Star g r) (m1 ++ m2) rest
| M_Bol rest : String.length rest = n0 -> Matches n0 Bol "" rest
| M_Eol rest : rest = "" \/ rest = nl -> Matches n0 Eol "" rest.

#[local] Hint Constructors Matches : core.

Lemma length_lt_nonempty (m rest : string) :
  String.length rest < String.length (m ++ rest) -> m <> "".
Proof. intros H ->. simpl in H. lia. Qed.

Lemma nonempty_length_lt (m rest : string) :
  m <> "" -> String.length rest < String.length (m ++ rest).
Proof. destruct m; [congruence | intros _; simpl; rewrite length_append; lia]. Qed.

Section Sound.

Context {A : Type} (n0 : nat).

(** The loop of a star is sound when the body is. *)
Lemma star_loop_sound (g : bool) (r : regex)
    (body : string -> (string -> option A) -> option A) (k : string -> option A) :
  (forall s k' x, body s k' = Some x ->
     exists m rest, s = m ++ rest /\ Matches n0 r m rest /\ k' rest = Some x) ->
  forall fuel s x, star_loop g body k fuel s = Some x ->
    exists m rest, s = m ++ rest /\ Matches n0 (Star g r) m rest /\ k rest = Some x.
Proof.
  intros Hbody. induction fuel as [|fuel IH]; intros s x H; simpl in H.
  - exists "", s. auto.
  - assert (Hagain : forall y,
      body s (fun s1 => if (String.length s1 <? String.length s)%nat
                        then star_loop g body k fuel s1 else None) = Some y ->
      exists m rest, s = m ++ rest /\ Matches n0 (Star g r) m rest /\ k rest = Some y).
    { intros y Hy. apply Hbody in Hy as (m1 & rest1 & -> & Hm1 & Hk).
      destruct (Nat.ltb_spec (String.length rest1) (String.length (m1 ++ rest1)))
        as [Hlt | Hge]; [| discriminate].
      apply IH in Hk as (m2 & rest & -> & Hm2 & Hk).
      exists (m1 ++ m2), rest. rewrite append_assoc. split; [reflexivity |].
      split; [| exact Hk].
      apply M_StarS; auto. now apply length_lt_nonempty in Hlt. }
    destruct g.
    + destruct (body s _) as [y|] eqn:E.
      * injection H as <-. now apply Hagain.
      * exists "", s. auto.
    + destruct (k s) as [y|] eqn:E.
      * injection H as <-. exists "", s. auto.
      * now apply Hagain.
Qed.

(** Soundness: whatever the matcher hands to its continuation is what is
    left after a text the pattern matches. *)
Lemma exec_sound (r : regex) :
  forall s (k : string -> option A) x, exec n0 r s k = Some x ->
    exists m rest, s = m ++ rest /\ Matches n0 r m rest /\ k rest = Some x.
Proof.
  induction r as [| p | r1 IH1 r2 IH2 | r1 IH1 r2 IH2 | g r IH | |];
    intros s k x H; simpl in H.
  - exists "", s. auto.
  - destruct s as [|c s]; [discriminate |].
    destruct (p c) eqn:E; [| discriminate].
    exists (String c ""), s. auto.
  - apply IH1 in H as (m1 & rest1 & -> & Hm1 & H).
    apply IH2 in H as (m2 & rest & -> & Hm2 & H).
    exists (m1 ++ m2), rest. rewrite append_assoc. auto.
  - destruct (exec n0 r1 s k) as [y|] eqn:E.
    + injection H as <-. apply IH1 in E as (m & rest & -> & Hm & Hk).
      exists m, rest. auto.
    + apply IH2 in H as (m & rest & -> & Hm & Hk). exists m, rest. auto.
  - eapply star_loop_sound; eauto.
  - destruct (Nat.eqb_spec (String.length s) n0); [| discriminate].
    exists "", s. auto.
  - destruct s as [|c [|c' s]]; try discriminate.
    + exists "", "". auto.
    + destruct (Ascii.eqb_spec c LF) as [-> |]; [| discriminate].
      exists "", nl. auto.
Qed.

(** The loop of a star is complete when the body is. *)
Lemma star_loop_complete (g : bool) (r : regex)
    (body : string -> (string -> option A) -> option A) (k : string -> option A) :
  (forall m rest k' x, Matches n0 r m rest -> k' rest = Some x ->
     exists y, body (m ++ rest) k' = Some y) ->
  forall fuel m rest x,
    String.length (m ++ rest) <= fuel ->
    Matches n0 (Star g r) m rest -> k rest = Some x ->
    exists y, star_loop g body k fuel (m ++ rest) = Some y.
Proof.
  intros Hbody. induction fuel as [|fuel IH]; intros m rest x Hlen Hm Hk.
  - destruct m; [| simpl in Hlen; lia]. simpl. eauto.
  - inversion Hm as [| | | | | g' r' rest' | g' r' m1 m2 rest' Hne Hm1 Hm2 | |]; subst.
    + simpl. destruct g.
      * destruct (body rest _); eauto.
      * rewrite Hk. eauto.
    + cbn [star_loop].
      pose proof (nonempty_length_lt m1 (m2 ++ rest) Hne) as Hlt.
      assert (Hin : exists y, star_loop g body k fuel (m2 ++ rest) = Some y).
      { eapply IH; eauto. rewrite append_assoc in Hlen. lia. }
      destruct Hin as [y Hy].
      destruct (Hbody m1 (m2 ++ rest)
                  (fun s1 => if (String.length s1 <? String.length ((m1 ++ m2) ++ rest))%nat
                             then star_loop g body k fuel s1 else None) y Hm1)
        as [z Hz].
      { rewrite append_assoc.
        destruct (Nat.ltb_spec (String.length (m2 ++ rest))
                    (String.length (m1 ++ m2 ++ rest))); [exact Hy | lia]. }
      rewrite <- append_assoc in Hz. rewrite Hz.
      destruct g; [eauto |]. destruct (k ((m1 ++ m2) ++ rest)); eauto.
Qed.

(** Completeness: when the pattern matches a prefix of the subject and the
    continuation accepts what is left, the matcher succeeds (with that
    match or with one it tries earlier). *)
Lemma exec_complete (r : regex) :
  forall m rest (k : string -> option A) x,
    Matches n0 r m rest -> k rest = Some x ->
    exists y, exec n0 r (m ++ rest) k = Some y.
Proof.
  induction r as [| p | r1 IH1 r2 IH2 | r1 IH1 r2 IH2 | g r IH | |];
    intros m rest k x Hm Hk.
  - inversion Hm; subst. simpl. eauto.
  - inversion Hm as [| p' c rest' Hp | | | | | | |]; subst. simpl. rewrite Hp. eauto.
  - inversion Hm as [| | r1' r2' m1 m2 rest' Hm1 Hm2 | | | | | |]; subst. simpl.
    destruct (IH2 m2 rest k x Hm2 Hk) as [y Hy].
    rewrite append_assoc. eapply IH1; eauto.
  - inversion Hm; subst; simpl.
    + destruct (IH1 m rest k x) as [y Hy]; auto. rewrite Hy. eauto.
    + destruct (exec n0 r1 (m ++ rest) k); eauto.
  - simpl. eapply star_loop_complete; eauto.
  - inversion Hm; subst. simpl. rewrite Nat.eqb_refl. eauto.
  - inversion Hm as [| | | | | | | | rest' Hr]; subst. simpl.
    destruct Hr as [-> | ->]; simpl; eauto.
Qed.

End Sound.

(** *** [re.match] *)

Lemma take_consumed (s m rest : string) :
  s = m ++ rest -> take (String.length s - String.length rest) s = m.
Proof. intros ->. now rewrite length_append, Nat.add_sub, take_append. Qed.

Lemma re_match_Some (r : regex) (s g : string) :
  re_match r s = Some g ->
  exists rest, s = g ++ rest /\ Matches (String.length s) r g rest.
Proof.
  unfold re_match. intros H.
  destruct (exec (String.length s) r s Some) as [rest|] eqn:E; [| discriminate].
  apply exec_sound in E as (m & rest' & Hs & Hm & Hk).
  injection Hk as ->. rewrite (take_consumed _ _ _ Hs) in H.
  injection H as <-. exists rest. split; [exact Hs | exact Hm].
Qed.

Lemma re_match_None (r : regex) (s : string) :
  re_match r s = None ->
  forall m rest, s = m ++ rest -> ~ Matches (String.length s) r m rest.
Proof.
  unfold re_match. intros H m rest -> Hm.
  destruct (exec_complete (String.length (m ++ rest)) r m rest Some rest Hm eq_refl)
    as [y Hy].
  rewrite Hy in H. discriminate.
Qed.

(** *** [re.search] *)

Lemma scan_Some (n0 : nat) (r : regex) (s pre g : string) :
  scan n0 r s = Some (pre, g) ->
  exists rest,
    s = pre ++ g ++ rest /\ Matches n0 r g rest
    /\ forall pre' m' rest', s = pre' ++ m' ++ rest' -> Matches n0 r m' rest' ->
         String.length pre <= String.length pre'.
Proof.
  revert pre g. induction s as [|c s IH]; intros pre g H; cbn [scan] in H.
  - destruct (exec n0 r "" Some) as [rest|] eqn:E; [| discriminate].
    apply exec_sound in E as (m & rest' & Hs & Hm & Hk). injection Hk as ->.
    rewrite (take_consumed _ _ _ Hs) in H. injection H as <- <-.
    exists rest. cbn [String.append String.length].
    repeat split; auto. intros; lia.
  - destruct (exec n0 r (String c s) Some) as [rest|] eqn:E.
    + apply exec_sound in E as (m & rest' & Hs & Hm & Hk). injection Hk as ->.
      rewrite (take_consumed _ _ _ Hs) in H. injection H as <- <-.
      exists rest. cbn [String.append String.length].
      repeat split; auto. intros; lia.
    + destruct (scan n0 r s) as [[pre0 g0]|] eqn:E'; [| discriminate].
      injection H as <- <-.
      destruct (IH pre0 g0 eq_refl) as (rest & Hs & Hm & Hmin).
      exists rest. split; [simpl; now rewrite Hs |]. split; [exact Hm |].
      intros [|c' pre'] m' rest' Hs' Hm'.
      * simpl in Hs'. exfalso.
        destruct (exec_complete n0 r m' rest' Some rest' Hm' eq_refl) as [y Hy].
        rewrite <- Hs' in Hy. congruence.
      * simpl in Hs'. injection Hs' as _ Hs'.
        simpl. apply le_n_S. eapply Hmin; eauto.
Qed.

Lemma scan_None (n0 : nat) (r : regex) (s : string) :
  scan n0 r s = None ->
  forall pre m rest, s = pre ++ m ++ rest -> ~ Matches n0 r m rest.
Proof.
  induction s as [|c s IH]; intros H pre m rest Hs Hm; cbn [scan] in H.
  - destruct (exec n0 r "" Some) eqn:E; [discriminate |].
    symmetry in Hs. apply append_eq_nil in Hs as [-> Hs].
    destruct (exec_complete n0 r m rest Some rest Hm eq_refl) as [y Hy].
    simpl in Hs. rewrite Hs in Hy. congruence.
  - destruct (exec n0 r (String c s) Some) eqn:E; [discriminate |].
    destruct (scan n0 r s) as [[pre0 g0]|] eqn:E'; [discriminate |].
    destruct pre as [|c' pre]; simpl in Hs.
    + destruct (exec_complete n0 r m rest Some rest Hm eq_refl) as [y Hy].
      rewrite <- Hs in Hy. congruence.
    + injection Hs as _ Hs. eapply IH; eauto.
Qed.

End ReFacts.

(** ** The name extractor: the two patterns *)

Module NameFacts.
Import PyStr PyStrFacts Re ReFacts.
Import NameExtractor.

(** *** The lines the extractor works on *)

(** A stripped text does not end with whitespace. *)
Lemma rstrip_last (s m : string) (c : ascii) :
  rstrip s = m ++ String c "" -> isspace c = false.
Proof.
  revert m. induction s as [|a s IH]; intros m H; simpl in H.
  - destruct m; discriminate.
  - destruct (rstrip s) as [|b r] eqn:E.
    + destruct (isspace a) eqn:Ea; [destruct m; discriminate |].
      destruct m as [|a' m]; simpl in H.
      * now injection H as <-.
      * injection H as _ H. destruct m; discriminate.
    + destruct m as [|a' m]; simpl in H.
      * discriminate.
      * injection H as _ H. now apply (IH m).
Qed.

Lemma strip_last (s m : string) (c : ascii) :
  strip s = m ++ String c "" -> isspace c = false.
Proof. apply rstrip_last. Qed.

Lemma split_all_chars (p : ascii -> bool) (sep : ascii) (s : string) :
  all_chars p s = true -> Forall (fun piece => all_chars p piece = true) (split sep s).
Proof.
  induction s as [|c s IH]; simpl; intros H.
  - now constructor.
  - apply andb_true_iff in H as [Hc Hs]. specialize (IH Hs).
    destruct (Ascii.eqb c sep).
    + now constructor.
    + destruct (split sep s) as [|piece rest]; [repeat constructor; simpl; now rewrite Hc |].
      inversion IH; subst. constructor; [simpl; now rewrite Hc | assumption].
Qed.

(** A blank text has no line. *)
Lemma lines_of_blank (text : string) :
  is_blank text = true -> lines_of text = [].
Proof.
  intros H. apply is_blank_iff in H. unfold lines_of.
  pose proof (split_all_chars isspace LF text H) as Hall.
  induction Hall as [|piece rest Hp _ IH]; simpl; [reflexivity |].
  apply strip_nil_iff in Hp. now rewrite Hp.
Qed.

(** Every line is the [strip()] of something. *)
Lemma lines_of_stripped (text line : string) :
  In line (lines_of text) -> exists raw, line = strip raw.
Proof.
  unfold lines_of. intros H. apply in_map_iff in H as (raw & <- & _). now exists raw.
Qed.

Lemma In_firstn {X : Type} (n : nat) (l : list X) (x : X) :
  In x (firstn n l) -> In x l.
Proof.
  revert l. induction n as [|n IH]; intros [|y l]; simpl; try tauto.
  intros [-> | H]; [now left | right; now apply IH].
Qed.

(** *** A match of an anchored pattern is the whole line *)

Lemma anchored_match_rest (n0 : nat) (r : regex) (g rest : string) :
  Matches n0 (Cat Bol (Cat r Eol)) g rest -> rest = "" \/ rest = nl.
Proof.
  intros H.
  inversion H as [| | r1 r2 m1 m2 rest' H1 H2 | | | | | |]; subst.
  inversion H2 as [| | r1 r2 m3 m4 rest' H3 H4 | | | | | |]; subst.
  inversion H4; subst. assumption.
Qed.

Lemma anchored_match_verbatim (r : regex) (raw g : string) :
  re_match (Cat Bol (Cat r Eol)) (strip raw) = Some g -> g = strip raw.
Proof.
  intros H. apply re_match_Some in H as (rest & Hs & Hm).
  apply anchored_match_rest in Hm as [-> | ->].
  - now rewrite append_nil_r in Hs.
  - unfold nl in Hs. apply strip_last in Hs. discriminate.
Qed.

Lemma name_pattern_verbatim (raw g : string) :
  re_match name_pattern (strip raw) = Some g -> g = strip raw.
Proof. apply anchored_match_verbatim. Qed.

Lemma alt_pattern_verbatim (raw g : string) :
  re_match alt_pattern (strip raw) = Some g -> g = strip raw.
Proof. apply anchored_match_verbatim. Qed.

(** *** The loop *)

(** The line matches one of the two patterns. *)
Definition looks_like_name (line : string) : bool :=
  match re_match name_pattern line, re_match alt_pattern line with
  | None, None => false
  | _, _ => true
  end.

Lemma first_name_match_finds (before after : list string) (raw : string) :
  (forall l, In l before -> looks_like_name l = false) ->
  looks_like_name (strip raw) = true ->
  first_name_match (before ++ strip raw :: after) = Some (strip raw).
Proof.
  intros Hbefore Hline. induction before as [|l before IH]; simpl.
  - unfold looks_like_name in Hline.
    destruct (re_match name_pattern (strip raw)) as [g|] eqn:E1.
    + now rewrite (name_pattern_verbatim _ _ E1).
    + destruct (re_match alt_pattern (strip raw)) as [g|] eqn:E2; [| discriminate].
      now rewrite (alt_pattern_verbatim _ _ E2).
  - assert (Hl : looks_like_name l = false) by (apply Hbefore; now left).
    unfold looks_like_name in Hl.
    destruct (re_match name_pattern l); [discriminate |].
    destruct (re_match alt_pattern l); [discriminate |].
    apply IH. intros l' Hl'. apply Hbefore. now right.
Qed.

Lemma first_name_match_none (lines : list string) :
  (forall l, In l lines -> looks_like_name l = false) ->
  first_name_match lines = None.
Proof.
  induction lines as [|l lines IH]; intros H; simpl; [reflexivity |].
  assert (Hl : looks_like_name l = false) by (apply H; now left).
  unfold looks_like_name in Hl.
  destruct (re_match name_pattern l); [discriminate |].
  destruct (re_match alt_pattern l); [discriminate |].
  apply IH. intros l' Hl'. apply H. now right.
Qed.

(** C3, as the code has it. The extractor goes once through the first five
    non-empty trimmed lines, testing each line against the strict pattern
    and then against the looser one before it moves on, and returns, as it
    stands, the first line that matches either of them: a match of the
    looser pattern on an earlier line wins over a match of the strict
    pattern on a later one. For the text of the scenario the result is
    [John Doe]. *)
Theorem first_line_matching_either_pattern :
  (forall (text line : string) (before after : list string),
     firstn 5 (lines_of text) = (before ++ line :: after)%list ->
     (forall l, In l before ->
        re_match name_pattern l = None /\ re_match alt_pattern l = None) ->
     re_match name_pattern line <> None \/ re_match alt_pattern line <> None ->
     extract text = line)
  /\ extract ("John Doe" ++ nl ++ "Email: john@example.com" ++ nl
               ++ "Skills: Python, Java") = "John Doe".
Proof.
  split; [| reflexivity].
  intros text line before after Hlines Hbefore Hline.
  assert (Hin : In line (lines_of text)).
  { apply (In_firstn 5). rewrite Hlines. apply in_or_app. right. now left. }
  destruct (lines_of_stripped _ _ Hin) as [raw ->].
  unfold extract.
  destruct (is_blank text) eqn:Hb.
  { apply lines_of_blank in Hb. rewrite Hb in Hin. destruct Hin. }
  destruct (lines_of text) as [|line0 others] eqn:El; [destruct Hin |].
  rewrite Hlines, first_name_match_finds; [reflexivity | |].
  - intros l Hl. destruct (Hbefore l Hl) as [H1 H2].
    unfold looks_like_name. now rewrite H1, H2.
  - unfold looks_like_name.
    destruct (re_match name_pattern (strip raw)); [reflexivity |].
    destruct (re_match alt_pattern (strip raw)); [reflexivity |].
    destruct Hline; congruence.
Qed.

(** C3 as stated fails: in the text below the second line matches the
    strict pattern and the first line does not, but the first line matches
    the looser pattern and is the one returned. *)
Lemma earlier_loose_match_wins_over_strict :
  let text := "John D. Doe" ++ nl ++ "Jane Smith" in
  lines_of text = ["John D. Doe"; "Jane Smith"]
  /\ re_match name_pattern "John D. Doe" = None
  /\ re_match alt_pattern "John D. Doe" = Some "John D. Doe"
  /\ re_match name_pattern "Jane Smith" = Some "Jane Smith"
  /\ extract text = "John D. Doe"
  /\ extract text <> "Jane Smith".
Proof. vm_compute. repeat split; discriminate. Qed.

(** The theorem of C3 at that text. *)
Lemma first_line_matching_either_pattern_witness :
  extract ("John D. Doe" ++ nl ++ "Jane Smith") = "John D. Doe".
Proof.
  refine (proj1 first_line_matching_either_pattern
           ("John D. Doe" ++ nl ++ "Jane Smith") "John D. Doe" [] ["Jane Smith"]
           eq_refl _ _).
  - intros l [].
  - right. discriminate.
Defined.

End NameFacts.

(** ** Regular expressions: runs of a character class *)

Module RePatterns.
Import PyStr PyStrFacts Re ReFacts.

#[local] Hint Constructors Matches : core.

Lemma Matches_Cls_iff (n0 : nat) (p : ascii -> bool) (m rest : string) :
  Matches n0 (Cls p) m rest <-> exists c, m = String c "" /\ p c = true.
Proof.
  split.
  - intros H. inversion H; subst. eauto.
  - intros (c & -> & Hc). auto.
Qed.

Lemma Matches_chr_iff (n0 : nat) (c : ascii) (m rest : string) :
  Matches n0 (chr c) m rest <-> m = String c "".
Proof.
  unfold chr. rewrite Matches_Cls_iff. split.
  - intros (c' & -> & Hc). now apply Ascii.eqb_eq in Hc as ->.
  - intros ->. exists c. split; [reflexivity | apply Ascii.eqb_refl].
Qed.

Lemma Matches_Cat_iff (n0 : nat) (r1 r2 : regex) (m rest : string) :
  Matches n0 (Cat r1 r2) m rest <->
  exists m1 m2, m = m1 ++ m2 /\ Matches n0 r1 m1 (m2 ++ rest) /\ Matches n0 r2 m2 rest.
Proof.
  split.
  - intros H. inversion H; subst. eauto.
  - intros (m1 & m2 & -> & H1 & H2). auto.
Qed.

Lemma Matches_Alt_iff (n0 : nat) (r1 r2 : regex) (m rest : string) :
  Matches n0 (Alt r1 r2) m rest <-> Matches n0 r1 m rest \/ Matches n0 r2 m rest.
Proof.
  split.
  - intros H. inversion H; subst; auto.
  - intros [H | H]; auto.
Qed.

Lemma Matches_Eps_iff (n0 : nat) (m rest : string) :
  Matches n0 Eps m rest <-> m = "".
Proof. split; [intros H; now inversion H | intros ->; auto]. Qed.

(** A star of a class matches the runs of characters of the class. *)
Lemma Matches_star_cls (n0 : nat) (g : bool) (p : ascii -> bool) (m rest : string) :
  Matches n0 (Star g (Cls p)) m rest <-> all_chars p m = true.
Proof.
  split.
  - intros H. remember (Star g (Cls p)) as r eqn:Er.
    induction H as [| | | | | g' r' rest | g' r' m1 m2 rest Hne H1 _ H2 IH2 | |];
      try discriminate.
    + reflexivity.
    + injection Er as -> ->. inversion H1; subst.
      simpl. rewrite IH2 by reflexivity. now rewrite H0.
  - revert rest. induction m as [|c m IH]; intros rest H; [auto |].
    simpl in H. apply andb_true_iff in H as [Hc Hm].
    change (String c m) with (String c "" ++ m).
    apply M_StarS; [discriminate | auto | auto].
Qed.

Lemma Matches_plus_cls (n0 : nat) (p : ascii -> bool) (m rest : string) :
  Matches n0 (plus (Cls p)) m rest <-> m <> "" /\ all_chars p m = true.
Proof.
  unfold plus. rewrite Matches_Cat_iff. split.
  - intros (m1 & m2 & -> & H1 & H2).
    apply Matches_Cls_iff in H1 as (c & -> & Hc).
    apply Matches_star_cls in H2. simpl. rewrite Hc, H2. split; [discriminate | reflexivity].
  - intros [Hne H]. destruct m as [|c m]; [congruence |].
    simpl in H. apply andb_true_iff in H as [Hc Hm].
    exists (String c ""), m. split; [reflexivity |]. split.
    + apply Matches_Cls_iff. eauto.
    + now apply Matches_star_cls.
Qed.

Lemma Matches_times_cls (n0 k : nat) (p : ascii -> bool) (m rest : string) :
  Matches n0 (times k (Cls p)) m rest <->
  String.length m = k /\ all_chars p m = true.
Proof.
  revert m rest. induction k as [|k IH]; intros m rest; simpl.
  - rewrite Matches_Eps_iff. split.
    + intros ->. auto.
    + intros [H _]. now destruct m.
  - rewrite Matches_Cat_iff. split.
    + intros (m1 & m2 & -> & H1 & H2).
      apply Matches_Cls_iff in H1 as (c & -> & Hc).
      apply IH in H2 as [<- H2]. simpl. now rewrite Hc, H2.
    + intros [Hlen H]. destruct m as [|c m]; [discriminate |].
      simpl in H, Hlen. apply andb_true_iff in H as [Hc Hm].
      exists (String c ""), m. split; [reflexivity |]. split.
      * apply Matches_Cls_iff. eauto.
      * apply IH. split; [lia | assumption].
Qed.

Lemma take_drop (n : nat) (s : string) : take n s ++ drop n s = s.
Proof.
  revert s. induction n as [|n IH]; intros [|c s]; simpl; try reflexivity.
  now rewrite IH.
Qed.

Lemma length_take (n : nat) (s : string) :
  n <= String.length s -> String.length (take n s) = n.
Proof.
  revert s. induction n as [|n IH]; intros [|c s]; simpl; intros H; try lia.
  rewrite IH; lia.
Qed.

Lemma Matches_at_least_cls (n0 k : nat) (p : ascii -> bool) (m rest : string) :
  Matches n0 (at_least k (Cls p)) m rest <->
  k <= String.length m /\ all_chars p m = true.
Proof.
  unfold at_least. rewrite Matches_Cat_iff. split.
  - intros (m1 & m2 & -> & H1 & H2).
    apply Matches_times_cls in H1 as [<- H1]. apply Matches_star_cls in H2.
    rewrite length_append, all_chars_append, H1, H2. split; [lia | reflexivity].
  - intros [Hlen H]. exists (take k m), (drop k m).
    rewrite <- (take_drop k m) in H. rewrite all_chars_append in H.
    apply andb_true_iff in H as [Ht Hd].
    split; [now rewrite take_drop |]. split.
    + apply Matches_times_cls. split; [now apply length_take | assumption].
    + now apply Matches_star_cls.
Qed.

(** A literal word matches itself. *)
Lemma Matches_lit_iff (n0 : nat) (w m rest : string) :
  Matches n0 (lit w) m rest <-> m = w.
Proof.
  revert m rest. induction w as [|c w IH]; intros m rest; simpl.
  - apply Matches_Eps_iff.
  - rewrite Matches_Cat_iff. split.
    + intros (m1 & m2 & -> & H1 & H2).
      apply Matches_chr_iff in H1 as ->. apply IH in H2 as ->. reflexivity.
    + intros ->. exists (String c ""), w. split; [reflexivity |]. split.
      * now apply Matches_chr_iff.
      * now apply IH.
Qed.

End RePatterns.

(** ** The email extractor *)

Module EmailFacts.
Import PyStr PyStrFacts Re ReFacts RePatterns.
Import EmailExtractor.

(** The grammar of an address, in the words of the specification: a local
    part, [@], a domain, a dot and a top-level domain of two letters or
    more. *)
Definition email_grammar (m : string) : Prop :=
  exists local domain tld,
    m = local ++ "@" ++ domain ++ "." ++ tld
    /\ local <> "" /\ all_chars local_char local = true
    /\ domain <> "" /\ all_chars domain_char domain = true
    /\ 2 <= String.length tld /\ all_chars letter tld = true.

(** The pattern matches exactly the texts of the grammar. *)
Lemma EMAIL_PATTERN_iff (n0 : nat) (m rest : string) :
  Matches n0 EMAIL_PATTERN m rest <-> email_grammar m.
Proof.
  unfold EMAIL_PATTERN, email_grammar. split.
  - intros H.
    apply Matches_Cat_iff in H as (local & m1 & -> & Hl & H).
    apply Matches_Cat_iff in H as (at_ & m2 & -> & Ha & H).
    apply Matches_Cat_iff in H as (domain & m3 & -> & Hd & H).
    apply Matches_Cat_iff in H as (dot & tld & -> & Hdot & Ht).
    apply Matches_plus_cls in Hl as [Hl1 Hl2].
    apply Matches_chr_iff in Ha as ->.
    apply Matches_plus_cls in Hd as [Hd1 Hd2].
    apply Matches_chr_iff in Hdot as ->.
    apply Matches_at_least_cls in Ht as [Ht1 Ht2].
    exists local, domain, tld. repeat split; assumption.
  - intros (local & domain & tld & -> & Hl1 & Hl2 & Hd1 & Hd2 & Ht1 & Ht2).
    apply Matches_Cat_iff. exists local, ("@" ++ domain ++ "." ++ tld).
    split; [reflexivity |]. split; [now apply Matches_plus_cls |].
    apply Matches_Cat_iff. exists "@", (domain ++ "." ++ tld).
    split; [reflexivity |]. split; [now apply Matches_chr_iff |].
    apply Matches_Cat_iff. exists domain, ("." ++ tld).
    split; [reflexivity |]. split; [now apply Matches_plus_cls |].
    apply Matches_Cat_iff. exists ".", tld.
    split; [reflexivity |]. split; [now apply Matches_chr_iff |].
    now apply Matches_at_least_cls.
Qed.

Lemma all_chars_false_mid (p : ascii -> bool) (a b : string) (c : ascii) :
  p c = false -> all_chars p (a ++ String c b) = false.
Proof.
  intros Hc. rewrite all_chars_append. simpl. rewrite Hc.
  now rewrite andb_false_r.
Qed.

(** A text with an address in it is not blank. *)
Lemma email_not_blank (pre m post : string) :
  email_grammar m -> is_blank (pre ++ m ++ post) = false.
Proof.
  intros (local & domain & tld & -> & _).
  apply is_blank_false_iff.
  replace (pre ++ (local ++ "@" ++ domain ++ "." ++ tld) ++ post)
    with ((pre ++ local) ++ String "@" (domain ++ "." ++ tld ++ post)).
  - now apply all_chars_false_mid.
  - rewrite !append_assoc. reflexivity.
Qed.

(** The first element of [re.findall] is the match of [re.search]. *)
Lemma extract_is_first_scan (text : string) :
  is_blank text = false ->
  extract text =
    match scan (String.length text) EMAIL_PATTERN text with
    | Some (_, m) => m
    | None => sentinel
    end.
Proof.
  intros Hb. unfold extract, re_findall. rewrite Hb. cbn [findall_from].
  destruct (scan (String.length text) EMAIL_PATTERN text) as [[pre m]|]; reflexivity.
Qed.

(** C8. [extract] is total. On a blank text, and on a text no part of which
    is an address, the result is the sentinel. On a text with an address in
    it, the result is an address that occurs in the text, and no address
    starts in the text before that occurrence. For the text of the scenario
    the result is [john.doe@example.com]. *)
Theorem extract_first_address (text : string) :
  (all_chars isspace text = true -> extract text = sentinel)
  /\ ((forall pre m post, text = pre ++ m ++ post -> ~ email_grammar m) ->
      extract text = sentinel)
  /\ ((exists pre m post, text = pre ++ m ++ post /\ email_grammar m) ->
      exists pre0 post0,
        text = pre0 ++ extract text ++ post0
        /\ email_grammar (extract text)
        /\ forall pre' m' post', text = pre' ++ m' ++ post' -> email_grammar m' ->
             String.length pre0 <= String.length pre')
  /\ sentinel = "unknown@example.com"
  /\ extract "Contact me at john.doe@example.com for more info"
     = "john.doe@example.com".
Proof.
  split; [| split; [| split; [| split]]].
  - intros Hb. apply is_blank_iff in Hb. unfold extract. now rewrite Hb.
  - intros Hnone. destruct (is_blank text) eqn:Hb.
    + unfold extract. now rewrite Hb.
    + rewrite (extract_is_first_scan _ Hb).
      destruct (scan (String.length text) EMAIL_PATTERN text) as [[pre m]|] eqn:E;
        [| reflexivity].
      apply scan_Some in E as (rest & Hs & Hm & _).
      apply EMAIL_PATTERN_iff in Hm. exfalso. eapply Hnone; eauto.
  - intros (pre & m & post & Hs & Hg).
    assert (Hb : is_blank text = false) by (rewrite Hs; now apply email_not_blank).
    rewrite (extract_is_first_scan _ Hb).
    destruct (scan (String.length text) EMAIL_PATTERN text) as [[pre0 m0]|] eqn:E.
    + apply scan_Some in E as (rest & Hs0 & Hm0 & Hmin).
      exists pre0, rest. split; [exact Hs0 |].
      split; [now apply EMAIL_PATTERN_iff in Hm0 |].
      intros pre' m' post' Hs' Hg'. eapply Hmin; [exact Hs' |].
      now apply EMAIL_PATTERN_iff.
    + exfalso. eapply scan_None; [exact E | exact Hs |].
      apply EMAIL_PATTERN_iff. exact Hg.
  - reflexivity.
  - reflexivity.
Qed.

(** The theorem of C8 at a text with two addresses: the first is returned. *)
Lemma extract_first_address_witness :
  exists pre0 post0,
    "john@example.com or jane@example.com"
      = pre0 ++ extract "john@example.com or jane@example.com" ++ post0
    /\ email_grammar (extract "john@example.com or jane@example.com")
    /\ forall pre' m' post',
         "john@example.com or jane@example.com" = pre' ++ m' ++ post' ->
         email_grammar m' -> String.length pre0 <= String.length pre'.
Proof.
  refine (proj1 (proj2 (proj2
            (extract_first_address "john@example.com or jane@example.com"))) _).
  exists "john@example.com or ", "jane@example.com", "".
  split; [reflexivity |].
  exists "jane", "example", "com". repeat split; try discriminate. simpl. lia.
Defined.

End EmailFacts.

(** ** Values: induction, and the errors of [str] *)

Module PyObjFacts.
Import PyStr PyStrFacts Py Json.

(** Induction on a value with the hypothesis on the entries of a list and
    of a dictionary. *)
Section Induction.

Variable P : pyobj -> Prop.
Hypothesis HNone : P PNone.
Hypothesis HBool : forall b, P (PBool b).
Hypothesis HInt : forall z, P (PInt z).
Hypothesis HFloat : forall f, P (PFloat f).
Hypothesis HStr : forall s, P (PStr s).
Hypothesis HList : forall l, Forall P l -> P (PList l).
Hypothesis HDict : forall d, Forall (fun kv => P (snd kv)) d -> P (PDict d).


End Induction.


Lemma mapM_Return {A B : Type} (f : A -> result B) (g : A -> B) (l : list A) :
  (forall x, In x l -> f x = Return (g x)) -> mapM f l = Return (map g l).
Proof.
  induction l as [|x l IH]; intros H; simpl; [reflexivity |].
  rewrite (H x) by now left. simpl.
  rewrite IH by (intros y Hy; apply H; now right). reflexivity.
Qed.


Section Str.

Variable unicode_printable : N -> bool.



End Str.

End PyObjFacts.

(** ** The skills extractor: the reply of the model *)

Module SkillsReplyFacts.
Import PyStr PyStrFacts Re ReFacts RePatterns Py Json.
Import SkillsExtractor.










Section Reply.

Variable parse_float : string -> pyfloat.
Variable unicode_printable : N -> bool.
Variable decode_limit : nat.
Variable str_limit : nat.





End Reply.



End SkillsReplyFacts.

(** ** [json]: decoding what was encoded *)

Module JsonFacts.
Import PyStr PyStrFacts Py Json.

(** *** Characters and code points *)

Lemma ord_ascii_of_N (c : N) : (c < 256)%N -> ord (ascii_of_N c) = c.
Proof. apply N_ascii_embedding. Qed.

Lemma eqb_ord (a b : ascii) : Ascii.eqb a b = (ord a =? ord b)%N.
Proof.
  destruct (Ascii.eqb_spec a b) as [-> | Hne].
  - now rewrite N.eqb_refl.
  - symmetry. apply N.eqb_neq. intros H. apply Hne.
    rewrite <- (ascii_N_embedding a), <- (ascii_N_embedding b).
    unfold ord in H. now rewrite H.
Qed.

Lemma hex_value_digit (x : N) : (x < 16)%N -> hex_value (hex_digit x) = Some x.
Proof.
  intros Hx.
  assert (H : In x (map N.of_nat (seq 0 16))).
  { rewrite <- (N2Nat.id x). apply in_map, in_seq. lia. }
  simpl in H.
  repeat (destruct H as [<- | H]; [reflexivity |]). destruct H.
Qed.

(** The four digits [ensure_ascii] writes are read back as the number. *)
Lemma hex4_hex_of (c : N) :
  (c < 65536)%N ->
  exists h1 h2 h3 h4,
    hex_of 4 c = String h1 (String h2 (String h3 (String h4 "")))
    /\ hex4 h1 h2 h3 h4 = Some c.
Proof.
  intros Hc. do 4 eexists. split; [reflexivity |].
  unfold hex4.
  rewrite !hex_value_digit by (apply N.mod_lt; discriminate).
  f_equal.
  pose proof (N.div_mod c 16 ltac:(discriminate)) as H0.
  pose proof (N.div_mod (c / 16) 16 ltac:(discriminate)) as H1.
  pose proof (N.div_mod (c / 16 / 16) 16 ltac:(discriminate)) as H2.
  pose proof (N.mod_lt c 16 ltac:(discriminate)).
  pose proof (N.mod_lt (c / 16) 16 ltac:(discriminate)).
  pose proof (N.mod_lt (c / 16 / 16) 16 ltac:(discriminate)).
  assert (Hq : (c / 16 / 16 / 16 < 16)%N).
  { apply N.Div0.div_lt_upper_bound. apply N.Div0.div_lt_upper_bound.
    apply N.Div0.div_lt_upper_bound. lia. }
  rewrite (N.mod_small _ _ Hq).
  pose proof (N.div_mod (c / 16 / 16) 16 ltac:(discriminate)).
  lia.
Qed.

(** *** One escape, read back *)

(** The text starts with the escape of a low surrogate, or with an escape
    that is not well formed. *)
Definition next_is_low_escape (tail : string) : bool :=
  match tail with
  | String b (String u (String g1 (String g2 (String g3 (String g4 _))))) =>
      Ascii.eqb b BACKSLASH && Ascii.eqb u "u"
      && match hex4 g1 g2 g3 g4 with
         | Some m => is_low_surrogate m
         | None => true
         end
  | _ => false
  end.

Lemma next_is_low_escape_other (a : ascii) (t : string) :
  Ascii.eqb a BACKSLASH = false -> next_is_low_escape (String a t) = false.
Proof.
  intros Ha. destruct t as [|u [|g1 [|g2 [|g3 [|g4 s5]]]]]; try reflexivity.
  cbn [next_is_low_escape]. now rewrite Ha.
Qed.

Lemma next_is_low_escape_simple (e : ascii) (t : string) :
  Ascii.eqb e "u" = false ->
  next_is_low_escape (String BACKSLASH (String e t)) = false.
Proof.
  intros He. destruct t as [|g1 [|g2 [|g3 [|g4 s5]]]]; try reflexivity.
  cbn [next_is_low_escape]. rewrite He. now rewrite andb_false_r.
Qed.

Lemma next_is_low_escape_u (h1 h2 h3 h4 : ascii) (n : N) (t : string) :
  hex4 h1 h2 h3 h4 = Some n ->
  next_is_low_escape
    (String BACKSLASH (String "u" (String h1 (String h2 (String h3 (String h4 t))))))
  = is_low_surrogate n.
Proof. intros H. cbn [next_is_low_escape]. now rewrite H. Qed.

(** An escape of four digits that is not the first half of a pair. *)
Lemma scanstring_u (n : N) (h1 h2 h3 h4 : ascii) (tail : string) :
  hex4 h1 h2 h3 h4 = Some n ->
  (is_high_surrogate n = true -> next_is_low_escape tail = false) ->
  scanstring
    (String BACKSLASH (String "u" (String h1 (String h2 (String h3 (String h4 tail))))))
  = and_then (scanstring tail) (fun r => Ok (n :: fst r, snd r)).
Proof.
  intros Hh Hnext. cbn [scanstring].
  replace (Ascii.eqb BACKSLASH DQUOTE) with false by reflexivity.
  replace (Ascii.eqb BACKSLASH BACKSLASH) with true by reflexivity.
  replace (Ascii.eqb "u" "u") with true by reflexivity.
  rewrite Hh. destruct (is_high_surrogate n); [| reflexivity].
  specialize (Hnext eq_refl).
  destruct tail as [|b [|u [|g1 [|g2 [|g3 [|g4 s5]]]]]]; try reflexivity.
  cbn [next_is_low_escape] in Hnext.
  destruct (Ascii.eqb b BACKSLASH && Ascii.eqb u "u"); [| reflexivity].
  destruct (hex4 g1 g2 g3 g4) as [m |]; [| discriminate].
  simpl in Hnext. now rewrite Hnext.
Qed.

(** The two escapes of a pair. *)
Lemma scanstring_pair (hi lo : N) (h1 h2 h3 h4 g1 g2 g3 g4 : ascii) (tail : string) :
  hex4 h1 h2 h3 h4 = Some hi -> hex4 g1 g2 g3 g4 = Some lo ->
  is_high_surrogate hi = true -> is_low_surrogate lo = true ->
  scanstring
    (String BACKSLASH (String "u" (String h1 (String h2 (String h3 (String h4
      (String BACKSLASH (String "u" (String g1 (String g2 (String g3 (String g4
         tail))))))))))))
  = and_then (scanstring tail) (fun r => Ok (join_surrogates hi lo :: fst r, snd r)).
Proof.
  intros Hh Hg Hhi Hlo. cbn [scanstring].
  replace (Ascii.eqb BACKSLASH DQUOTE) with false by reflexivity.
  replace (Ascii.eqb BACKSLASH BACKSLASH) with true by reflexivity.
  replace (Ascii.eqb "u" "u") with true by reflexivity.
  rewrite Hh, Hhi. cbn [andb]. now rewrite Hg, Hlo.
Qed.

(** A code point of a Python string. *)
Definition is_code_point (c : N) : bool := (c <=? 1114111)%N.

Lemma scanstring_printable (c : N) (tail : string) :
  (32 <= c <= 126)%N -> c <> 34%N -> c <> 92%N ->
  scanstring (String (ascii_of_N c) tail)
  = and_then (scanstring tail) (fun r => Ok (c :: fst r, snd r)).
Proof.
  intros Hc H34 H92. cbn [scanstring].
  rewrite !eqb_ord, !ord_ascii_of_N by lia.
  replace (ord DQUOTE) with 34%N by reflexivity.
  replace (ord BACKSLASH) with 92%N by reflexivity.
  rewrite (proj2 (N.eqb_neq c 34) H34), (proj2 (N.eqb_neq c 92) H92).
  now rewrite (proj2 (N.ltb_ge c 32)) by lia.
Qed.

(** The halves of the pair of a code point beyond U+FFFF. *)
Lemma pair_halves (c : N) :
  (65536 <= c <= 1114111)%N ->
  let v := (c - 65536)%N in
  is_high_surrogate (55296 + v / 1024) = true
  /\ is_low_surrogate (56320 + v mod 1024) = true
  /\ join_surrogates (55296 + v / 1024) (56320 + v mod 1024) = c.
Proof.
  intros Hc v.
  assert (Hq : (v / 1024 < 1024)%N)
    by (apply N.Div0.div_lt_upper_bound; unfold v; lia).
  pose proof (N.mod_lt v 1024 ltac:(discriminate)) as Hr.
  pose proof (N.div_mod v 1024 ltac:(discriminate)) as Hv.
  unfold is_high_surrogate, is_low_surrogate, join_surrogates.
  assert (Hc' : (c = v + 65536)%N) by (unfold v; lia).
  clearbody v.
  generalize dependent (v / 1024)%N. intros q Hq.
  generalize dependent (v mod 1024)%N. intros r Hr Hv.
  repeat split.
  - apply andb_true_iff. split; apply N.leb_le; lia.
  - apply andb_true_iff. split; apply N.leb_le; lia.
  - lia.
Qed.

(** The decoder reads back each code point as the encoder wrote it, unless
    it is a high surrogate and the escape of a low one follows. *)
Lemma scanstring_escape_cp (c : N) (tail : string) :
  is_code_point c = true ->
  (is_high_surrogate c = true -> next_is_low_escape tail = false) ->
  scanstring (escape_cp c ++ tail)
  = and_then (scanstring tail) (fun r => Ok (c :: fst r, snd r)).
Proof.
  intros Hc Hnext. apply N.leb_le in Hc. unfold escape_cp.
  destruct (N.eqb_spec c 34) as [-> | H34]; [reflexivity |].
  destruct (N.eqb_spec c 92) as [-> | H92]; [reflexivity |].
  destruct (N.eqb_spec c 10) as [-> | H10]; [reflexivity |].
  destruct (N.eqb_spec c 13) as [-> | H13]; [reflexivity |].
  destruct (N.eqb_spec c 9) as [-> | H9]; [reflexivity |].
  destruct (N.eqb_spec c 8) as [-> | H8]; [reflexivity |].
  destruct (N.eqb_spec c 12) as [-> | H12]; [reflexivity |].
  destruct (N.leb_spec 32 c) as [Hlo | Hlo];
    [destruct (N.leb_spec c 126) as [Hhi | Hhi] |]; cbn [andb].
  - cbn [String.append]. apply scanstring_printable; [lia | assumption ..].
  - destruct (N.ltb_spec c 65536) as [Hbmp | Hast].
    + destruct (hex4_hex_of c Hbmp) as (h1 & h2 & h3 & h4 & -> & Hh).
      cbn [String.append]. now apply scanstring_u.
    + destruct (pair_halves c ltac:(lia)) as (Hhi' & Hlo' & Hjoin).
      cbv zeta in Hhi', Hlo', Hjoin. cbv zeta.
      destruct (hex4_hex_of (55296 + (c - 65536) / 1024)) as (h1 & h2 & h3 & h4 & -> & Hh).
      { unfold is_high_surrogate in Hhi'. apply andb_true_iff in Hhi' as [_ H].
        apply N.leb_le in H. lia. }
      destruct (hex4_hex_of (56320 + (c - 65536) mod 1024)) as (g1 & g2 & g3 & g4 & -> & Hg).
      { unfold is_low_surrogate in Hlo'. apply andb_true_iff in Hlo' as [_ H].
        apply N.leb_le in H. lia. }
      cbn [String.append].
      rewrite (scanstring_pair _ _ _ _ _ _ _ _ _ _ tail Hh Hg Hhi' Hlo').
      now rewrite Hjoin.
  - destruct (N.ltb_spec c 65536) as [Hbmp | Hast]; [| lia].
    destruct (hex4_hex_of c Hbmp) as (h1 & h2 & h3 & h4 & -> & Hh).
    cbn [String.append]. now apply scanstring_u.
Qed.

(** What the escape of a code point starts with. *)
Lemma next_is_low_escape_cp (d : N) (t : string) :
  is_code_point d = true ->
  next_is_low_escape (escape_cp d ++ t) = is_low_surrogate d.
Proof.
  intros Hd. apply N.leb_le in Hd. unfold escape_cp.
  destruct (N.eqb_spec d 34) as [-> | H34];
    [cbn [String.append]; now rewrite next_is_low_escape_simple |].
  destruct (N.eqb_spec d 92) as [-> | H92];
    [cbn [String.append]; now rewrite next_is_low_escape_simple |].
  destruct (N.eqb_spec d 10) as [-> | H10];
    [cbn [String.append]; now rewrite next_is_low_escape_simple |].
  destruct (N.eqb_spec d 13) as [-> | H13];
    [cbn [String.append]; now rewrite next_is_low_escape_simple |].
  destruct (N.eqb_spec d 9) as [-> | H9];
    [cbn [String.append]; now rewrite next_is_low_escape_simple |].
  destruct (N.eqb_spec d 8) as [-> | H8];
    [cbn [String.append]; now rewrite next_is_low_escape_simple |].
  destruct (N.eqb_spec d 12) as [-> | H12];
    [cbn [String.append]; now rewrite next_is_low_escape_simple |].
  assert (Hsmall : (d < 56320)%N -> is_low_surrogate d = false).
  { intros H. unfold is_low_surrogate.
    now rewrite (proj2 (N.leb_gt 56320 d)) by lia. }
  destruct (N.leb_spec 32 d) as [Hlo | Hlo];
    [destruct (N.leb_spec d 126) as [Hhi | Hhi] |]; cbn [andb].
  - cbn [String.append]. rewrite next_is_low_escape_other.
    + symmetry. apply Hsmall. lia.
    + rewrite eqb_ord, ord_ascii_of_N by lia. now apply N.eqb_neq.
  - destruct (N.ltb_spec d 65536) as [Hbmp | Hast].
    + destruct (hex4_hex_of d Hbmp) as (h1 & h2 & h3 & h4 & -> & Hh).
      cbn [String.append]. now apply next_is_low_escape_u.
    + destruct (pair_halves d ltac:(lia)) as (Hhi' & _ & _). cbv zeta in Hhi'.
      cbv zeta.
      destruct (hex4_hex_of (55296 + (d - 65536) / 1024)) as (h1 & h2 & h3 & h4 & -> & Hh).
      { unfold is_high_surrogate in Hhi'. apply andb_true_iff in Hhi' as [_ H].
        apply N.leb_le in H. lia. }
      cbn [String.append]. rewrite (next_is_low_escape_u _ _ _ _ _ _ Hh).
      unfold is_high_surrogate in Hhi'. apply andb_true_iff in Hhi' as [_ H].
      apply N.leb_le in H. unfold is_low_surrogate.
      rewrite (proj2 (N.leb_gt 56320 (55296 + (d - 65536) / 1024))) by lia.
      rewrite (proj2 (N.leb_gt d 57343)) by lia. now rewrite andb_false_r.
  - destruct (N.ltb_spec d 65536) as [Hbmp | Hast]; [| lia].
    destruct (hex4_hex_of d Hbmp) as (h1 & h2 & h3 & h4 & -> & Hh).
    cbn [String.append]. apply (next_is_low_escape_u _ _ _ _ _ _ Hh).
Qed.

(** *** A string, read back *)

(** No high surrogate of the string is followed by a low one. *)
Fixpoint no_surrogate_pair (s : ustring) : bool :=
  match s with
  | c :: s' =>
      negb (is_high_surrogate c
            && match s' with d :: _ => is_low_surrogate d | [] => false end)
      && no_surrogate_pair s'
  | [] => true
  end.

(** A Python string, its code points in range, that the decoder reads back
    as it is. *)
Definition reads_back (s : ustring) : bool :=
  forallb is_code_point s && no_surrogate_pair s.

Lemma reads_back_cons (c : N) (s : ustring) :
  reads_back (c :: s) = true ->
  is_code_point c = true
  /\ (is_high_surrogate c = true ->
      match s with d :: _ => is_low_surrogate d | [] => false end = false)
  /\ reads_back s = true.
Proof.
  unfold reads_back. cbn [forallb no_surrogate_pair].
  rewrite !andb_true_iff, negb_true_iff, andb_false_iff.
  intros [[Hc Hs] [Hp Hn]]. repeat split; try assumption.
  intros Hhi. destruct Hp; congruence.
Qed.

Lemma reads_back_wide (s : string) :
  reads_back (wide s) = true.
Proof.
  unfold reads_back. apply andb_true_iff.
  assert (Hord : forall c : ascii, (ord c < 256)%N) by apply N_ascii_bounded.
  induction s as [|c s [IH1 IH2]]; [now split |].
  pose proof (Hord c) as Hc. cbn [wide forallb no_surrogate_pair]. split.
  - rewrite IH1, andb_true_r. apply N.leb_le. lia.
  - rewrite IH2, andb_true_r. unfold is_high_surrogate.
    now rewrite (proj2 (N.leb_gt 55296 (ord c))) by lia.
Qed.

Lemma scanstring_escape (s : ustring) (rest : string) :
  reads_back s = true ->
  scanstring (escape s ++ String DQUOTE rest) = Ok (s, rest).
Proof.
  induction s as [|c s IH]; intros Hs.
  - reflexivity.
  - apply reads_back_cons in Hs as (Hc & Hpair & Hs).
    cbn [escape]. rewrite append_assoc, scanstring_escape_cp, IH; auto.
    intros Hhi. specialize (Hpair Hhi). destruct s as [|d s].
    + cbn [escape String.append]. now apply next_is_low_escape_other.
    + cbn [escape]. rewrite append_assoc, next_is_low_escape_cp; [assumption |].
      unfold reads_back in Hs. cbn [forallb] in Hs.
      now apply andb_true_iff in Hs as [Hs _]; apply andb_true_iff in Hs as [Hd _].
Qed.

Lemma encode_string_append (s : ustring) (rest : string) :
  encode_basestring_ascii s ++ rest
  = String DQUOTE (escape s ++ String DQUOTE rest).
Proof.
  unfold encode_basestring_ascii. cbn [String.append]. now rewrite append_assoc.
Qed.

(** A string value is read back, with any fuel and any room. *)
Lemma scan_once_string (parse_float : string -> pyfloat) (fuel limit : nat)
    (s : ustring) (rest : string) :
  reads_back s = true ->
  scan_once parse_float (S fuel) limit (encode_basestring_ascii s ++ rest)
  = Ok (PStr s, rest).
Proof.
  intros Hs. rewrite encode_string_append. cbn [scan_once].
  replace (Ascii.eqb DQUOTE DQUOTE) with true by reflexivity.
  now rewrite scanstring_escape.
Qed.

Lemma skip_ws_spaces (n : nat) (t : string) : skip_ws (spaces n ++ t) = skip_ws t.
Proof. induction n as [|n IH]; [reflexivity | exact IH]. Qed.

Lemma skip_ws_newline_indent (n : nat) (t : string) :
  skip_ws ((nl ++ spaces n) ++ t) = skip_ws t.
Proof. rewrite append_assoc. cbn. apply skip_ws_spaces. Qed.

Lemma skip_ws_encoded (s : ustring) (t : string) :
  skip_ws (encode_basestring_ascii s ++ t) = encode_basestring_ascii s ++ t.
Proof. reflexivity. Qed.

Lemma skip_ws_comma (t : string) : skip_ws (String "," t) = String "," t.
Proof. reflexivity. Qed.

Lemma skip_ws_closing (k : nat) (c : ascii) (rest : string) :
  is_json_ws c = false ->
  skip_ws (nl ++ spaces k ++ String c rest) = String c rest.
Proof.
  intros Hc. change (nl ++ spaces k ++ String c rest)
    with (String LF (spaces k ++ String c rest)).
  cbn [skip_ws]. replace (is_json_ws LF) with true by reflexivity.
  rewrite skip_ws_spaces. cbn [skip_ws]. now rewrite Hc.
Qed.

Section RoundTrip.

Variable parse_float : string -> pyfloat.
(** The number of spaces per level. *)
Variable ind : nat.

(** The items of a list of strings, as the encoder lays them out at any
    depth: one per line, a comma after each but the last. *)
Definition laid_out (newline_indent : string) (strings : list ustring) : string :=
  join ("," ++ newline_indent) (map encode_basestring_ascii strings).

Lemma encode_all_strings (limit level : nat) (strings : list ustring) :
  encode_all (encode limit ind level) (map PStr strings)
  = inl (map encode_basestring_ascii strings).
Proof.
  induction strings as [|s strings IH]; [reflexivity |].
  cbn [map encode_all encode]. now rewrite IH.
Qed.

(** A list of strings is written whenever there is room for one list. *)
Lemma encode_list_of_strings (limit level : nat) (s : ustring)
    (strings : list ustring) :
  encode (S limit) ind level (PList (map PStr (s :: strings)))
  = Written ("[" ++ (nl ++ spaces (ind * S level))
               ++ laid_out (nl ++ spaces (ind * S level)) (s :: strings)
               ++ nl ++ spaces (ind * level) ++ "]").
Proof.
  unfold laid_out.
  change (encode (S limit) ind level (PList (map PStr (s :: strings))))
    with (match encode_all (encode limit ind (S level)) (map PStr (s :: strings)) with
          | inl ts =>
              Written ("[" ++ (nl ++ spaces (ind * S level))
                       ++ join ("," ++ (nl ++ spaces (ind * S level))) ts
                       ++ nl ++ spaces (ind * level) ++ "]")
          | inr e => e
          end).
  now rewrite encode_all_strings.
Qed.

Lemma laid_out_one (ni : string) (s : ustring) :
  laid_out ni [s] = encode_basestring_ascii s.
Proof. reflexivity. Qed.

Lemma laid_out_more (ni : string) (s s' : ustring) (strings : list ustring) :
  laid_out ni (s :: s' :: strings)
  = encode_basestring_ascii s ++ String "," (ni ++ laid_out ni (s' :: strings)).
Proof. reflexivity. Qed.

Lemma skip_ws_laid_out (ni t : string) (s : ustring) (strings : list ustring) :
  skip_ws (laid_out ni (s :: strings) ++ t) = laid_out ni (s :: strings) ++ t.
Proof. destruct strings; reflexivity. Qed.

Lemma items_unfold (fuel limit : nat) (s : string) (acc : list pyobj) :
  items parse_float (S fuel) limit s acc
  = and_then (scan_once parse_float fuel limit s) (fun r =>
      match skip_ws (snd r) with
      | String "]" rest => Ok (PList (acc ++ [fst r]), rest)
      | String "," rest => items parse_float fuel limit (skip_ws rest) (acc ++ [fst r])
      | _ => Fail JSONDecodeError
      end).
Proof. reflexivity. Qed.

(** The loop over the items reads them all back, in order. *)
Lemma items_strings (j k limit : nat) (strings : list ustring) :
  forall (s : ustring) (acc : list pyobj) (fuel : nat) (rest : string),
    forallb reads_back (s :: strings) = true ->
    List.length (s :: strings) < fuel ->
    items parse_float fuel limit
      (laid_out (nl ++ spaces j) (s :: strings)
         ++ nl ++ spaces k ++ String "]" rest) acc
    = Ok (PList (acc ++ map PStr (s :: strings)), rest).
Proof.
  induction strings as [|s' strings IH]; intros s acc fuel rest Hs Hfuel;
    cbn [forallb] in Hs; apply andb_true_iff in Hs as [Hs Hrest].
  - destruct fuel as [|[|fuel]]; [simpl in Hfuel; lia .. |].
    rewrite laid_out_one, items_unfold, scan_once_string by assumption.
    cbn [and_then fst snd]. rewrite skip_ws_closing by reflexivity.
    reflexivity.
  - destruct fuel as [|[|fuel]]; [simpl in Hfuel; lia .. |].
    rewrite laid_out_more, items_unfold, append_assoc, scan_once_string
      by assumption.
    cbn [and_then fst snd String.append].
    rewrite skip_ws_comma. cbv beta iota.
    rewrite (append_assoc (nl ++ spaces j)).
    rewrite skip_ws_newline_indent, skip_ws_laid_out.
    rewrite IH by (assumption || (simpl in *; lia)).
    cbn [map]. now rewrite <- app_assoc.
Qed.

Lemma scan_once_open_list (fuel limit j : nat) (t : string) (s : ustring)
    (strings : list ustring) :
  scan_once parse_float (S fuel) (S limit)
    (String "[" ((nl ++ spaces j) ++ laid_out (nl ++ spaces j) (s :: strings) ++ t))
  = items parse_float fuel limit (laid_out (nl ++ spaces j) (s :: strings) ++ t) [].
Proof.
  cbn [scan_once]. replace (Ascii.eqb "[" DQUOTE) with false by reflexivity.
  replace (Ascii.eqb "[" "{") with false by reflexivity.
  replace (Ascii.eqb "[" "[") with true by reflexivity.
  rewrite skip_ws_newline_indent, skip_ws_laid_out.
  destruct strings; reflexivity.
Qed.

(** The text of a list of strings, where there is room for one list. *)
Definition list_text (level : nat) (strings : list ustring) : string :=
  match strings with
  | [] => "[]"
  | _ :: _ =>
      "[" ++ (nl ++ spaces (ind * S level))
          ++ laid_out (nl ++ spaces (ind * S level)) strings
          ++ nl ++ spaces (ind * level) ++ "]"
  end.

Lemma encode_strings (limit level : nat) (strings : list ustring) :
  encode (S limit) ind level (PList (map PStr strings))
  = Written (list_text level strings).
Proof.
  destruct strings as [|s strings]; [reflexivity |].
  apply encode_list_of_strings.
Qed.

(** A list of strings is read back, where there is room for one array. *)
Lemma scan_once_list_of_strings (level fuel limit : nat)
    (strings : list ustring) (rest : string) :
  forallb reads_back strings = true ->
  List.length strings < fuel ->
  scan_once parse_float (S fuel) (S limit) (list_text level strings ++ rest)
  = Ok (PList (map PStr strings), rest).
Proof.
  intros Hs Hfuel. destruct strings as [|s strings]; [reflexivity |].
  unfold list_text. cbn [String.append].
  rewrite !append_assoc. rewrite <- (append_assoc nl (spaces (ind * S level))).
  rewrite scan_once_open_list. cbn [String.append].
  apply (items_strings (ind * S level) (ind * level) limit strings s [] fuel rest
           Hs Hfuel).
Qed.

Lemma members_unfold (fuel limit : nat) (s' : string)
    (acc : list (ustring * pyobj)) :
  members parse_float (S fuel) limit (String DQUOTE s') acc
  = and_then (scanstring s') (fun key =>
      match skip_ws (snd key) with
      | String ":" s1 =>
          and_then (scan_once parse_float fuel limit (skip_ws s1)) (fun r =>
            let acc' := dict_set (fst key) (fst r) acc in
            match skip_ws (snd r) with
            | String "}" rest => Ok (PDict acc', rest)
            | String "," rest => members parse_float fuel limit (skip_ws rest) acc'
            | _ => Fail JSONDecodeError
            end)
      | _ => Fail JSONDecodeError
      end).
Proof. reflexivity. Qed.

(** One member of an object: the key, the colon, and a value that is read
    back by [scan_once]. *)
Lemma members_pair (fuel limit : nat) (key : ustring) (vtext after : string)
    (v : pyobj) (acc : list (ustring * pyobj)) :
  reads_back key = true ->
  scan_once parse_float fuel limit (vtext ++ after) = Ok (v, after) ->
  skip_ws (vtext ++ after) = vtext ++ after ->
  members parse_float (S fuel) limit
    (encode_basestring_ascii key ++ ": " ++ vtext ++ after) acc
  = match skip_ws after with
    | String "}" rest => Ok (PDict (dict_set key v acc), rest)
    | String "," rest =>
        members parse_float fuel limit (skip_ws rest) (dict_set key v acc)
    | _ => Fail JSONDecodeError
    end.
Proof.
  intros Hkey Hv Hskip.
  rewrite encode_string_append, members_unfold, scanstring_escape by assumption.
  cbn [and_then fst snd String.append].
  replace (skip_ws (String ":" (String " " (vtext ++ after))))
    with (String ":" (String " " (vtext ++ after))) by reflexivity.
  cbv beta iota.
  replace (skip_ws (String " " (vtext ++ after))) with (skip_ws (vtext ++ after))
    by reflexivity.
  rewrite Hskip, Hv. reflexivity.
Qed.

Lemma length_encoded (s : ustring) :
  1 <= String.length (encode_basestring_ascii s).
Proof. unfold encode_basestring_ascii. simpl. lia. Qed.

Lemma length_laid_out (ni : string) (strings : list ustring) :
  List.length strings <= String.length (laid_out ni strings).
Proof.
  induction strings as [|s [|s' strings] IH].
  - simpl. lia.
  - rewrite laid_out_one. pose proof (length_encoded s). simpl. lia.
  - rewrite laid_out_more. rewrite length_append. cbn [String.length].
    rewrite length_append. pose proof (length_encoded s).
    cbn [List.length] in *. lia.
Qed.

Lemma length_list_text (level : nat) (strings : list ustring) :
  List.length strings <= String.length (list_text level strings).
Proof.
  destruct strings as [|s strings]; [simpl; lia |].
  unfold list_text. cbn [String.append String.length].
  rewrite !length_append.
  pose proof (length_laid_out (nl ++ spaces (ind * S level)) (s :: strings)). lia.
Qed.

(** The text of a record, member by member. *)
Definition record_text (n e : ustring) (skills_text : string) : string :=
  String "{" ((nl ++ spaces (ind * 1))
    ++ encode_basestring_ascii (wide "name") ++ ": " ++ encode_basestring_ascii n
    ++ String "," ((nl ++ spaces (ind * 1))
    ++ encode_basestring_ascii (wide "email") ++ ": " ++ encode_basestring_ascii e
    ++ String "," ((nl ++ spaces (ind * 1))
    ++ encode_basestring_ascii (wide "skills") ++ ": "
    ++ skills_text
    ++ nl ++ spaces (ind * 0) ++ "}"))).

Lemma encode_record_with (limit : nat) (n e : ustring) (v : pyobj)
    (skills_text : string) :
  encode limit ind 1 v = Written skills_text ->
  encode (S limit) ind 0
    (PDict [(wide "name", PStr n); (wide "email", PStr e); (wide "skills", v)])
  = Written (record_text n e skills_text).
Proof.
  intros Hv. cbn [encode encode_all map join fst snd]. rewrite Hv.
  unfold record_text.
  generalize (encode_basestring_ascii n) as name_text. intros name_text.
  generalize (encode_basestring_ascii e) as email_text. intros email_text.
  generalize (encode_basestring_ascii (wide "name")) as k1. intros k1.
  generalize (encode_basestring_ascii (wide "email")) as k2. intros k2.
  generalize (encode_basestring_ascii (wide "skills")) as k3. intros k3.
  generalize (spaces (ind * 1)) as pad. intros pad.
  cbn [String.append join]. f_equal. f_equal.
  repeat (rewrite !append_assoc; cbn [String.append]).
  reflexivity.
Qed.

Lemma scan_once_record (fuel limit : nat) (n e : ustring)
    (strings : list ustring) :
  reads_back n = true -> reads_back e = true ->
  forallb reads_back strings = true ->
  List.length strings + 5 < fuel ->
  scan_once parse_float fuel (S (S limit))
    (record_text n e (list_text 1 strings))
  = Ok (PDict [(wide "name", PStr n); (wide "email", PStr e);
               (wide "skills", PList (map PStr strings))], "").
Proof.
  intros Hn He Hs Hfuel.
  destruct fuel as [|[|[|[|[|fuel]]]]]; try lia.
  unfold record_text.
  cbn [scan_once]. replace (Ascii.eqb "{" DQUOTE) with false by reflexivity.
  replace (Ascii.eqb "{" "{") with true by reflexivity.
  rewrite skip_ws_newline_indent, skip_ws_encoded.
  assert (Hnot_close : forall k t acc,
            match encode_basestring_ascii k ++ t with
            | String "}" rest => Ok (PDict [], rest)
            | s1 => members parse_float (S (S (S (S fuel)))) (S limit) s1 acc
            end = members parse_float (S (S (S (S fuel)))) (S limit)
                    (encode_basestring_ascii k ++ t) acc) by reflexivity.
  rewrite Hnot_close.
  rewrite members_pair with (v := PStr n);
    [| apply reads_back_wide | now apply scan_once_string | apply skip_ws_encoded].
  rewrite skip_ws_comma. cbv beta iota.
  rewrite skip_ws_newline_indent, skip_ws_encoded.
  rewrite members_pair with (v := PStr e);
    [| apply reads_back_wide | now apply scan_once_string | apply skip_ws_encoded].
  rewrite skip_ws_comma. cbv beta iota.
  rewrite skip_ws_newline_indent, skip_ws_encoded.
  rewrite members_pair with (v := PList (map PStr strings)).
  - rewrite skip_ws_closing by reflexivity. reflexivity.
  - apply reads_back_wide.
  - apply scan_once_list_of_strings; [assumption | lia].
  - destruct strings; reflexivity.
Qed.

Lemma length_record_text (n e : ustring) (strings : list ustring) :
  List.length strings + 5 < String.length (record_text n e (list_text 1 strings)).
Proof.
  unfold record_text. cbn [String.length].
  repeat (rewrite length_append; cbn [String.length]).
  pose proof (length_list_text 1 strings).
  pose proof (length_encoded (wide "name")). pose proof (length_encoded (wide "email")).
  pose proof (length_encoded (wide "skills")). lia.
Qed.

End RoundTrip.

(** The text of a record of strings, written where there is room for the
    mapping and the list. *)
Lemma to_json_record (room : nat) (name email : ustring) (skills : list ustring)
    (indent : Z) :
  ResumeData.to_json (S (S room))
    (ResumeData.mk (PStr name) (PStr email) (PList (map PStr skills))) indent
  = Written (record_text (Z.to_nat indent) name email
               (list_text (Z.to_nat indent) 1 skills)).
Proof.
  unfold ResumeData.to_json, dumps, ResumeData.to_dict.
  cbn [ResumeData.name ResumeData.email ResumeData.skills].
  apply encode_record_with, encode_strings.
Qed.

(** With less room the record is not written. *)
Lemma to_json_no_room (room : nat) (name email : ustring) (skills : list ustring)
    (indent : Z) :
  room < 2 ->
  ResumeData.to_json room
    (ResumeData.mk (PStr name) (PStr email) (PList (map PStr skills))) indent
  = TooDeep.
Proof.
  intros Hroom. destruct room as [|[|room]]; [reflexivity | reflexivity | lia].
Qed.

(** The text of a record of strings is read back as its mapping. *)
Lemma loads_record_text (parse_float : string -> pyfloat) (room ind : nat)
    (name email : ustring) (skills : list ustring) :
  reads_back name = true ->
  reads_back email = true ->
  forallb reads_back skills = true ->
  loads parse_float (S (S room))
    (record_text ind name email (list_text ind 1 skills))
  = Ok (PDict [(wide "name", PStr name); (wide "email", PStr email);
               (wide "skills", PList (map PStr skills))]).
Proof.
  intros Hname Hemail Hskills. unfold loads.
  replace (skip_ws (record_text ind name email (list_text ind 1 skills)))
    with (record_text ind name email (list_text ind 1 skills)) by reflexivity.
  rewrite scan_once_record; [reflexivity | assumption .. |].
  pose proof (length_record_text ind name email skills). lia.
Qed.

(** C9 (amended). Take a record of a name, an email and a list of skills,
    all strings of code points up to U+10FFFF in which no high surrogate
    (U+D800..U+DBFF) is directly followed by a low one (U+DC00..U+DFFF),
    and an interpreter with room for the two containers of the record, the
    mapping and the list, both when writing and when decoding. The mapping
    of the record has the keys [name], [email] and [skills] in that order;
    [to_json], with any indentation, writes a text; and decoding that text
    gives back the mapping, with the name, the email and the list of skills
    as they were. *)
Theorem to_json_round_trip (parse_float : string -> pyfloat)
    (room decode_room : nat)
    (name email : ustring) (skills : list ustring) (indent : Z) :
  reads_back name = true ->
  reads_back email = true ->
  forallb reads_back skills = true ->
  2 <= room ->
  2 <= decode_room ->
  let record := ResumeData.mk (PStr name) (PStr email) (PList (map PStr skills)) in
  ResumeData.to_dict record
    = PDict [(wide "name", PStr name); (wide "email", PStr email);
             (wide "skills", PList (map PStr skills))]
  /\ exists text : string,
       ResumeData.to_json room record indent = Written text
       /\ loads parse_float decode_room text = Ok (ResumeData.to_dict record).
Proof.
  intros Hname Hemail Hskills Hroom Hdecode record. split; [reflexivity |].
  destruct room as [|[|room]]; [lia .. |].
  destruct decode_room as [|[|decode_room]]; [lia .. |].
  exists (record_text (Z.to_nat indent) name email
            (list_text (Z.to_nat indent) 1 skills)).
  split; [apply to_json_record | now apply loads_record_text].
Qed.

(** The theorem of C9 at a record whose name has an accented letter, a
    Chinese character, a lone high surrogate and a character beyond the
    basic plane. *)
Lemma to_json_round_trip_witness :
  let name := [74; 233; 20013; 55357; 128512]%N in
  let record :=
    ResumeData.mk (PStr name) (PStr (wide "j@example.com"))
      (PList (map PStr [wide "Python"; wide "C++"])) in
  exists text : string,
    ResumeData.to_json 1000 record 2 = Written text
    /\ loads (fun lit => mk_float lit lit true) 1000 text
       = Ok (ResumeData.to_dict record).
Proof.
  exact (proj2 (to_json_round_trip (fun lit => mk_float lit lit true) 1000 1000
                  [74; 233; 20013; 55357; 128512]%N (wide "j@example.com")
                  [wide "Python"; wide "C++"] 2
                  eq_refl eq_refl eq_refl
                  ltac:(lia) ltac:(lia))).
Defined.

(** C9 as stated fails: a Python string may hold a high surrogate directly
    followed by a low one; the two are written as two escapes, which the
    decoder reads as the one character of the pair, so the decoded name is
    not the name of the record. *)
Lemma surrogate_pair_is_read_back_joined :
  let record :=
    ResumeData.mk (PStr [55357; 56832]%N) (PStr (wide "j@example.com"))
      (PList []) in
  exists text : string,
    ResumeData.to_json 1000 record 2 = Written text
    /\ loads (fun lit => mk_float lit lit true) 1000 text
       = Ok (PDict [(wide "name", PStr [128512]%N);
                    (wide "email", PStr (wide "j@example.com"));
                    (wide "skills", PList [])])
    /\ loads (fun lit => mk_float lit lit true) 1000 text
       <> Ok (ResumeData.to_dict record).
Proof.
  eexists. split; [vm_compute; reflexivity |].
  split; [vm_compute; reflexivity | vm_compute; discriminate].
Qed.

End JsonFacts.

(** ** The name extractor: the fallback *)

Module NameFallbackFacts.
Import PyStr PyStrFacts Re ReFacts RePatterns.
Import NameExtractor NameFacts.

(** *** Facts on characters, by going through all of them *)

Definition all_ascii : list ascii := map ascii_of_nat (seq 0 256).

Lemma in_all_ascii (c : ascii) : In c all_ascii.
Proof.
  unfold all_ascii. rewrite <- (ascii_nat_embedding c).
  apply in_map, in_seq. pose proof (nat_ascii_bounded c). lia.
Qed.

Lemma forall_ascii (P : ascii -> bool) :
  forallb P all_ascii = true -> forall c, P c = true.
Proof. intros H c. rewrite forallb_forall in H. apply H, in_all_ascii. Qed.

(** A class under [re.IGNORECASE]. *)
Definition ci (p : ascii -> bool) (c : ascii) : bool :=
  p c || p (lower_char c) || p (upper_char c).

Lemma ci_local_char (c : ascii) : ci local_char c = local_char c.
Proof.
  apply Bool.eqb_prop. revert c. apply forall_ascii. vm_compute. reflexivity.
Qed.

Lemma ci_isspace (c : ascii) : ci isspace c = isspace c.
Proof.
  apply Bool.eqb_prop. revert c. apply forall_ascii. vm_compute. reflexivity.
Qed.

Lemma ci_at (c : ascii) : ci (any_of "@") c = Ascii.eqb c "@".
Proof.
  apply Bool.eqb_prop. revert c. apply forall_ascii. vm_compute. reflexivity.
Qed.

(** A lower-case letter of a pattern matches the characters that lower to
    it. *)
Lemma ci_letter (x c : ascii) :
  lower_az x = true -> ci (Ascii.eqb x) c = Ascii.eqb x (lower_char c).
Proof.
  intros Hx. apply Bool.eqb_prop.
  enough (H : forallb (fun x => forallb (fun c =>
                negb (lower_az x)
                || Bool.eqb (ci (Ascii.eqb x) c) (Ascii.eqb x (lower_char c)))
              all_ascii) all_ascii = true).
  { rewrite forallb_forall in H. specialize (H x (in_all_ascii x)).
    rewrite forallb_forall in H. specialize (H c (in_all_ascii c)).
    rewrite Hx in H. exact H. }
  vm_compute. reflexivity.
Qed.

Lemma nonspace_is_not_LF (c : ascii) : isspace c = false -> dot_nl c = true.
Proof.
  intros H. unfold dot_nl. destruct (Ascii.eqb_spec c LF) as [-> |]; [discriminate | reflexivity].
Qed.

Lemma all_chars_ext (p q : ascii -> bool) (s : string) :
  (forall c, p c = q c) -> all_chars p s = all_chars q s.
Proof. intros H. induction s as [|c s IH]; simpl; [reflexivity | now rewrite H, IH]. Qed.

Lemma all_chars_impl (p q : ascii -> bool) (s : string) :
  (forall c, p c = true -> q c = true) -> all_chars p s = true -> all_chars q s = true.
Proof.
  intros H. induction s as [|c s IH]; simpl; [reflexivity |].
  intros Hs. apply andb_true_iff in Hs as [Hc Hs]. now rewrite (H c Hc), IH.
Qed.

(** *** The pattern of an email-like line *)

Definition providers : list string :=
  ["gmail"; "yahoo"; "hotmail"; "outlook"; "mail"; "email"].

(** The line looks like an email: it has an [@], or a run of characters of
    a local part, then whitespace or nothing, then the name of one of the
    six providers, in any case of letters. *)
Definition email_like (line : string) : Prop :=
  (exists pre post, line = pre ++ "@" ++ post)
  \/ (exists pre loc ws word post,
        line = pre ++ (loc ++ ws ++ word) ++ post
        /\ loc <> "" /\ all_chars local_char loc = true
        /\ all_chars isspace ws = true
        /\ In (lower word) providers).

(** A literal word under [re.IGNORECASE] matches the texts that lower to
    it. *)
Lemma Matches_ignorecase_lit (n0 : nat) (w : string) :
  all_chars lower_az w = true ->
  forall m rest, Matches n0 (ignorecase (lit w)) m rest <-> lower m = w.
Proof.
  induction w as [|x w IH]; intros Hw m rest.
  - simpl. rewrite Matches_Eps_iff. split; [now intros -> | now destruct m].
  - simpl in Hw. apply andb_true_iff in Hw as [Hx Hw].
    cbn [lit ignorecase chr]. rewrite Matches_Cat_iff. split.
    + intros (m1 & m2 & -> & H1 & H2).
      apply Matches_Cls_iff in H1 as (c & -> & Hc).
      apply (IH Hw) in H2. fold (ci (Ascii.eqb x) c) in Hc.
      rewrite (ci_letter _ _ Hx) in Hc. apply Ascii.eqb_eq in Hc.
      simpl. now rewrite <- Hc, H2.
    + intros H. destruct m as [|c m]; [discriminate |].
      simpl in H. injection H as Hc Hm.
      exists (String c ""), m. split; [reflexivity |]. split.
      * apply Matches_Cls_iff. exists c. split; [reflexivity |].
        fold (ci (Ascii.eqb x) c). rewrite (ci_letter _ _ Hx), Hc.
        apply Ascii.eqb_refl.
      * now apply (IH Hw).
Qed.

Lemma or_iff_both (A A' B B' : Prop) :
  (A <-> A') -> (B <-> B') -> (A \/ B <-> A' \/ B').
Proof. tauto. Qed.

Lemma email_pattern_iff (n0 : nat) (m rest : string) :
  Matches n0 email_pattern m rest <->
  m = "@"
  \/ exists loc ws word,
       m = loc ++ ws ++ word
       /\ loc <> "" /\ all_chars local_char loc = true
       /\ all_chars isspace ws = true
       /\ In (lower word) providers.
Proof.
  unfold email_pattern. cbn [ignorecase plus].
  rewrite Matches_Alt_iff. apply or_iff_both.
  - rewrite Matches_Cls_iff. split.
    + intros (c & -> & Hc). fold (ci (any_of "@") c) in Hc.
      rewrite ci_at in Hc. now apply Ascii.eqb_eq in Hc as ->.
    + intros ->. exists "@"%char. split; reflexivity.
  - rewrite Matches_Cat_iff. split.
    + intros (loc & m1 & -> & Hloc & H).
      apply Matches_Cat_iff in H as (ws & word & -> & Hws & Hword).
      fold (plus (Cls (ci local_char))) in Hloc.
      apply Matches_plus_cls in Hloc as [Hne Hloc].
      rewrite (all_chars_ext _ _ _ ci_local_char) in Hloc.
      apply Matches_star_cls in Hws.
      rewrite (all_chars_ext _ _ _ ci_isspace) in Hws.
      exists loc, ws, word. repeat split; try assumption.
      unfold providers.
      repeat (apply Matches_Alt_iff in Hword as [Hword | Hword];
              [apply Matches_ignorecase_lit in Hword; [| reflexivity];
               rewrite Hword; simpl; tauto |]).
      apply Matches_ignorecase_lit in Hword; [| reflexivity].
      rewrite Hword. simpl. tauto.
    + intros (loc & ws & word & -> & Hne & Hloc & Hws & Hword).
      exists loc, (ws ++ word). split; [reflexivity |]. split.
      * fold (plus (Cls (ci local_char))). apply Matches_plus_cls.
        split; [assumption |]. now rewrite (all_chars_ext _ _ _ ci_local_char).
      * apply Matches_Cat_iff. exists ws, word. split; [reflexivity |]. split.
        -- apply Matches_star_cls. now rewrite (all_chars_ext _ _ _ ci_isspace).
        -- unfold providers in Hword. simpl in Hword.
           destruct Hword as [H | [H | [H | [H | [H | [H | []]]]]]];
             symmetry in H;
             repeat (first [ apply Matches_ignorecase_lit; [reflexivity | exact H]
                           | apply M_AltL; apply Matches_ignorecase_lit;
                             [reflexivity | exact H]
                           | apply M_AltR ]).
Qed.

(** [re.search] finds a match exactly on the email-like lines. *)
Lemma search_email_Some (line : string) (r : string * string) :
  re_search email_pattern line = Some r -> email_like line.
Proof.
  destruct r as [pre g]. intros H.
  apply scan_Some in H as (rest & Hs & Hm & _).
  apply email_pattern_iff in Hm as [-> | (loc & ws & word & -> & H)].
  - left. now exists pre, rest.
  - right. exists pre, loc, ws, word, rest. split; [exact Hs | exact H].
Qed.

Lemma search_email_None (line : string) :
  re_search email_pattern line = None -> ~ email_like line.
Proof.
  intros H [(pre & post & Hs) | (pre & loc & ws & word & post & Hs & Hl)].
  - eapply scan_None; [exact H | exact Hs |]. apply email_pattern_iff. now left.
  - eapply scan_None; [exact H | exact Hs |]. apply email_pattern_iff.
    right. now exists loc, ws, word.
Qed.

(** *** The pattern of the lines to reject *)

(** A run of three digits or more. *)
Definition has_digit_run (s : string) : Prop :=
  exists pre run post,
    s = pre ++ run ++ post /\ 3 <= String.length run /\ all_chars digit09 run = true.

(** Two separate periods. *)
Definition two_periods (s : string) : Prop :=
  exists a b c, s = a ++ ("." ++ b ++ ".") ++ c.

Lemma digits_or_dots_iff (n0 : nat) (m rest : string) :
  Matches n0 digits_or_dots m rest <->
  (3 <= String.length m /\ all_chars digit09 m = true)
  \/ (exists b, m = "." ++ b ++ "." /\ all_chars dot_nl b = true).
Proof.
  unfold digits_or_dots. rewrite Matches_Alt_iff. apply or_iff_both.
  - apply Matches_at_least_cls.
  - rewrite Matches_Cat_iff. split.
    + intros (m1 & m2 & -> & H1 & H).
      apply Matches_Cat_iff in H as (b & m3 & -> & Hb & H3).
      apply Matches_chr_iff in H1 as ->. apply Matches_chr_iff in H3 as ->.
      apply Matches_star_cls in Hb. now exists b.
    + intros (b & -> & Hb). exists ".", (b ++ "."). split; [reflexivity |]. split.
      * now apply Matches_chr_iff.
      * apply Matches_Cat_iff. exists b, ".". split; [reflexivity |]. split.
        -- now apply Matches_star_cls.
        -- now apply Matches_chr_iff.
Qed.

Lemma search_digits_or_dots_Some (s : string) (r : string * string) :
  re_search digits_or_dots s = Some r -> has_digit_run s \/ two_periods s.
Proof.
  destruct r as [pre g]. intros H.
  apply scan_Some in H as (rest & Hs & Hm & _).
  apply digits_or_dots_iff in Hm as [[Hlen Hd] | (b & -> & _)].
  - left. now exists pre, g, rest.
  - right. now exists pre, b, rest.
Qed.

Lemma search_digits_or_dots_None (s : string) :
  all_chars dot_nl s = true ->
  re_search digits_or_dots s = None -> ~ (has_digit_run s \/ two_periods s).
Proof.
  intros Hnl H [(pre & run & post & Hs & Hlen & Hd) | (a & b & c & Hs)].
  - eapply scan_None; [exact H | exact Hs |]. apply digits_or_dots_iff. now left.
  - eapply scan_None; [exact H | exact Hs |]. apply digits_or_dots_iff.
    right. exists b. split; [reflexivity |].
    rewrite Hs in Hnl. rewrite !all_chars_append in Hnl.
    rewrite !andb_true_iff in Hnl. tauto.
Qed.

(** *** The clean-up *)

(** The characters the clean-up keeps. *)
Definition kept_char (c : ascii) : bool :=
  word_char c || isspace c || Ascii.eqb c ".".

(** Every other character becomes a space. *)
Fixpoint blank_out (s : string) : string :=
  match s with
  | "" => ""
  | String c t => String (if kept_char c then c else " "%char) (blank_out t)
  end.

(** The words of the blanked line, with one space between them. *)
Definition cleaned (line : string) : string :=
  join " " (split_ws (blank_out line)).

Lemma sub_class_artifact (s : string) : sub_class artifact " " s = blank_out s.
Proof.
  induction s as [|c t IH]; [reflexivity |].
  cbn [sub_class blank_out]. rewrite IH. unfold artifact. fold (kept_char c).
  now destruct (kept_char c).
Qed.

Lemma split_ws_nonspace (s : string) :
  Forall (fun w => all_chars (fun c => negb (isspace c)) w = true) (split_ws s).
Proof.
  induction s as [|c s IH]; [constructor |].
  cbn [split_ws]. destruct (isspace c) eqn:Ec; [exact IH |].
  destruct s as [|c' s']; [repeat constructor; simpl; now rewrite Ec |].
  destruct (isspace c') eqn:Ec'.
  - constructor; [simpl; now rewrite Ec | exact IH].
  - destruct (split_ws (String c' s')) as [|w ws].
    + repeat constructor. simpl. now rewrite Ec.
    + inversion IH; subst. constructor; [| assumption].
      cbn [all_chars]. rewrite Ec. assumption.
Qed.

Lemma all_chars_join (q : ascii -> bool) (sep : string) (l : list string) :
  all_chars q sep = true ->
  Forall (fun w => all_chars q w = true) l ->
  all_chars q (join sep l) = true.
Proof.
  intros Hsep Hl. induction Hl as [|w l Hw Hl IH]; [reflexivity |].
  destruct l as [|w' l]; [exact Hw |].
  cbn [join]. rewrite !all_chars_append, Hw, Hsep. exact IH.
Qed.

(** The cleaned line has no line feed in it. *)
Lemma cleaned_no_LF (line : string) : all_chars dot_nl (cleaned line) = true.
Proof.
  unfold cleaned. apply all_chars_join; [reflexivity |].
  eapply List.Forall_impl; [| apply split_ws_nonspace].
  intros w Hw. eapply all_chars_impl; [| exact Hw].
  intros c Hc. apply nonspace_is_not_LF. now apply negb_true_iff in Hc.
Qed.

(** The cleaned line is rejected. *)
Definition rejected (s : string) : Prop :=
  has_digit_run s \/ two_periods s \/ s = "" \/ 50 < String.length s.

Lemma clean_and_filter_spec (line : string) :
  (rejected (cleaned line) -> clean_and_filter line = "Unknown")
  /\ (~ rejected (cleaned line) -> clean_and_filter line = cleaned line).
Proof.
  unfold clean_and_filter. rewrite sub_class_artifact. fold (cleaned line).
  destruct (re_search digits_or_dots (cleaned line)) as [r|] eqn:E.
  - apply search_digits_or_dots_Some in E.
    split; [reflexivity |]. intros Hn. exfalso. apply Hn. unfold rejected. tauto.
  - apply search_digits_or_dots_None in E; [| apply cleaned_no_LF].
    destruct (Nat.leb_spec (String.length (cleaned line)) 50) as [Hle | Hgt];
      destruct (Nat.ltb_spec 0 (String.length (cleaned line))) as [Hpos | Hz];
      cbn [andb]; split; try reflexivity.
    + intros [H | [H | [H | H]]]; [tauto | tauto | | lia].
      rewrite H in Hpos. simpl in Hpos. lia.
    + intros Hn. exfalso. apply Hn. right. right. left.
      destruct (cleaned line); [reflexivity | simpl in Hz; lia].
    + intros Hn. exfalso. apply Hn. unfold rejected. tauto.
    + intros Hn. exfalso. apply Hn. unfold rejected. tauto.
Qed.

(** A line of at most fifty characters, not empty, on which the search
    for digits or dots finds nothing, is not rejected. *)
Lemma not_rejected (s : string) :
  all_chars dot_nl s = true ->
  re_search digits_or_dots s = None ->
  0 < String.length s <= 50 ->
  ~ rejected s.
Proof.
  intros Hnl Hsearch Hlen [H | [H | [H | H]]].
  - apply (search_digits_or_dots_None s Hnl Hsearch). now left.
  - apply (search_digits_or_dots_None s Hnl Hsearch). now right.
  - rewrite H in Hlen. simpl in Hlen. lia.
  - lia.
Qed.

(** C7, as the code has it. On a text that is not blank and in which none
    of the first five lines matches a name pattern, the extractor takes the
    first line; when that line is email-like it takes the second line
    instead, and returns [Unknown] when there is none. In the line taken it
    puts a space in the place of every character that is not a word
    character, whitespace or a period, and joins the words of the result
    with single spaces. It returns [Unknown] when the cleaned line has a
    run of three digits or more, has two periods, is empty or is longer than
    fifty characters, and the cleaned line otherwise. *)
Theorem fallback_cleans_first_line (text line0 : string) (others : list string) :
  lines_of text = line0 :: others ->
  (forall l, In l (firstn 5 (line0 :: others)) ->
     re_match name_pattern l = None /\ re_match alt_pattern l = None) ->
  (email_like line0 -> others = [] -> extract text = "Unknown")
  /\ (forall candidate,
        (~ email_like line0 /\ candidate = line0)
        \/ (email_like line0 /\ exists rest, others = candidate :: rest) ->
        (rejected (cleaned candidate) -> extract text = "Unknown")
        /\ (~ rejected (cleaned candidate) -> extract text = cleaned candidate)).
Proof.
  intros Hlines Hnone.
  assert (Hb : is_blank text = false).
  { destruct (is_blank text) eqn:E; [| reflexivity].
    apply lines_of_blank in E. congruence. }
  assert (Hloop : first_name_match (firstn 5 (line0 :: others)) = None).
  { apply first_name_match_none. intros l Hl.
    destruct (Hnone l Hl) as [H1 H2]. unfold looks_like_name. now rewrite H1, H2. }
  unfold extract. rewrite Hb, Hlines, Hloop.
  destruct (re_search email_pattern line0) as [r|] eqn:E.
  - apply search_email_Some in E. split.
    + now intros _ ->.
    + intros candidate [[Hn _] | [_ [rest ->]]]; [contradiction |].
      apply clean_and_filter_spec.
  - apply search_email_None in E. split.
    + intros He. contradiction.
    + intros candidate [[_ ->] | [He _]]; [| contradiction].
      apply clean_and_filter_spec.
Qed.

(** The clean-up as C7 words it: the other characters are removed. *)
Fixpoint remove_artifacts (s : string) : string :=
  match s with
  | "" => ""
  | String c t =>
      if kept_char c then String c (remove_artifacts t) else remove_artifacts t
  end.

Definition cleaned_by_removal (line : string) : string :=
  join " " (split_ws (remove_artifacts line)).

(** C7 as stated fails: the hyphen of the line below is not removed, it
    becomes a space. No name pattern matches the line, it is not
    email-like, and what the claim describes is not rejected; yet the
    result is not what the claim describes. *)
Lemma artifacts_become_spaces :
  let text := "Jean-Luc Picard" in
  lines_of text = [text]
  /\ re_match name_pattern text = None
  /\ re_match alt_pattern text = None
  /\ ~ email_like text
  /\ cleaned_by_removal text = "JeanLuc Picard"
  /\ ~ rejected (cleaned_by_removal text)
  /\ extract text = "Jean Luc Picard"
  /\ extract text <> cleaned_by_removal text.
Proof.
  cbv zeta. repeat split; try (vm_compute; reflexivity).
  - apply search_email_None. vm_compute. reflexivity.
  - apply not_rejected; vm_compute; try reflexivity. lia.
  - vm_compute. discriminate.
Qed.

(** The theorem of C7 at that line. *)
Lemma fallback_cleans_first_line_witness :
  extract "Jean-Luc Picard" = "Jean Luc Picard".
Proof.
  refine (proj2 (proj2 (fallback_cleans_first_line "Jean-Luc Picard"
            "Jean-Luc Picard" [] eq_refl _) "Jean-Luc Picard" _) _).
  - intros l [<- | []]. split; reflexivity.
  - left. split; [| reflexivity]. apply search_email_None. reflexivity.
  - apply not_rejected; [reflexivity | reflexivity |].
    change (String.length (cleaned "Jean-Luc Picard")) with 15. lia.
Defined.

End NameFallbackFacts.

(* ===================================================================== *)
(** * More of the package *)
(* ===================================================================== *)

(** ** The registry of the coordinator *)

Module RegistryFacts.
Import PyStr PyStrFacts Py Json.
Import ResumeExtractor CoordinatorFacts.

Section Registry.

Variable W : Type.
Implicit Types (self : gmap string (FieldExtractor W)) (text : string) (w : W).

Lemma required_fields_iff (key : string) :
  key ∈ required_fields <-> key = "name" \/ key = "email" \/ key = "skills".
Proof.
  unfold required_fields. rewrite !elem_of_union, !elem_of_singleton. tauto.
Qed.

(** X1. The constructor accepts a dictionary exactly when it has the three
    keys name, email and skills, whatever else it has; when it refuses one,
    the [ValueError] it raises shows the set of the required keys that are
    missing, and nothing is constructed. *)
Theorem init_requires_the_three_keys (set_str : gset string -> string) self :
  (init W set_str self = Return self <->
     is_Some (self !! "name") /\ is_Some (self !! "email")
     /\ is_Some (self !! "skills"))
  /\ (init W set_str self <> Return self ->
      init W set_str self =
        Raise (mk_exn ValueError
                 ("Missing required field extractors: "
                  ++ set_str (required_fields ∖ dom self))))
  /\ (forall key, key ∈ required_fields ∖ dom self <->
        (key = "name" \/ key = "email" \/ key = "skills") /\ self !! key = None).
Proof.
  assert (Hsub : required_fields ⊆ dom self <->
            is_Some (self !! "name") /\ is_Some (self !! "email")
            /\ is_Some (self !! "skills")).
  { split.
    - intros H. repeat split; apply elem_of_dom, H, required_fields_iff; tauto.
    - intros (Hn & He & Hs) key Hk. apply elem_of_dom.
      apply required_fields_iff in Hk as [-> | [-> | ->]]; assumption. }
  split; [| split].
  - unfold init. destruct (bool_decide (required_fields ⊆ dom self)) eqn:E; simpl.
    + apply bool_decide_eq_true in E. split; [intros _; now apply Hsub | reflexivity].
    + apply bool_decide_eq_false in E. split; [discriminate |].
      intros H. exfalso. now apply E, Hsub.
  - unfold init. destruct (bool_decide (required_fields ⊆ dom self)); simpl;
      [congruence | reflexivity].
  - intros key. rewrite elem_of_difference, required_fields_iff, not_elem_of_dom.
    tauto.
Qed.

(** X2. What is registered is what is found: after [add_extractor] the key
    gives the new extractor and every other key gives what it gave before;
    [remove_extractor] on a key that is present succeeds, after which
    [get_extractor] raises the [KeyError] for that key and every other key
    is untouched; on a key that is absent it raises and changes nothing;
    and adding a key that was absent and removing it again gives back the
    registry as it was. *)
Theorem registry_add_get_remove self (key : string) (x : FieldExtractor W) :
  get_extractor W (add_extractor W self key x) key = Return x
  /\ (forall other, other <> key ->
        get_extractor W (add_extractor W self key x) other
        = get_extractor W self other)
  /\ (is_Some (self !! key) ->
        fst (remove_extractor W self key) = Return tt
        /\ get_extractor W (snd (remove_extractor W self key)) key
           = Raise (KeyError_of ("Field extractor '" ++ key ++ "' not found"))
        /\ forall other, other <> key ->
             get_extractor W (snd (remove_extractor W self key)) other
             = get_extractor W self other)
  /\ (self !! key = None ->
        remove_extractor W self key
        = (Raise (KeyError_of ("Field extractor '" ++ key ++ "' not found")), self)
        /\ remove_extractor W (add_extractor W self key x) key = (Return tt, self)).
Proof.
  split; [| split; [| split]].
  - unfold get_extractor, add_extractor. now rewrite lookup_insert_eq.
  - intros other Hne. unfold get_extractor, add_extractor.
    now rewrite lookup_insert_ne by congruence.
  - intros [y Hy]. unfold remove_extractor. rewrite Hy. cbn [fst snd].
    split; [reflexivity |]. split.
    + unfold get_extractor. now rewrite lookup_delete_eq.
    + intros other Hne. unfold get_extractor.
      now rewrite lookup_delete_ne by congruence.
  - intros Hnone. unfold remove_extractor, add_extractor. rewrite Hnone.
    split; [reflexivity |].
    rewrite lookup_insert_eq. f_equal.
    rewrite delete_insert_eq. now apply delete_id.
Qed.

Lemma getitem_add_other self (key field : string) (x : FieldExtractor W) :
  key <> field ->
  getitem W (add_extractor W self key x) field = getitem W self field.
Proof.
  intros Hne. unfold getitem, add_extractor. now rewrite lookup_insert_ne.
Qed.

Lemma getitem_remove_other self (key field : string) :
  key <> field ->
  getitem W (snd (remove_extractor W self key)) field = getitem W self field.
Proof.
  intros Hne. unfold getitem, remove_extractor.
  destruct (self !! key); cbn [snd]; [| reflexivity].
  now rewrite lookup_delete_ne.
Qed.

Lemma extract_by_getitem self self' text w :
  getitem W self' "name" = getitem W self "name" ->
  getitem W self' "email" = getitem W self "email" ->
  getitem W self' "skills" = getitem W self "skills" ->
  extract W self' text w = extract W self text w.
Proof. intros Hn He Hs. unfold extract. now rewrite Hn, He, Hs. Qed.

(** X3. The extractors registered under other keys than name, email and
    skills take no part in [extract]: adding one, replacing one or removing
    one leaves the outcome of [extract] and the world it leaves as they
    were, on every text. *)
Theorem extra_keys_take_no_part self (key : string) (x : FieldExtractor W) text w :
  key <> "name" -> key <> "email" -> key <> "skills" ->
  extract W (add_extractor W self key x) text w = extract W self text w
  /\ extract W (snd (remove_extractor W self key)) text w = extract W self text w.
Proof.
  intros Hn He Hs. split.
  - apply extract_by_getitem; now apply getitem_add_other.
  - apply extract_by_getitem; now apply getitem_remove_other.
Qed.

(** X4. A reserved key registered anew is what the next [extract] calls:
    with a new name extractor in the registry, [extract] on a text that is
    not blank runs that extractor first, then the email and skills
    extractors that were there, and the name of the record is what the new
    extractor returned. *)
Theorem replaced_extractor_is_called
    self (new_name email_x skills_x : FieldExtractor W) text w :
  self !! "email" = Some email_x ->
  self !! "skills" = Some skills_x ->
  all_chars isspace text = false ->
  extract W (add_extractor W self "name" new_name) text w =
    match new_name text w with
    | (Raise e, w1) => (Raise (ExtractionFailed e), w1)
    | (Return name, w1) =>
        match email_x text w1 with
        | (Raise e, w2) => (Raise (ExtractionFailed e), w2)
        | (Return email, w2) =>
            match skills_x text w2 with
            | (Raise e, w3) => (Raise (ExtractionFailed e), w3)
            | (Return skills, w3) =>
                (Return (ResumeData.mk name email skills), w3)
            end
        end
    end.
Proof.
  intros He Hs Hb. apply is_blank_false_iff in Hb.
  unfold extract. rewrite Hb. unfold etry, ebind, lift, ret, raise.
  rewrite (getitem_Some W _ "name" new_name)
    by (unfold add_extractor; apply lookup_insert_eq).
  rewrite (getitem_Some W _ "email" email_x)
    by (unfold add_extractor; now rewrite lookup_insert_ne).
  rewrite (getitem_Some W _ "skills" skills_x)
    by (unfold add_extractor; now rewrite lookup_insert_ne).
  destruct (new_name text w) as [[name | e] w1]; [| reflexivity].
  destruct (email_x text w1) as [[email | e] w2]; [| reflexivity].
  destruct (skills_x text w2) as [[skills | e] w3]; reflexivity.
Qed.

End Registry.

(** The theorem of X3 at a registry with a phone extractor added. *)
Lemma extra_keys_take_no_part_witness :
  extract (list string)
    (add_extractor (list string)
       (logged_registry (Return (PStr "Ada")) (Return (PStr "a@b.cd"))
          (Return (PList [])))
       "phone" (logging "phone" (Return (PStr "555"))))
    "Ada" []
  = extract (list string)
      (logged_registry (Return (PStr "Ada")) (Return (PStr "a@b.cd"))
         (Return (PList [])))
      "Ada" [].
Proof.
  exact (proj1 (extra_keys_take_no_part (list string)
           (logged_registry (Return (PStr "Ada")) (Return (PStr "a@b.cd"))
              (Return (PList [])))
           "phone" (logging "phone" (Return (PStr "555"))) "Ada" []
           ltac:(discriminate) ltac:(discriminate) ltac:(discriminate))).
Defined.

(** The theorem of X4 at a registry whose name extractor is replaced by
    one that raises: the email and skills extractors are not called. *)
Lemma replaced_extractor_is_called_witness :
  extract (list string)
    (add_extractor (list string)
       (logged_registry (Return (PStr "Ada")) (Return (PStr "a@b.cd"))
          (Return (PList [])))
       "name" (logging "new name" (Raise (mk_exn ValueError "no name"))))
    "Ada" []
  = (Raise (mk_exn Exception "Failed to extract resume data: no name"),
     ["new name <- Ada"]).
Proof.
  exact (replaced_extractor_is_called (list string)
           (logged_registry (Return (PStr "Ada")) (Return (PStr "a@b.cd"))
              (Return (PList [])))
           (logging "new name" (Raise (mk_exn ValueError "no name")))
           (logging "email" (Return (PStr "a@b.cd")))
           (logging "skills" (Return (PList [])))
           "Ada" [] eq_refl eq_refl eq_refl).
Defined.

(** The theorem of X1 at a registry with the three keys. *)
Lemma init_requires_the_three_keys_witness :
  init (list string) (fun _ => "set()")
    (logged_registry (Return PNone) (Return PNone) (Return PNone))
  = Return (logged_registry (Return PNone) (Return PNone) (Return PNone)).
Proof.
  exact (proj2 (proj1 (init_requires_the_three_keys (list string) (fun _ => "set()")
           (logged_registry (Return PNone) (Return PNone) (Return PNone))))
           (conj (ex_intro _ _ eq_refl)
              (conj (ex_intro _ _ eq_refl) (ex_intro _ _ eq_refl)))).
Defined.

(** The theorem of X2 at a key that is new to the registry: added and
    removed again, the registry is as it was. *)
Lemma registry_add_get_remove_witness :
  remove_extractor (list string)
    (add_extractor (list string)
       (logged_registry (Return PNone) (Return PNone) (Return PNone))
       "phone" (logging "phone" (Return PNone)))
    "phone"
  = (Return tt, logged_registry (Return PNone) (Return PNone) (Return PNone)).
Proof.
  exact (proj2 (proj2 (proj2 (proj2
           (registry_add_get_remove (list string)
              (logged_registry (Return PNone) (Return PNone) (Return PNone))
              "phone" (logging "phone" (Return PNone))))) eq_refl)).
Defined.

End RegistryFacts.

(* ===================================================================== *)
(** ** parsers/word_parser.py *)
(* ===================================================================== *)

Module WordParser.
Import PyStr Py.

(** What [Document(path)] gives: for every section the paragraphs of its
    header, and the paragraphs of the body. A paragraph is what reading
    its [text] does: it raises, or returns the text. The sections, the
    headers and the lists of paragraphs themselves are read without error;
    an error there would be caught and wrapped as one of a paragraph is. *)
Record document : Type := mk_document {
  sections : list (list (result string));
  paragraphs : list (result string)
}.

(** The loop over a list of paragraphs. *)
Fixpoint collect (paras : list (result string)) (text_content : list string)
    : result (list string) :=
  match paras with
  | [] => Return text_content
  | paragraph :: rest =>
      bind paragraph (fun text =>
        if truthy (strip text) then collect rest (text_content ++ [text])%list
        else collect rest text_content)
  end.

(** The loop over [doc.sections]. *)
Fixpoint collect_headers (secs : list (list (result string)))
    (text_content : list string) : result (list string) :=
  match secs with
  | [] => Return text_content
  | header :: rest =>
      bind (collect header text_content) (fun text_content' =>
        collect_headers rest text_content')
  end.

Section Parse.

Variable exists_ : string -> bool.
Variable suffix : string -> string.
Variable Document : string -> result document.

(** [path.suffix.lower() in ['.docx', '.doc']] *)
Definition word_suffix (s : string) : bool :=
  String.eqb (lower s) ".docx" || String.eqb (lower s) ".doc".

(** [WordParser.parse] *)
Definition parse (file_path : string) : result string :=
  if negb (exists_ file_path) then
    Raise (mk_exn FileNotFoundError ("Word document not found: " ++ file_path))
  else if negb (word_suffix (suffix file_path)) then
    Raise (mk_exn ValueError ("File is not a Word document: " ++ file_path))
  else
    try_except
      (bind (Document file_path) (fun doc =>
       bind (collect_headers (sections doc) []) (fun text_content =>
       bind (collect (paragraphs doc) text_content) (fun text_content =>
         let full_text := join nl text_content in
         if negb (truthy (strip full_text)) then
           Raise (mk_exn ValueError "Word document appears to be empty")
         else Return full_text))))
      (fun e =>
         Raise (mk_exn Exception ("Failed to parse Word document: " ++ exn_str e))).

End Parse.

End WordParser.

(** ** The two readers *)

Module ReaderFacts.
Import PyStr PyStrFacts Py.
Import PDFParserFacts.

Lemma truthy_strip (s : string) : truthy (strip s) = negb (all_chars isspace s).
Proof.
  destruct (all_chars isspace s) eqn:E.
  - apply strip_nil_iff in E. now rewrite E.
  - destruct (strip s) eqn:E'; [| reflexivity].
    apply strip_nil_iff in E'. congruence.
Qed.

Lemma isspace_nl : all_chars isspace nl = true.
Proof. reflexivity. Qed.

(** A joined text is blank exactly when every piece is. *)
Lemma all_space_join (l : list string) :
  all_chars isspace (join nl l) = forallb (all_chars isspace) l.
Proof.
  induction l as [|x l IH]; [reflexivity |].
  destruct l as [|y l].
  - simpl. now rewrite andb_true_r.
  - change (join nl (x :: y :: l)) with (x ++ nl ++ join nl (y :: l)).
    rewrite !all_chars_append, isspace_nl, IH. reflexivity.
Qed.

Lemma try_except_Return {A} (body : result A) handler (x : A) :
  try_except body handler = Return x ->
  (forall e, exists e', handler e = Raise e') ->
  body = Return x.
Proof.
  destruct body as [y | e]; simpl; [easy |].
  intros H Hh. destruct (Hh e) as [e' He']. congruence.
Qed.

(** *** The PDF reader *)

Section PDF.

Variable exists_ : string -> bool.
Variable suffix : string -> string.
Variable pdfplumber_open : string -> result (list (result (option string))).

Lemma extract_pages_Return pages acc l :
  PDFParser.extract_pages pages acc = Return l ->
  exists texts, pages = map Return texts /\ l = (acc ++ kept_texts texts)%list.
Proof.
  revert acc. induction pages as [|page pages IH]; intros acc; simpl.
  - intros [= <-]. exists []. simpl. now rewrite app_nil_r.
  - destruct page as [page_text | e]; simpl; [| discriminate].
    destruct page_text as [t |]; [destruct (truthy t) eqn:Et |]; intros H;
      apply IH in H as (texts & -> & ->).
    + exists (Some t :: texts). simpl. rewrite Et. now rewrite <- app_assoc.
    + exists (Some t :: texts). simpl. now rewrite Et.
    + exists (None :: texts). split; reflexivity.
Qed.

(** X5. Whatever the file system and the PDF library do, a text that
    [PDFParser.parse] returns is never blank: the path exists, its suffix
    is [.pdf] in some case of letters, the document opened, every page gave
    its text, and the text returned is the texts of the pages that have
    one, in page order, joined by line feeds, at least one of them with a
    character that is not whitespace. *)
Theorem pdf_text_is_never_blank (file_path text : string) :
  PDFParser.parse exists_ suffix pdfplumber_open file_path = Return text ->
  exists_ file_path = true
  /\ lower (suffix file_path) = ".pdf"
  /\ all_chars isspace text = false
  /\ exists texts,
       pdfplumber_open file_path = Return (map Return texts)
       /\ text = join nl (kept_texts texts)
       /\ List.Exists (fun t => all_chars isspace t = false) (kept_texts texts).
Proof.
  unfold PDFParser.parse.
  destruct (exists_ file_path); simpl; [| discriminate].
  destruct (String.eqb_spec (lower (suffix file_path)) ".pdf") as [Es | Es];
    simpl; [| discriminate].
  intros H. apply try_except_Return in H; [| intros e; eexists; reflexivity].
  destruct (pdfplumber_open file_path) as [pages | e]; simpl in H; [| discriminate].
  destruct (PDFParser.extract_pages pages []) as [l | e] eqn:El; simpl in H;
    [| discriminate].
  rewrite truthy_strip, negb_involutive in H.
  destruct (all_chars isspace (join nl l)) eqn:Eb; [discriminate |].
  injection H as <-.
  apply extract_pages_Return in El as (texts & -> & ->). simpl.
  simpl in Eb.
  split; [reflexivity |]. split; [assumption |]. split; [assumption |].
  exists texts. split; [reflexivity |]. split; [reflexivity |].
  rewrite all_space_join in Eb.
  apply List.Exists_exists.
  apply not_true_iff_false in Eb.
  rewrite forallb_forall in Eb.
  destruct (existsb (fun t => negb (all_chars isspace t)) (kept_texts texts)) eqn:Ex.
  - apply existsb_exists in Ex as (t & Hin & Ht).
    exists t. split; [assumption |]. now apply negb_true_iff.
  - exfalso. apply Eb. intros t Hin.
    destruct (all_chars isspace t) eqn:Et; [reflexivity |].
    assert (existsb (fun t => negb (all_chars isspace t)) (kept_texts texts) = true)
      as Hc; [| congruence].
    apply existsb_exists. exists t. now rewrite Et.
Qed.

(** X6. The errors of [PDFParser.parse] are of three kinds and no other:
    the [FileNotFoundError] of a missing path, the [ValueError] of a wrong
    suffix, and the parse failure, of class [Exception], that wraps the
    description of whatever was raised while the file was open. No exception
    of the PDF library leaves [parse] as it was raised. *)
Theorem pdf_errors_are_of_three_kinds (file_path : string) (e : exn) :
  PDFParser.parse exists_ suffix pdfplumber_open file_path = Raise e ->
  (exists_ file_path = false
   /\ e = mk_exn FileNotFoundError ("PDF file not found: " ++ file_path))
  \/ (exists_ file_path = true /\ lower (suffix file_path) <> ".pdf"
      /\ e = mk_exn ValueError ("File is not a PDF: " ++ file_path))
  \/ (exists_ file_path = true /\ lower (suffix file_path) = ".pdf"
      /\ exists cause, e = ParseFailure cause
           /\ (pdfplumber_open file_path = Raise cause
               \/ (exists pages, pdfplumber_open file_path = Return pages
                     /\ (In (Raise cause) pages \/ cause = no_text)))).
Proof.
  unfold PDFParser.parse.
  destruct (exists_ file_path); simpl; [| intros [= <-]; now left].
  destruct (String.eqb_spec (lower (suffix file_path)) ".pdf") as [Es | Es]; simpl;
    [| intros [= <-]; right; left; easy].
  intros H. right; right. repeat split; [assumption |].
  destruct (pdfplumber_open file_path) as [pages | c]; simpl in H.
  - destruct (PDFParser.extract_pages pages []) as [l | c] eqn:El; simpl in H.
    + destruct (negb (truthy (strip (join nl l)))); simpl in H; [| discriminate].
      injection H as <-. exists no_text. split; [reflexivity |].
      right. exists pages. split; [reflexivity | now right].
    + injection H as <-. exists c. split; [reflexivity |].
      right. exists pages. split; [reflexivity |]. left.
      clear -El. revert El. generalize (@nil string).
      induction pages as [|page pages IH]; intros acc; simpl; [discriminate |].
      destruct page as [page_text | e]; simpl.
      * destruct page_text as [t |]; [destruct (truthy t) |]; intros H;
          right; eapply IH; eassumption.
      * intros [= ->]. now left.
  - injection H as <-. exists c. split; [reflexivity | now left].
Qed.

End PDF.

(** *** The reader of Word documents *)

(** The texts a loop over paragraphs keeps: those that are not blank. *)
Definition kept_paragraphs (texts : list string) : list string :=
  List.filter (fun t => negb (all_chars isspace t)) texts.

Lemma collect_all_return (texts : list string) (acc : list string) :
  WordParser.collect (map Return texts) acc
  = Return (acc ++ kept_paragraphs texts)%list.
Proof.
  revert acc. induction texts as [|t texts IH]; intros acc; simpl.
  - now rewrite app_nil_r.
  - rewrite truthy_strip.
    destruct (all_chars isspace t); simpl; rewrite IH; [reflexivity |].
    now rewrite <- app_assoc.
Qed.

Lemma collect_headers_all_return (headers : list (list string)) (acc : list string) :
  WordParser.collect_headers (map (map Return) headers) acc
  = Return (acc ++ kept_paragraphs (concat headers))%list.
Proof.
  revert acc. induction headers as [|h headers IH]; intros acc; simpl.
  - now rewrite app_nil_r.
  - rewrite collect_all_return. simpl. rewrite IH.
    unfold kept_paragraphs. now rewrite List.filter_app, app_assoc.
Qed.

Lemma kept_paragraphs_not_blank (texts : list string) :
  forallb (all_chars isspace) (kept_paragraphs texts)
  = match kept_paragraphs texts with [] => true | _ => false end.
Proof.
  unfold kept_paragraphs.
  induction texts as [|t texts IH]; simpl; [reflexivity |].
  destruct (all_chars isspace t) eqn:Et; simpl; [exact IH |].
  now rewrite Et.
Qed.

Section Word.

Variable exists_ : string -> bool.
Variable suffix : string -> string.
Variable Document : string -> result WordParser.document.

(** X7. [WordParser.parse] on an existing path with the suffix [.docx] or
    [.doc], in any case of letters, whose document opens and whose
    paragraphs can all be read: the text is the paragraphs that are not
    blank, those of the headers of all sections first, in section order,
    then those of the body, joined by line feeds; and the document counts
    as empty, with the wrapped error for it, exactly when no paragraph of
    it has a character that is not whitespace. *)
Theorem word_headers_then_body (file_path : string)
    (headers : list (list string)) (body : list string) :
  exists_ file_path = true ->
  WordParser.word_suffix (suffix file_path) = true ->
  Document file_path
    = Return (WordParser.mk_document (map (map Return) headers) (map Return body)) ->
  WordParser.parse exists_ suffix Document file_path =
    match kept_paragraphs (concat headers ++ body) with
    | [] => Raise (mk_exn Exception
              "Failed to parse Word document: Word document appears to be empty")
    | kept => Return (join nl kept)
    end.
Proof.
  intros Hx Hs Hd. unfold WordParser.parse. rewrite Hx, Hs, Hd. simpl.
  rewrite collect_headers_all_return. simpl.
  rewrite collect_all_return. simpl.
  assert (E : (kept_paragraphs (concat headers) ++ kept_paragraphs body)%list
              = kept_paragraphs (concat headers ++ body))
    by (unfold kept_paragraphs; now rewrite List.filter_app).
  rewrite E, truthy_strip, negb_involutive, all_space_join,
    kept_paragraphs_not_blank.
  destruct (kept_paragraphs (concat headers ++ body)); reflexivity.
Qed.

(** X8. No path is read by both readers: given the same file system, when
    one of [PDFParser.parse] and [WordParser.parse] returns a text for a
    path, the other raises its [ValueError] about the kind of file, without
    opening it. *)
Theorem readers_accept_disjoint_paths
    (pdfplumber_open : string -> result (list (result (option string))))
    (file_path : string) :
  (forall text,
     PDFParser.parse exists_ suffix pdfplumber_open file_path = Return text ->
     WordParser.parse exists_ suffix Document file_path
     = Raise (mk_exn ValueError ("File is not a Word document: " ++ file_path)))
  /\ (forall text,
     WordParser.parse exists_ suffix Document file_path = Return text ->
     PDFParser.parse exists_ suffix pdfplumber_open file_path
     = Raise (mk_exn ValueError ("File is not a PDF: " ++ file_path))).
Proof.
  unfold PDFParser.parse, WordParser.parse, WordParser.word_suffix.
  split; intros text; destruct (exists_ file_path); simpl; try discriminate.
  - destruct (String.eqb_spec (lower (suffix file_path)) ".pdf") as [Es | Es];
      simpl; [| discriminate].
    intros _. now rewrite Es.
  - destruct (String.eqb_spec (lower (suffix file_path)) ".docx") as [Es | Es];
      simpl.
    + intros _. now rewrite Es.
    + destruct (String.eqb_spec (lower (suffix file_path)) ".doc") as [Es' | Es'];
        simpl; [| discriminate].
      intros _. now rewrite Es'.
Qed.

End Word.

(** The theorem of X5 at a document of two pages. *)
Lemma pdf_text_is_never_blank_witness :
  all_chars isspace ("Ada" ++ nl ++ "  ") = false.
Proof.
  exact (proj1 (proj2 (proj2
    (pdf_text_is_never_blank (fun _ => true) (fun _ => ".pdf")
       (fun _ => Return [Return (Some "Ada"); Return (Some "  ")])
       "cv.pdf" ("Ada" ++ nl ++ "  ") eq_refl)))).
Defined.

(** The theorem of X6 at a file the library cannot open. *)
Lemma pdf_errors_are_of_three_kinds_witness :
  let e := mk_exn Exception "Failed to parse PDF file: no header" in
  let opened : result (list (result (option string))) :=
    Raise (mk_exn (OtherError "PDFSyntaxError") "no header") in
  (true = false
   /\ e = mk_exn FileNotFoundError ("PDF file not found: " ++ "cv.pdf"))
  \/ (true = true /\ lower ".pdf" <> ".pdf"
      /\ e = mk_exn ValueError ("File is not a PDF: " ++ "cv.pdf"))
  \/ (true = true /\ lower ".pdf" = ".pdf"
      /\ exists cause,
           e = ParseFailure cause
           /\ (opened = Raise cause
               \/ (exists pages,
                     opened = Return pages
                     /\ (In (Raise cause) pages \/ cause = no_text)))).
Proof.
  exact (pdf_errors_are_of_three_kinds (fun _ => true) (fun _ => ".pdf")
           (fun _ => Raise (mk_exn (OtherError "PDFSyntaxError") "no header"))
           "cv.pdf" (mk_exn Exception "Failed to parse PDF file: no header")
           eq_refl).
Defined.

(** The theorem of X7 at a document with a header and a blank paragraph. *)
Lemma word_headers_then_body_witness :
  WordParser.parse (fun _ => true) (fun _ => ".DOCX")
    (fun _ => Return (WordParser.mk_document
                        [[Return "Ada Lovelace"]]
                        [Return "   "; Return "Python"]))
    "cv.DOCX"
  = Return ("Ada Lovelace" ++ nl ++ "Python").
Proof.
  exact (word_headers_then_body (fun _ => true) (fun _ => ".DOCX")
           (fun _ => Return (WordParser.mk_document
                               [[Return "Ada Lovelace"]]
                               [Return "   "; Return "Python"]))
           "cv.DOCX" [["Ada Lovelace"]] ["   "; "Python"]
           eq_refl eq_refl eq_refl).
Defined.

(** The theorem of X8 at a PDF file: the reader of Word documents refuses
    it. *)
Lemma readers_accept_disjoint_paths_witness :
  WordParser.parse (fun _ => true) (fun _ => ".pdf")
    (fun _ => Return (WordParser.mk_document [] [Return "Ada"])) "cv.pdf"
  = Raise (mk_exn ValueError "File is not a Word document: cv.pdf").
Proof.
  exact (proj1 (readers_accept_disjoint_paths (fun _ => true) (fun _ => ".pdf")
           (fun _ => Return (WordParser.mk_document [] [Return "Ada"]))
           (fun _ => Return [Return (Some "Ada")]) "cv.pdf") "Ada" eq_refl).
Defined.

End ReaderFacts.

(** ** The reader of Word documents, conversely *)

Module WordFacts.
Import PyStr PyStrFacts Py.
Import ReaderFacts.

Lemma collect_Return paras acc l :
  WordParser.collect paras acc = Return l ->
  exists texts, paras = map Return texts /\ l = (acc ++ kept_paragraphs texts)%list.
Proof.
  revert acc. induction paras as [|p paras IH]; intros acc; simpl.
  - intros [= <-]. exists []. simpl. now rewrite app_nil_r.
  - destruct p as [t | e]; simpl; [| discriminate].
    rewrite truthy_strip.
    destruct (all_chars isspace t) eqn:Et; simpl; intros H;
      apply IH in H as (texts & -> & ->); exists (t :: texts);
      simpl; rewrite Et; simpl; [easy |].
    now rewrite <- app_assoc.
Qed.

Lemma collect_headers_Return secs acc l :
  WordParser.collect_headers secs acc = Return l ->
  exists headers,
    secs = map (map Return) headers
    /\ l = (acc ++ kept_paragraphs (concat headers))%list.
Proof.
  revert acc. induction secs as [|h secs IH]; intros acc; simpl.
  - intros [= <-]. exists []. simpl. now rewrite app_nil_r.
  - destruct (WordParser.collect h acc) as [l1 | e] eqn:E1; simpl; [| discriminate].
    apply collect_Return in E1 as (texts & -> & ->).
    intros H. apply IH in H as (headers & -> & ->).
    exists (texts :: headers). split; [reflexivity |].
    simpl. unfold kept_paragraphs. now rewrite List.filter_app, app_assoc.
Qed.

Section Word.

Variable exists_ : string -> bool.
Variable suffix : string -> string.
Variable Document : string -> result WordParser.document.

(** A text the reader of Word documents returns is not blank. *)
Lemma word_parse_not_blank (file_path text : string) :
  WordParser.parse exists_ suffix Document file_path = Return text ->
  all_chars isspace text = false.
Proof.
  unfold WordParser.parse.
  destruct (exists_ file_path); simpl; [| discriminate].
  destruct (WordParser.word_suffix (suffix file_path)); simpl; [| discriminate].
  intros H. apply try_except_Return in H; [| intros e; eexists; reflexivity].
  destruct (Document file_path) as [doc | e]; simpl in H; [| discriminate].
  destruct (WordParser.collect_headers (WordParser.sections doc) [])
    as [l1 | e]; simpl in H; [| discriminate].
  destruct (WordParser.collect (WordParser.paragraphs doc) l1)
    as [l2 | e]; simpl in H; [| discriminate].
  rewrite truthy_strip, negb_involutive in H.
  destruct (all_chars isspace (join nl l2)) eqn:Eb; [discriminate |].
  now injection H as <-.
Qed.

(** X9. Whatever the file system and the library do, when
    [WordParser.parse] returns a text, the path exists, its suffix is
    [.docx] or [.doc] in some case of letters, the document opened and
    every paragraph of its headers and of its body could be read; the text
    is not blank, it is the paragraphs that are not blank, headers first,
    joined by line feeds, and there is at least one of them. *)
Theorem word_text_is_never_blank (file_path text : string) :
  WordParser.parse exists_ suffix Document file_path = Return text ->
  exists_ file_path = true
  /\ (lower (suffix file_path) = ".docx" \/ lower (suffix file_path) = ".doc")
  /\ all_chars isspace text = false
  /\ exists headers body,
       Document file_path
       = Return (WordParser.mk_document (map (map Return) headers)
                   (map Return body))
       /\ text = join nl (kept_paragraphs (concat headers ++ body))
       /\ kept_paragraphs (concat headers ++ body) <> [].
Proof.
  intros H. pose proof (word_parse_not_blank _ _ H) as Hnb.
  revert H. unfold WordParser.parse, WordParser.word_suffix.
  destruct (exists_ file_path); simpl; [| discriminate].
  destruct (String.eqb_spec (lower (suffix file_path)) ".docx") as [E1 | E1];
    [| destruct (String.eqb_spec (lower (suffix file_path)) ".doc") as [E2 | E2]];
    simpl; try discriminate;
    (intros H; apply try_except_Return in H; [| intros e; eexists; reflexivity];
     destruct (Document file_path) as [[secs paras] | e]; simpl in H;
       [| discriminate];
     destruct (WordParser.collect_headers secs []) as [l1 | e] eqn:El1;
       simpl in H; [| discriminate];
     destruct (WordParser.collect paras l1) as [l2 | e] eqn:El2;
       simpl in H; [| discriminate];
     destruct (negb (truthy (strip (join nl l2)))); [discriminate |];
     injection H as <-;
     apply collect_headers_Return in El1 as (headers & -> & ->);
     apply collect_Return in El2 as (body & -> & ->);
     simpl in Hnb |- *;
     assert (E : (kept_paragraphs (concat headers) ++ kept_paragraphs body)%list
                 = kept_paragraphs (concat headers ++ body))
       by (unfold kept_paragraphs; now rewrite List.filter_app);
     rewrite E in Hnb |- *;
     split; [reflexivity |]; split; [tauto |]; split; [assumption |];
     exists headers, body; split; [reflexivity |]; split; [reflexivity |];
     intros Hnil; rewrite Hnil in Hnb; discriminate).
Qed.

End Word.

(** The theorem of X9 at a document of one body paragraph. *)
Lemma word_text_is_never_blank_witness :
  all_chars isspace "Ada Lovelace" = false.
Proof.
  exact (proj1 (proj2 (proj2
    (word_text_is_never_blank (fun _ => true) (fun _ => ".doc")
       (fun _ => Return (WordParser.mk_document [] [Return "Ada Lovelace"]))
       "cv.doc" "Ada Lovelace" eq_refl)))).
Defined.

End WordFacts.

(** ** The facade, the coordinator and the readers together *)

Module PipelineFacts.
Import PyStr PyStrFacts Py Json.
Import ResumeParserFramework CoordinatorFacts FrameworkFacts.
Import ReaderFacts.

Section Pipeline.

Variable W : Type.
Variable exists_ : string -> W -> bool.

(** An error of [extract] on a text that is not blank is a wrapped one. *)
Lemma extract_error_is_wrapped self (text : string) (w w2 : W) (e : exn) :
  is_blank text = false ->
  ResumeExtractor.extract W self text w = (Raise e, w2) ->
  exists cause, e = ExtractionFailed cause.
Proof.
  intros Hb. unfold ResumeExtractor.extract. rewrite Hb. unfold etry.
  match goal with |- context [match ?body w with _ => _ end] =>
    destruct (body w) as [[record | cause] w'] end.
  - discriminate.
  - unfold raise. intros [= <- <-]. now exists cause.
Qed.

(** X10. What the facade makes of the errors of the coordinator. When the
    reader returns a blank text, [parse_resume] raises the extract-stage
    error that reads that the text is empty, in the world the reader left:
    no extractor has run. When the reader returns any other text and the
    coordinator fails, the cause has been wrapped twice, by the coordinator
    and by the facade, and the description carries the prefix twice. *)
Theorem facade_wraps_coordinator_errors (self : t W)
    (file_path text : string) (w w1 : W) :
  exists_ file_path w = true ->
  file_parser W self file_path w = (Return text, w1) ->
  (all_chars isspace text = true ->
     parse_resume W exists_ self file_path w
     = (Raise (mk_exn Exception
          "Failed to extract resume data: Cannot extract from empty text"), w1))
  /\ (all_chars isspace text = false ->
      forall e w2,
        ResumeExtractor.extract W (resume_extractor W self) text w1 = (Raise e, w2) ->
        exists cause,
          e = ExtractionFailed cause
          /\ parse_resume W exists_ self file_path w
             = (Raise (mk_exn Exception
                  ("Failed to extract resume data: Failed to extract resume data: "
                   ++ exn_str cause)), w2)).
Proof.
  intros Hx Hr. split.
  - intros Hb. apply is_blank_iff in Hb.
    unfold parse_resume. rewrite Hx. simpl. unfold ebind, etry, raise.
    rewrite Hr. now rewrite extract_blank.
  - intros Hb e w2 He. apply is_blank_false_iff in Hb.
    destruct (extract_error_is_wrapped _ _ _ _ _ Hb He) as [cause ->].
    exists cause. split; [reflexivity |].
    unfold parse_resume. rewrite Hx. simpl. unfold ebind, etry, raise.
    rewrite Hr, He. reflexivity.
Qed.

(** [PDFParser.parse] as the [parse] of the reader the facade is bound to:
    it reads the file system and the document in the current world and
    leaves the world as it is. *)
Definition pdf_reader (suffix : string -> string)
    (pdfplumber_open : W -> string -> result (list (result (option string))))
    : string -> eff W string :=
  fun file_path w =>
    (PDFParser.parse (fun p => exists_ p w) suffix (pdfplumber_open w) file_path, w).

Lemma pdf_parse_not_blank (ex : string -> bool) suffix open (file_path text : string) :
  PDFParser.parse ex suffix open file_path = Return text ->
  all_chars isspace text = false.
Proof.
  unfold PDFParser.parse.
  destruct (ex file_path); simpl; [| discriminate].
  destruct (String.eqb (lower (suffix file_path)) ".pdf"); simpl; [| discriminate].
  intros H. apply try_except_Return in H; [| intros e; eexists; reflexivity].
  destruct (open file_path) as [pages | e]; simpl in H; [| discriminate].
  destruct (PDFParser.extract_pages pages []) as [l | e]; simpl in H; [| discriminate].
  rewrite truthy_strip, negb_involutive in H.
  destruct (all_chars isspace (join nl l)) eqn:Eb; [discriminate |].
  now injection H as <-.
Qed.

Lemma pdf_parse_error (ex : string -> bool) suffix open (file_path : string) (e : exn) :
  ex file_path = true ->
  PDFParser.parse ex suffix open file_path = Raise e ->
  e = mk_exn ValueError ("File is not a PDF: " ++ file_path)
  \/ exists cause, e = PDFParserFacts.ParseFailure cause.
Proof.
  intros Hx. unfold PDFParser.parse. rewrite Hx. simpl.
  destruct (String.eqb (lower (suffix file_path)) ".pdf"); simpl.
  - match goal with |- try_except ?body _ = _ -> _ =>
      destruct body as [text | cause] end; simpl; [discriminate |].
    intros [= <-]. right. now exists cause.
  - intros [= <-]. now left.
Qed.

(** X11. The errors a caller of [parse_resume] can see when the facade is
    bound to the PDF reader, whatever the extractors are: the file-not-found
    error of the facade; the read-stage error around the reader's complaint
    about the suffix, or around a parse failure of the reader; or the
    extract-stage error around a wrapped cause. Two errors of the parts are
    never seen: the file-not-found error of the reader, because the facade
    has looked first, and the empty-text error of the coordinator, because
    the reader returns no blank text. *)
Theorem pdf_pipeline_errors suffix pdfplumber_open registry
    (file_path : string) (w w' : W) (e : exn) :
  parse_resume W exists_ (mk W (pdf_reader suffix pdfplumber_open) registry)
    file_path w = (Raise e, w') ->
  (e = FileNotFound file_path
   \/ e = ReadStageFailed (mk_exn ValueError ("File is not a PDF: " ++ file_path))
   \/ (exists cause, e = ReadStageFailed (PDFParserFacts.ParseFailure cause))
   \/ (exists cause, e = ExtractStageFailed (ExtractionFailed cause)))
  /\ e <> ReadStageFailed
            (mk_exn FileNotFoundError ("PDF file not found: " ++ file_path))
  /\ e <> ExtractStageFailed EmptyInput.
Proof.
  intros H.
  assert (Hkinds :
    e = FileNotFound file_path
    \/ e = ReadStageFailed (mk_exn ValueError ("File is not a PDF: " ++ file_path))
    \/ (exists cause, e = ReadStageFailed (PDFParserFacts.ParseFailure cause))
    \/ (exists cause, e = ExtractStageFailed (ExtractionFailed cause))).
  { revert H. unfold parse_resume.
    destruct (exists_ file_path w) eqn:Hx; simpl; [| intros [= <- _]; now left].
    unfold ebind, etry, raise, pdf_reader. simpl.
    destruct (PDFParser.parse (fun p => exists_ p w) suffix (pdfplumber_open w)
                file_path) as [text | c] eqn:Ep.
    - apply pdf_parse_not_blank in Ep. apply is_blank_false_iff in Ep.
      destruct (ResumeExtractor.extract W registry text w) as [[record | c] w2] eqn:Ee;
        [discriminate |].
      intros [= <- _].
      destruct (extract_error_is_wrapped _ _ _ _ _ Ep Ee) as [cause ->].
      right; right; right. now exists cause.
    - intros [= <- _].
      apply pdf_parse_error in Ep; [| exact Hx].
      destruct Ep as [-> | [cause ->]].
      + right; left. reflexivity.
      + right; right; left. now exists cause. }
  split; [exact Hkinds |].
  split; intros ->;
    destruct Hkinds as [Hk | [Hk | [[cause Hk] | [cause Hk]]]];
    unfold FileNotFound, ReadStageFailed, ExtractStageFailed, ExtractionFailed,
      EmptyInput, PDFParserFacts.ParseFailure in Hk; simpl in Hk;
    discriminate Hk.
Qed.

End Pipeline.

(** The theorem of X10 with a reader that returns a blank page: the log of
    the extractors stays empty. *)
Lemma facade_wraps_coordinator_errors_witness :
  parse_resume (list string) (fun _ _ => true)
    (mk (list string) (fun _ w => (Return "  ", w))
       (logged_registry (Return PNone) (Return PNone) (Return PNone)))
    "cv.pdf" []
  = (Raise (mk_exn Exception
       "Failed to extract resume data: Cannot extract from empty text"), []).
Proof.
  exact (proj1 (facade_wraps_coordinator_errors (list string) (fun _ _ => true)
           (mk (list string) (fun _ w => (Return "  ", w))
              (logged_registry (Return PNone) (Return PNone) (Return PNone)))
           "cv.pdf" "  " [] [] eq_refl eq_refl) eq_refl).
Defined.

(** The theorem of X11 at a file with the suffix of a Word document. *)
Lemma pdf_pipeline_errors_witness :
  mk_exn Exception "Failed to parse file: File is not a PDF: cv.docx"
  <> ExtractStageFailed EmptyInput.
Proof.
  exact (proj2 (proj2
    (pdf_pipeline_errors (list string) (fun _ _ => true)
       (fun _ => ".docx") (fun _ _ => Return [])
       (logged_registry (Return PNone) (Return PNone) (Return PNone))
       "cv.docx" [] []
       (mk_exn Exception "Failed to parse file: File is not a PDF: cv.docx")
       eq_refl))).
Defined.

End PipelineFacts.

(** ** The skills extractor as a whole *)

Module SkillsMoreFacts.
Import PyStr PyStrFacts Py Json.
Import SkillsExtractor SkillsFallbackFacts.

(** *** [strip] twice is [strip] once *)

Lemma rstrip_cons (c : ascii) (s : string) :
  rstrip (String c s)
  = match rstrip s with
    | "" => if isspace c then "" else String c ""
    | r => String c r
    end.
Proof. reflexivity. Qed.

Lemma rstrip_idem (s : string) : rstrip (rstrip s) = rstrip s.
Proof.
  induction s as [|c s IH]; [reflexivity |].
  rewrite rstrip_cons. destruct (rstrip s) as [|d r] eqn:E.
  - destruct (isspace c) eqn:Ec; [reflexivity |]. cbn [rstrip]. now rewrite Ec.
  - rewrite rstrip_cons, IH. reflexivity.
Qed.

Lemma lstrip_head (s : string) :
  lstrip s = "" \/ exists c t, lstrip s = String c t /\ isspace c = false.
Proof.
  induction s as [|c s IH]; [now left |].
  simpl. destruct (isspace c) eqn:Ec; [exact IH |].
  right. now exists c, s.
Qed.

Lemma rstrip_head (c : ascii) (t : string) :
  isspace c = false -> exists t', rstrip (String c t) = String c t'.
Proof.
  intros Hc. cbn [rstrip]. destruct (rstrip t) as [|d r].
  - rewrite Hc. now exists "".
  - now exists (String d r).
Qed.

Lemma strip_idem (s : string) : strip (strip s) = strip s.
Proof.
  unfold strip. destruct (lstrip_head s) as [-> | (c & t & -> & Hc)]; [reflexivity |].
  destruct (rstrip_head c t Hc) as [t' E]. rewrite E.
  cbn [lstrip]. rewrite Hc, <- E. apply rstrip_idem.
Qed.

Lemma urstrip_cons (c : N) (s : ustring) :
  urstrip (c :: s)
  = match urstrip s with
    | [] => if uisspace c then [] else [c]
    | r => c :: r
    end.
Proof. reflexivity. Qed.

Lemma urstrip_idem (s : ustring) : urstrip (urstrip s) = urstrip s.
Proof.
  induction s as [|c s IH]; [reflexivity |].
  rewrite urstrip_cons. destruct (urstrip s) as [|d r] eqn:E.
  - destruct (uisspace c) eqn:Ec; [reflexivity |]. cbn [urstrip]. now rewrite Ec.
  - rewrite urstrip_cons, IH. reflexivity.
Qed.

Lemma ulstrip_head (s : ustring) :
  ulstrip s = [] \/ exists c t, ulstrip s = c :: t /\ uisspace c = false.
Proof.
  induction s as [|c s IH]; [now left |].
  cbn [ulstrip]. destruct (uisspace c) eqn:Ec; [exact IH |].
  right. now exists c, s.
Qed.

Lemma urstrip_head (c : N) (t : ustring) :
  uisspace c = false -> exists t', urstrip (c :: t) = c :: t'.
Proof.
  intros Hc. cbn [urstrip]. destruct (urstrip t) as [|d r].
  - rewrite Hc. now exists [].
  - now exists (d :: r).
Qed.

Lemma ustrip_idem (s : ustring) : ustrip (ustrip s) = ustrip s.
Proof.
  unfold ustrip. destruct (ulstrip_head s) as [-> | (c & t & -> & Hc)]; [reflexivity |].
  destruct (urstrip_head c t Hc) as [t' E]. rewrite E.
  cbn [ulstrip]. rewrite Hc, <- E. apply urstrip_idem.
Qed.

(** What a comprehension gives when no entry raises: the image of each
    entry, in order. *)
Lemma mapM_image {A B C : Type} (f : A -> result B) (g : B -> C) (l : list A) :
  forall ys,
    mapM (fun x => bind (f x) (fun y => Return (g y))) l = Return ys ->
    Forall (fun z => exists y, z = g y) ys.
Proof.
  induction l as [|x l IH]; intros ys; cbn [mapM].
  - intros [= <-]. constructor.
  - destruct (f x) as [y | e]; cbn [bind]; [| discriminate].
    destruct (mapM (fun x => bind (f x) (fun y => Return (g y))) l) as [zs | e];
      cbn [bind]; [| discriminate].
    intros [= <-]. constructor; [now exists y | now apply IH].
Qed.

Lemma lower_char_idem (c : ascii) : lower_char (lower_char c) = lower_char c.
Proof. destruct c as [[] [] [] [] [] [] [] []]; reflexivity. Qed.

Lemma lower_idem (s : string) : lower (lower s) = lower s.
Proof.
  induction s as [|c s IH]; [reflexivity |].
  simpl. now rewrite lower_char_idem, IH.
Qed.

Lemma filter_sublist {X : Type} (keep : X -> bool) (l : list X) :
  sublist (List.filter keep l) l.
Proof.
  induction l as [|x l IH]; simpl; [constructor |].
  destruct (keep x); now constructor.
Qed.

Lemma common_skills_NoDup : List.NoDup common_skills.
Proof.
  replace common_skills with (nodup String.string_dec common_skills)
    by (vm_compute; reflexivity).
  apply List.NoDup_nodup.
Qed.

(** *** The extractor never raises *)

Section Extract.

Variable W : Type.
Variable generate_content : string -> eff W response.
Variable print : string -> W -> W.
Variable parse_float : string -> pyfloat.
Variable unicode_printable : N -> bool.
Variable decode_limit : nat.
Variable str_limit : nat.


End Extract.

(** *** The fallback *)

(** X13. The result of the fallback lists entries of the catalogue in the
    order of the catalogue, each at most once, so at most forty-five; it
    does not depend on the case of the letters of the text; and text added
    before or after never takes an entry away. *)
Theorem fallback_is_an_ordered_selection (text : string) :
  sublist (_fallback_extraction text) common_skills
  /\ List.NoDup (_fallback_extraction text)
  /\ List.length (_fallback_extraction text) <= 45
  /\ _fallback_extraction (lower text) = _fallback_extraction text
  /\ (forall pre post skill,
        In skill (_fallback_extraction text) ->
        In skill (_fallback_extraction (pre ++ text ++ post))).
Proof.
  rewrite fallback_is_filter.
  split; [apply filter_sublist |].
  split; [apply List.NoDup_filter, common_skills_NoDup |].
  split.
  - change 45 with (List.length common_skills). apply List.filter_length_le.
  - split.
    + rewrite fallback_is_filter. now rewrite lower_idem.
    + intros pre post skill. rewrite fallback_is_filter, !filter_In, !contains_iff.
      intros [Hin (a & b & Hab)]. split; [assumption |].
      rewrite !lower_append, Hab.
      exists (lower pre ++ a), (b ++ lower post).
      now rewrite !append_assoc.
Qed.

(** The theorem of X13 at a text put between two others. *)
Lemma fallback_is_an_ordered_selection_witness :
  In "Rust" (_fallback_extraction ("I like " ++ "Rust" ++ " a lot")).
Proof.
  exact (proj2 (proj2 (proj2 (proj2 (fallback_is_an_ordered_selection "Rust"))))
           "I like " " a lot" "Rust" (or_introl eq_refl)).
Defined.

Lemma fallback_contained (text inner outer : string) :
  In inner common_skills ->
  contains (lower inner) (lower outer) = true ->
  In outer (_fallback_extraction text) ->
  In inner (_fallback_extraction text).
Proof.
  intros Hin Hsub. rewrite !fallback_is_filter, !filter_In, !contains_iff.
  apply contains_iff in Hsub as (a & b & Hab).
  intros [_ (pre & post & Ht)]. split; [assumption |].
  exists (pre ++ a), (b ++ post). rewrite Ht, Hab.
  now rewrite !append_assoc.
Qed.

(** X14. The fallback looks for the entries anywhere in the text, inside
    words too, so an entry whose letters occur in another entry is reported
    whenever that one is: [Java] with [JavaScript], [SQL] with [NoSQL],
    [PostgreSQL] and [MySQL], and [Go] with [MongoDB] and [Django]. *)
Theorem fallback_reports_contained_entries (text : string) :
  (forall inner outer,
     In inner common_skills ->
     contains (lower inner) (lower outer) = true ->
     In outer (_fallback_extraction text) ->
     In inner (_fallback_extraction text))
  /\ (In "JavaScript" (_fallback_extraction text) -> In "Java" (_fallback_extraction text))
  /\ (In "NoSQL" (_fallback_extraction text) -> In "SQL" (_fallback_extraction text))
  /\ (In "PostgreSQL" (_fallback_extraction text) -> In "SQL" (_fallback_extraction text))
  /\ (In "MySQL" (_fallback_extraction text) -> In "SQL" (_fallback_extraction text))
  /\ (In "MongoDB" (_fallback_extraction text) -> In "Go" (_fallback_extraction text))
  /\ (In "Django" (_fallback_extraction text) -> In "Go" (_fallback_extraction text)).
Proof.
  assert (Hat : forall n, (n < 45)%nat -> In (nth n common_skills "") common_skills)
    by (intros n Hn; now apply nth_In).
  split; [intros inner outer; apply fallback_contained |].
  split; [| split; [| split; [| split; [| split]]]]; intros H.
  - exact (fallback_contained text "Java" "JavaScript" (Hat 1%nat ltac:(lia)) eq_refl H).
  - exact (fallback_contained text "SQL" "NoSQL" (Hat 8%nat ltac:(lia)) eq_refl H).
  - exact (fallback_contained text "SQL" "PostgreSQL" (Hat 8%nat ltac:(lia)) eq_refl H).
  - exact (fallback_contained text "SQL" "MySQL" (Hat 8%nat ltac:(lia)) eq_refl H).
  - exact (fallback_contained text "Go" "MongoDB" (Hat 6%nat ltac:(lia)) eq_refl H).
  - exact (fallback_contained text "Go" "Django" (Hat 6%nat ltac:(lia)) eq_refl H).
Qed.

(** The theorem of X14 at a text about Django: it is reported to show Go. *)
Lemma fallback_reports_contained_entries_witness :
  In "Go" (_fallback_extraction "Senior Django developer").
Proof.
  exact (proj2 (proj2 (proj2 (proj2 (proj2 (proj2
           (fallback_reports_contained_entries "Senior Django developer"))))))
           (or_intror (or_introl eq_refl))).
Defined.

(** *** The reply *)

(** X15. Every skill [_parse_skills_from_response] returns is stripped: it
    neither starts nor ends with whitespace. *)
Theorem parsed_skills_are_stripped
    (parse_float : string -> pyfloat) (unicode_printable : N -> bool)
    (decode_limit str_limit : nat) (response_text : string)
    (skills : list ustring) :
  _parse_skills_from_response parse_float unicode_printable decode_limit
    str_limit response_text = Return skills ->
  Forall (fun skill => ustrip skill = skill) skills.
Proof.
  unfold _parse_skills_from_response.
  destruct (Re.re_search bracketed response_text) as [[pre json_str] |];
    [| intros [= <-]; constructor].
  destruct (loads parse_float decode_limit json_str) as [[| | | | | l |] | []];
    try (intros [= <-]; constructor); try discriminate.
  unfold except_ValueError.
  match goal with |- match ?m with _ => _ end = _ -> _ =>
    destruct m as [parsed | e] eqn:Em end.
  - intros [= <-]. apply mapM_image in Em.
    apply List.Forall_forall. intros skill Hin.
    rewrite List.Forall_forall in Em. destruct (Em skill Hin) as [s ->].
    apply ustrip_idem.
  - destruct (is_ValueError (exn_class e)); [| discriminate].
    intros [= <-]. constructor.
Qed.

(** The theorem of X15 at a reply with padded entries. *)
Lemma parsed_skills_are_stripped_witness :
  Forall (fun skill => ustrip skill = skill) (map wide ["Rust"; "Go"]).
Proof.
  exact (parsed_skills_are_stripped (fun lit => mk_float lit lit true)
           (fun _ => true) 1000 1000
           ("[" ++ quoted " Rust" ++ ", " ++ quoted "Go  " ++ "]")
           (map wide ["Rust"; "Go"]) eq_refl).
Defined.

End SkillsMoreFacts.

(** ** The name extractor: what every result looks like *)

Module NameMoreFacts.
Import PyStr PyStrFacts Re ReFacts.
Import NameExtractor NameFacts NameFallbackFacts.

(** *** The characters a pattern can match *)

(** Every class of the pattern lies within [q]. *)
Fixpoint within (q : ascii -> bool) (r : regex) : Prop :=
  match r with
  | Cls p => forall c, p c = true -> q c = true
  | Cat r1 r2 | Alt r1 r2 => within q r1 /\ within q r2
  | Star _ r1 => within q r1
  | Eps | Bol | Eol => True
  end.

Lemma Matches_within (q : ascii -> bool) (n0 : nat) (r : regex) (m rest : string) :
  Matches n0 r m rest -> within q r -> all_chars q m = true.
Proof.
  induction 1 as [ rest | p c rest Hc | r1 r2 m1 m2 rest _ IH1 _ IH2
                 | r1 r2 m rest _ IH | r1 r2 m rest _ IH | g r rest
                 | g r m1 m2 rest _ _ IH1 _ IH2 | rest _ | rest _ ];
    cbn [within]; intros Hw; try reflexivity.
  - simpl. now rewrite (Hw c Hc).
  - destruct Hw as [H1 H2]. rewrite all_chars_append, IH1, IH2; tauto.
  - apply IH, Hw.
  - apply IH, Hw.
  - rewrite all_chars_append, IH1, IH2; tauto.
Qed.

(** The characters of a name that matches a pattern: the unaccented
    letters, whitespace and the period. *)
Definition name_class (c : ascii) : bool :=
  upper_az c || lower_az c || isspace c || Ascii.eqb "." c.

Lemma name_pattern_within : within name_class name_pattern.
Proof.
  unfold name_class. cbn. repeat split; intros c Hc; rewrite Hc;
    rewrite ?orb_true_r; reflexivity.
Qed.

Lemma alt_pattern_within : within name_class alt_pattern.
Proof.
  unfold name_class. cbn. repeat split; intros c Hc; rewrite Hc;
    rewrite ?orb_true_r; reflexivity.
Qed.

Lemma name_class_kept (c : ascii) : name_class c = true -> kept_char c = true.
Proof. destruct c as [[] [] [] [] [] [] [] []]; intros H; first [reflexivity | discriminate H]. Qed.

(** *** Lines *)

Lemma split_no_sep (sep : ascii) (s : string) :
  Forall (fun piece => all_chars (fun c => negb (Ascii.eqb c sep)) piece = true)
         (split sep s).
Proof.
  induction s as [|c s IH]; [repeat constructor |].
  cbn [split]. destruct (Ascii.eqb c sep) eqn:Ec.
  - constructor; [reflexivity | exact IH].
  - destruct (split sep s) as [|piece rest].
    + repeat constructor. simpl. now rewrite Ec.
    + inversion IH; subst. constructor; [| assumption].
      simpl. rewrite Ec. assumption.
Qed.

Lemma all_chars_lstrip (q : ascii -> bool) (s : string) :
  all_chars q s = true -> all_chars q (lstrip s) = true.
Proof.
  induction s as [|c s IH]; [reflexivity |].
  simpl. intros H. apply andb_true_iff in H as [Hc Hs].
  destruct (isspace c); [now apply IH |]. simpl. now rewrite Hc, Hs.
Qed.

Lemma all_chars_rstrip (q : ascii -> bool) (s : string) :
  all_chars q s = true -> all_chars q (rstrip s) = true.
Proof.
  induction s as [|c s IH]; [reflexivity |].
  simpl. intros H. apply andb_true_iff in H as [Hc Hs]. specialize (IH Hs).
  destruct (rstrip s) as [|d r].
  - destruct (isspace c); [reflexivity |]. simpl. now rewrite Hc.
  - cbn [all_chars]. cbn [all_chars] in IH. now rewrite Hc, IH.
Qed.

Lemma all_chars_strip (q : ascii -> bool) (s : string) :
  all_chars q s = true -> all_chars q (strip s) = true.
Proof. intros H. now apply all_chars_rstrip, all_chars_lstrip. Qed.

(** A line is not empty and has no line feed. *)
Lemma lines_of_line (text line : string) :
  In line (lines_of text) -> line <> "" /\ all_chars dot_nl line = true.
Proof.
  unfold lines_of. intros H.
  apply in_map_iff in H as (raw & <- & Hraw).
  apply filter_In in Hraw as [Hin Ht]. split.
  - intros E. rewrite E in Ht. discriminate.
  - apply all_chars_strip.
    pose proof (split_no_sep LF text) as Hall.
    rewrite List.Forall_forall in Hall. exact (Hall raw Hin).
Qed.

Lemma first_name_match_Some (lines : list string) (g : string) :
  first_name_match lines = Some g ->
  exists line, In line lines
    /\ (re_match name_pattern line = Some g \/ re_match alt_pattern line = Some g).
Proof.
  induction lines as [|l lines IH]; simpl; [discriminate |].
  destruct (re_match name_pattern l) as [g1|] eqn:E1.
  - intros [= <-]. exists l. tauto.
  - destruct (re_match alt_pattern l) as [g2|] eqn:E2.
    + intros [= <-]. exists l. tauto.
    + intros H. destruct (IH H) as (line & Hin & Hm). exists line. tauto.
Qed.

(** *** The clean-up *)

Lemma blank_out_kept (s : string) : all_chars kept_char (blank_out s) = true.
Proof.
  induction s as [|c s IH]; [reflexivity |].
  cbn [blank_out all_chars]. rewrite IH.
  destruct (kept_char c) eqn:Ec; [now rewrite Ec | reflexivity].
Qed.

Lemma split_ws_all_chars (q : ascii -> bool) (s : string) :
  all_chars q s = true -> Forall (fun w => all_chars q w = true) (split_ws s).
Proof.
  induction s as [|c s IH]; [constructor |].
  cbn [all_chars]. intros H. apply andb_true_iff in H as [Hc Hs].
  specialize (IH Hs). cbn [split_ws].
  destruct (isspace c); [exact IH |].
  destruct s as [|c' s']; [repeat constructor; simpl; now rewrite Hc |].
  destruct (isspace c').
  - constructor; [simpl; now rewrite Hc | exact IH].
  - destruct (split_ws (String c' s')) as [|w ws].
    + repeat constructor. simpl. now rewrite Hc.
    + inversion IH; subst. constructor; [| assumption].
      cbn [all_chars]. now rewrite Hc.
Qed.

Lemma cleaned_kept (line : string) : all_chars kept_char (cleaned line) = true.
Proof.
  unfold cleaned. apply all_chars_join; [reflexivity |].
  apply split_ws_all_chars, blank_out_kept.
Qed.

(** What the clean-up and the filters return: the sentinel, or the cleaned
    line, which is then neither empty nor longer than fifty characters. *)
Lemma clean_and_filter_cases (line : string) :
  clean_and_filter line = "Unknown"
  \/ (clean_and_filter line = cleaned line
      /\ 0 < String.length (cleaned line) <= 50).
Proof.
  unfold clean_and_filter. rewrite sub_class_artifact. fold (cleaned line).
  destruct (re_search digits_or_dots (cleaned line)); [now left |].
  destruct (Nat.leb_spec (String.length (cleaned line)) 50);
    destruct (Nat.ltb_spec 0 (String.length (cleaned line)));
    cbn [andb]; [right | left | left | left]; try reflexivity.
  split; [reflexivity | lia].
Qed.

(** The three properties of a result. *)
Definition well_formed_name (name : string) : Prop :=
  name <> "" /\ all_chars kept_char name = true /\ all_chars dot_nl name = true.

Lemma Unknown_well_formed : well_formed_name "Unknown".
Proof. repeat split. discriminate. Qed.

Lemma clean_and_filter_well_formed (line : string) :
  well_formed_name (clean_and_filter line).
Proof.
  destruct (clean_and_filter_cases line) as [-> | [-> Hlen]];
    [apply Unknown_well_formed |].
  split; [| split].
  - intros E. rewrite E in Hlen. simpl in Hlen. lia.
  - apply cleaned_kept.
  - apply cleaned_no_LF.
Qed.

Lemma extract_well_formed (text : string) : well_formed_name (extract text).
Proof.
  unfold extract. destruct (is_blank text); [apply Unknown_well_formed |].
  destruct (lines_of text) as [|line0 others] eqn:El; [apply Unknown_well_formed |].
  destruct (first_name_match (firstn 5 (line0 :: others))) as [name|] eqn:Ef.
  - apply first_name_match_Some in Ef as (line & Hin & Hm).
    apply In_firstn in Hin. rewrite <- El in Hin.
    pose proof (lines_of_line _ _ Hin) as [Hne Hnl].
    destruct (lines_of_stripped _ _ Hin) as [raw ->].
    assert (name = strip raw /\ all_chars name_class name = true) as [-> Hcls].
    { destruct Hm as [Hm | Hm].
      - split; [now apply name_pattern_verbatim |].
        apply re_match_Some in Hm as (rest & _ & Hm).
        exact (Matches_within _ _ _ _ _ Hm name_pattern_within).
      - split; [now apply alt_pattern_verbatim |].
        apply re_match_Some in Hm as (rest & _ & Hm).
        exact (Matches_within _ _ _ _ _ Hm alt_pattern_within). }
    split; [assumption |]. split; [| assumption].
    eapply all_chars_impl; [| exact Hcls]. apply name_class_kept.
  - destruct (re_search email_pattern line0).
    + destruct others as [|line1 rest]; [apply Unknown_well_formed |].
      apply clean_and_filter_well_formed.
    + apply clean_and_filter_well_formed.
Qed.

Lemma name_not_empty (text : string) : extract text <> "".
Proof. apply extract_well_formed. Qed.

(** X16. Whatever the text, the name [extract] returns is not empty, it is
    a single line, and it is made of word characters, whitespace and
    periods only; so it never holds an [@], and a line kept as a name by
    the fallback has at most fifty characters. *)
Theorem name_is_one_clean_line (text : string) :
  extract text <> ""
  /\ all_chars (fun c => word_char c || isspace c || Ascii.eqb c ".") (extract text)
     = true
  /\ all_chars (fun c => negb (Ascii.eqb c LF)) (extract text) = true
  /\ (forall pre post, extract text <> pre ++ "@" ++ post)
  /\ (first_name_match (firstn 5 (lines_of text)) = None ->
      String.length (extract text) <= 50).
Proof.
  pose proof (extract_well_formed text) as Hwf.
  destruct Hwf as (Hne & Hkept & Hnl).
  split; [assumption |]. split; [exact Hkept |]. split; [exact Hnl |]. split.
  - intros pre post E. rewrite E in Hkept.
    change (pre ++ "@" ++ post) with (pre ++ String "@" post) in Hkept.
    rewrite EmailFacts.all_chars_false_mid in Hkept; [discriminate | reflexivity].
  - intros Hnone. unfold extract. destruct (is_blank text); [simpl; lia |].
    destruct (lines_of text) as [|line0 others]; [simpl; lia |].
    rewrite Hnone.
    assert (Hlen : forall l, String.length (clean_and_filter l) <= 50).
    { intros l. destruct (clean_and_filter_cases l) as [-> | [-> Hlen]];
        [simpl; lia | lia]. }
    destruct (re_search email_pattern line0).
    + destruct others as [|line1 rest]; [simpl; lia | apply Hlen].
    + apply Hlen.
Qed.

(** The theorem of X16 at a line that no name pattern matches. *)
Lemma name_is_one_clean_line_witness :
  String.length (extract "Jean-Luc Picard") <= 50.
Proof.
  exact (proj2 (proj2 (proj2 (proj2 (name_is_one_clean_line "Jean-Luc Picard"))))
           eq_refl).
Defined.

(** *** The lines that count *)

(** The result, from the first five lines. *)
Definition from_lines (lines : list string) : string :=
  match lines with
  | [] => "Unknown"
  | line0 :: others =>
      match first_name_match lines with
      | Some name => name
      | None =>
          match re_search email_pattern line0 with
          | Some _ =>
              match others with
              | line1 :: _ => clean_and_filter line1
              | [] => "Unknown"
              end
          | None => clean_and_filter line0
          end
      end
  end.

Lemma extract_from_lines (text : string) :
  extract text = from_lines (firstn 5 (lines_of text)).
Proof.
  unfold extract. destruct (is_blank text) eqn:Hb.
  - now rewrite (lines_of_blank _ Hb).
  - destruct (lines_of text) as [|line0 [|line1 rest]]; reflexivity.
Qed.

(** X24. Only the first five lines that are not blank count, and of each
    only what is left once it is stripped: two texts whose first five such
    lines are the same get the same name. *)
Theorem only_the_first_five_lines_count (text1 text2 : string) :
  firstn 5 (lines_of text1) = firstn 5 (lines_of text2) ->
  extract text1 = extract text2.
Proof. intros H. now rewrite !extract_from_lines, H. Qed.

(** The theorem of X24 at two texts that differ in their blank lines, in
    the space around their lines and in their sixth line. *)
Lemma only_the_first_five_lines_count_witness :
  extract ("a" ++ nl ++ "b" ++ nl ++ "c" ++ nl ++ "d" ++ nl ++ "e" ++ nl
           ++ "Ada Lovelace")
  = extract (nl ++ " a " ++ nl ++ "b" ++ nl ++ nl ++ "c" ++ nl ++ "d" ++ nl
             ++ "e" ++ nl ++ "Grace Hopper").
Proof.
  exact (only_the_first_five_lines_count
           ("a" ++ nl ++ "b" ++ nl ++ "c" ++ nl ++ "d" ++ nl ++ "e" ++ nl
            ++ "Ada Lovelace")
           (nl ++ " a " ++ nl ++ "b" ++ nl ++ nl ++ "c" ++ nl ++ "d" ++ nl
            ++ "e" ++ nl ++ "Grace Hopper")
           eq_refl).
Defined.

End NameMoreFacts.

(** ** The email extractor: what every result looks like *)

Module EmailMoreFacts.
Import PyStr PyStrFacts Re ReFacts RePatterns.
Import EmailExtractor EmailFacts.

(** A character of an address that is not the [@] sign. *)
Definition plain (c : ascii) : bool :=
  negb (isspace c) && negb (Ascii.eqb c "@") && (ord c <? 128)%N.

Lemma local_char_plain (c : ascii) : local_char c = true -> plain c = true.
Proof. destruct c as [[] [] [] [] [] [] [] []]; intros H; first [reflexivity | discriminate H]. Qed.

Lemma domain_char_plain (c : ascii) : domain_char c = true -> plain c = true.
Proof. destruct c as [[] [] [] [] [] [] [] []]; intros H; first [reflexivity | discriminate H]. Qed.

Lemma letter_plain (c : ascii) : letter c = true -> plain c = true.
Proof. destruct c as [[] [] [] [] [] [] [] []]; intros H; first [reflexivity | discriminate H]. Qed.

Lemma all_chars_imp (p q : ascii -> bool) (s : string) :
  (forall c, p c = true -> q c = true) -> all_chars p s = true -> all_chars q s = true.
Proof.
  intros H. induction s as [|c s IH]; simpl; [reflexivity |].
  intros Hs. apply andb_true_iff in Hs as [Hc Hs]. now rewrite (H c Hc), IH.
Qed.

Lemma sentinel_grammar : email_grammar sentinel.
Proof.
  exists "unknown", "example", "com". repeat split; try discriminate. simpl. lia.
Qed.

(** The result is the sentinel or a match of the pattern. *)
Lemma extract_grammar (text : string) : email_grammar (extract text).
Proof.
  destruct (is_blank text) eqn:Hb.
  - unfold extract. rewrite Hb. apply sentinel_grammar.
  - rewrite (extract_is_first_scan _ Hb).
    destruct (scan (String.length text) EMAIL_PATTERN text) as [[pre m]|] eqn:E;
      [| apply sentinel_grammar].
    apply scan_Some in E as (rest & _ & Hm & _).
    now apply EMAIL_PATTERN_iff in Hm.
Qed.

(** X17. Whatever the text, what [extract] returns has the form of an
    address: a local part, one [@], a domain, a period and two letters or
    more. So the result is never empty, has exactly one [@], and has no
    whitespace and no character beyond ASCII in it, even when the text has
    no address at all. *)
Theorem email_is_always_an_address (text : string) :
  email_grammar (extract text)
  /\ extract text <> ""
  /\ (exists local rest,
        extract text = local ++ "@" ++ rest
        /\ local <> ""
        /\ all_chars plain local = true
        /\ all_chars plain rest = true
        /\ String.length rest >= 4).
Proof.
  pose proof (extract_grammar text) as Hg.
  split; [exact Hg |].
  destruct Hg as (local & domain & tld & -> & Hl1 & Hl2 & Hd1 & Hd2 & Ht1 & Ht2).
  split.
  - destruct local; [congruence | discriminate].
  - exists local, (domain ++ "." ++ tld).
    split; [reflexivity |]. split; [assumption |]. split; [| split].
    + eapply all_chars_imp; [| exact Hl2]. apply local_char_plain.
    + rewrite !all_chars_append.
      rewrite (all_chars_imp _ _ _ domain_char_plain Hd2).
      rewrite (all_chars_imp _ _ _ letter_plain Ht2). reflexivity.
    + rewrite !length_append. simpl.
      destruct domain; [congruence | simpl; lia].
Qed.

End EmailMoreFacts.

(** ** The record as JSON *)

Module RecordJsonFacts.
Import PyStr PyStrFacts Py Json.
Import PyObjFacts JsonFacts.

(** *** The characters of the output *)























(** *** The record from its text *)

Lemma to_json_written (room : nat) (name email : ustring) (skills : list ustring)
    (indent : Z) (text : string) :
  ResumeData.to_json room
    (ResumeData.mk (PStr name) (PStr email) (PList (map PStr skills))) indent
  = Written text ->
  text = record_text (Z.to_nat indent) name email
           (list_text (Z.to_nat indent) 1 skills).
Proof.
  destruct (Nat.lt_ge_cases room 2) as [Hroom | Hroom].
  - rewrite to_json_no_room by assumption. discriminate.
  - destruct room as [|[|room]]; [lia .. |].
    rewrite to_json_record. now intros [= <-].
Qed.

Lemma map_PStr_inj (l1 l2 : list ustring) : map PStr l1 = map PStr l2 -> l1 = l2.
Proof.
  revert l2. induction l1 as [|x l1 IH]; intros [|y l2]; simpl; try discriminate.
  - reflexivity.
  - intros [= -> H]. now rewrite (IH _ H).
Qed.

(** X19. The JSON text tells the record, as long as no string of it has a
    high surrogate directly followed by a low one: when two such records of
    a name, an email and a list of skills, all strings, are written as the
    same text, be it with different indentations, they have the same name,
    the same email and the same skills. Without the condition it does not:
    a record named by the two surrogates of a character and a record named
    by that character are written as the same text. *)
Theorem to_json_tells_the_record :
  (forall (room1 room2 : nat) (name1 email1 name2 email2 : ustring)
          (skills1 skills2 : list ustring) (indent1 indent2 : Z) (text : string),
     reads_back name1 = true -> reads_back email1 = true ->
     forallb reads_back skills1 = true ->
     reads_back name2 = true -> reads_back email2 = true ->
     forallb reads_back skills2 = true ->
     ResumeData.to_json room1
       (ResumeData.mk (PStr name1) (PStr email1) (PList (map PStr skills1)))
       indent1 = Written text ->
     ResumeData.to_json room2
       (ResumeData.mk (PStr name2) (PStr email2) (PList (map PStr skills2)))
       indent2 = Written text ->
     name1 = name2 /\ email1 = email2 /\ skills1 = skills2)
  /\ (exists text : string,
        ResumeData.to_json 1000
          (ResumeData.mk (PStr [55357; 56832]%N) (PStr []) (PList [])) 2
        = Written text
        /\ ResumeData.to_json 1000
             (ResumeData.mk (PStr [128512]%N) (PStr []) (PList [])) 2
           = Written text).
Proof.
  split.
  - intros room1 room2 name1 email1 name2 email2 skills1 skills2 indent1 indent2
      text Hn1 He1 Hs1 Hn2 He2 Hs2 H1 H2.
    apply to_json_written in H1, H2.
    pose proof (loads_record_text (fun lit => mk_float lit lit true) 0
                  (Z.to_nat indent1) name1 email1 skills1 Hn1 He1 Hs1) as L1.
    pose proof (loads_record_text (fun lit => mk_float lit lit true) 0
                  (Z.to_nat indent2) name2 email2 skills2 Hn2 He2 Hs2) as L2.
    rewrite <- H1 in L1. rewrite <- H2, L1 in L2.
    injection L2 as -> -> Hs. now apply map_PStr_inj in Hs.
  - eexists. split; vm_compute; reflexivity.
Qed.

(** The theorem of X19 at a record written with the indentations 0 and
    -1, which give the same text. *)
Lemma to_json_tells_the_record_witness :
  wide "Ada" = wide "Ada" /\ wide "a@b.cd" = wide "a@b.cd"
  /\ [wide "Go"] = [wide "Go"].
Proof.
  exact (proj1 to_json_tells_the_record 1000 1000
           (wide "Ada") (wide "a@b.cd") (wide "Ada") (wide "a@b.cd")
           [wide "Go"] [wide "Go"] 0%Z (-1)%Z
           (record_text 0 (wide "Ada") (wide "a@b.cd") (list_text 0 1 [wide "Go"]))
           eq_refl eq_refl eq_refl eq_refl eq_refl eq_refl eq_refl eq_refl).
Defined.

End RecordJsonFacts.

(* ===================================================================== *)
(** ** config.py and the constructor of the skills extractor *)
(* ===================================================================== *)

Module Config.
Import PyStr Py.

Section Environment.

(** [os.getenv], once [_load_env_file] has run *)
Variable getenv : string -> option string.

(** The property [gemini_api_key] *)
Definition gemini_api_key : option string := getenv "GEMINI_API_KEY".

(** [validate_gemini_api_key] *)
Definition validate_gemini_api_key : bool :=
  let api_key := gemini_api_key in
  match api_key with
  | None => false
  | Some k => negb (String.eqb (strip k) "")
  end.

(** [get_gemini_api_key]: what it returns is the property, read again. *)
Definition get_gemini_api_key : result (option string) :=
  if negb validate_gemini_api_key then
    Raise (mk_exn ValueError
             ("Gemini API key not configured. "
              ++ "Set GEMINI_API_KEY environment variable or add it to .env file."))
  else Return gemini_api_key.

End Environment.

End Config.

Module SkillsExtractorInit.
Import PyStr Py.

(** [a or b] on two optional strings: [a] when it is true, else [b]. *)
Definition py_or (a b : option string) : option string :=
  match a with
  | Some s => if truthy s then a else b
  | None => b
  end.

(** [not key] *)
Definition falsy (key : option string) : bool :=
  match key with
  | Some s => negb (truthy s)
  | None => true
  end.

Section Init.

Variable W : Type.
(** The model object of the library *)
Variable Model : Type.
Variable getenv : string -> W -> option string.
(** [genai.configure] and [genai.GenerativeModel]; when the library could
    not be imported [genai] is [None] and the first of them raises. *)
Variable configure : string -> eff W unit.
Variable GenerativeModel : string -> eff W Model.

(** The attributes [__init__] sets. *)
Record t : Type := mk {
  api_key : string;
  model_name : string;
  model : Model
}.

Definition default_model_name : string := "models/gemini-3-flash-preview".

Local Open Scope eff_scope.

(** [SkillsExtractor.__init__] *)
Definition init (api_key : option string) (model_name : string) : eff W t :=
  fun w =>
    let self_api_key := py_or api_key (getenv "GEMINI_API_KEY" w) in
    match self_api_key with
    | Some key =>
        if falsy self_api_key then
          (Raise (mk_exn ValueError
             "API key must be provided or set in GEMINI_API_KEY environment variable."),
           w)
        else
          (_ <- configure key ;;
           m <- GenerativeModel model_name ;;
           ret (mk key model_name m)) w
    | None =>
        (Raise (mk_exn ValueError
           "API key must be provided or set in GEMINI_API_KEY environment variable."),
         w)
    end.

End Init.

End SkillsExtractorInit.

(** ** The API key *)

Module ApiKeyFacts.
Import PyStr PyStrFacts Py.
Import SkillsExtractorInit.

Definition NoKey : exn :=
  mk_exn ValueError
    "API key must be provided or set in GEMINI_API_KEY environment variable.".

(** X20. [Config.get_gemini_api_key] returns exactly when the variable is
    set to a value that is not blank, and then it returns that value, never
    [None]; in every other case it raises its [ValueError]. *)
Theorem config_key_is_never_None (getenv : string -> option string) :
  (forall k, getenv "GEMINI_API_KEY" = Some k -> all_chars isspace k = false ->
     Config.get_gemini_api_key getenv = Return (Some k))
  /\ (forall r, Config.get_gemini_api_key getenv = Return r ->
        exists k, r = Some k /\ getenv "GEMINI_API_KEY" = Some k
                  /\ all_chars isspace k = false)
  /\ ((getenv "GEMINI_API_KEY" = None
       \/ exists k, getenv "GEMINI_API_KEY" = Some k /\ all_chars isspace k = true) ->
      exists e, Config.get_gemini_api_key getenv = Raise e
                /\ exn_class e = ValueError).
Proof.
  unfold Config.get_gemini_api_key, Config.validate_gemini_api_key,
    Config.gemini_api_key.
  split; [| split].
  - intros k -> Hk.
    destruct (String.eqb_spec (strip k) "") as [E | E]; [| reflexivity].
    apply strip_nil_iff in E. congruence.
  - intros r. destruct (getenv "GEMINI_API_KEY") as [k |]; simpl; [| discriminate].
    destruct (String.eqb_spec (strip k) "") as [E | E]; simpl; [discriminate |].
    intros [= <-]. exists k. split; [reflexivity |]. split; [reflexivity |].
    destruct (all_chars isspace k) eqn:Hk; [| reflexivity].
    apply strip_nil_iff in Hk. contradiction.
  - intros [-> | (k & -> & Hk)]; simpl.
    + eexists. split; reflexivity.
    + apply strip_nil_iff in Hk. rewrite Hk. simpl. eexists. split; reflexivity.
Qed.

Section Init.

Variable W : Type.
Variable Model : Type.
Variable getenv : string -> W -> option string.
Variable configure : string -> eff W unit.
Variable GenerativeModel : string -> eff W Model.

(** The key [__init__] settles on: the argument when it is given and not
    empty, else the variable of the environment when it is set and not
    empty. *)
Definition resolved (api_key : option string) (w : W) : option string :=
  match api_key with
  | Some (String c s) => Some (String c s)
  | _ =>
      match getenv "GEMINI_API_KEY" w with
      | Some (String c s) => Some (String c s)
      | _ => None
      end
  end.

(** X21. The constructor of the skills extractor takes the key given as
    argument when there is one that is not empty, whatever the environment
    holds, and the variable of the environment otherwise. With no key from
    either it raises its [ValueError] before the library is touched: the
    world is unchanged. With a key it configures the library with that key
    and then makes the model of the given name, in that order, and a
    failure of either call is raised as it is. *)
Theorem init_resolves_the_key (api_key : option string) (name : string) (w : W) :
  (resolved api_key w = None ->
     init W Model getenv configure GenerativeModel api_key name w = (Raise NoKey, w))
  /\ (forall key, resolved api_key w = Some key ->
        init W Model getenv configure GenerativeModel api_key name w =
          match configure key w with
          | (Raise e, w1) => (Raise e, w1)
          | (Return _, w1) =>
              match GenerativeModel name w1 with
              | (Raise e, w2) => (Raise e, w2)
              | (Return m, w2) => (Return (mk Model key name m), w2)
              end
          end)
  /\ (forall c s, resolved (Some (String c s)) w = Some (String c s))
  /\ resolved (Some "") w = resolved None w.
Proof.
  split; [| split; [| split]]; try reflexivity.
  - unfold resolved, init, py_or.
    destruct api_key as [[|c s] |]; simpl; try discriminate;
      destruct (getenv "GEMINI_API_KEY" w) as [[|c' s'] |]; simpl;
      try discriminate; reflexivity.
  - intros key. unfold resolved, init, py_or, ebind, ret.
    destruct api_key as [[|c s] |]; simpl.
    + destruct (getenv "GEMINI_API_KEY" w) as [[|c' s'] |]; simpl;
        try discriminate.
      intros [= <-].
      destruct (configure (String c' s') w) as [[[] | e] w1]; [| reflexivity].
      destruct (GenerativeModel name w1) as [[m | e] w2]; reflexivity.
    + intros [= <-].
      destruct (configure (String c s) w) as [[[] | e] w1]; [| reflexivity].
      destruct (GenerativeModel name w1) as [[m | e] w2]; reflexivity.
    + destruct (getenv "GEMINI_API_KEY" w) as [[|c' s'] |]; simpl;
        try discriminate.
      intros [= <-].
      destruct (configure (String c' s') w) as [[[] | e] w1]; [| reflexivity].
      destruct (GenerativeModel name w1) as [[m | e] w2]; reflexivity.
Qed.

(** X22. The two places that look for the key do not agree on what a key
    is. Every key [Config.get_gemini_api_key] returns is one the
    constructor of the skills extractor settles on when it is given no
    argument; but the constructor also settles on a key of whitespace only,
    which [Config] refuses. *)
Theorem config_is_stricter_than_init (w : W) :
  (forall k, Config.get_gemini_api_key (fun v => getenv v w) = Return (Some k) ->
     resolved None w = Some k)
  /\ (forall k, getenv "GEMINI_API_KEY" w = Some k -> k <> "" ->
        all_chars isspace k = true ->
        resolved None w = Some k
        /\ exists e, Config.get_gemini_api_key (fun v => getenv v w) = Raise e).
Proof.
  unfold Config.get_gemini_api_key, Config.validate_gemini_api_key,
    Config.gemini_api_key, resolved.
  split.
  - intros k. destruct (getenv "GEMINI_API_KEY" w) as [k' |]; simpl; [| discriminate].
    destruct (String.eqb_spec (strip k') "") as [E | E]; simpl; [discriminate |].
    intros [= <-]. destruct k' as [|c s]; [| reflexivity].
    contradiction E. reflexivity.
  - intros k -> Hne Hk. split.
    + destruct k; [congruence | reflexivity].
    + apply strip_nil_iff in Hk. rewrite Hk. simpl. eexists. reflexivity.
Qed.

End Init.

(** The theorem of X20 at an environment with a key. *)
Lemma config_key_is_never_None_witness :
  Config.get_gemini_api_key (fun _ => Some "k-123") = Return (Some "k-123").
Proof.
  exact (proj1 (config_key_is_never_None (fun _ => Some "k-123"))
           "k-123" eq_refl eq_refl).
Defined.

(** The theorem of X21 in a world that logs the calls of the library, with
    a key in the environment and another one given: the one given is
    used. *)
Lemma init_resolves_the_key_witness :
  init (list string) unit (fun _ _ => Some "from-env")
    (fun key w => (Return tt, (w ++ [("configure " ++ key)%string])%list))
    (fun name w => (Return tt, (w ++ [("model " ++ name)%string])%list))
    (Some "given") "gemini" []
  = (Return (mk unit "given" "gemini" tt), ["configure given"; "model gemini"]).
Proof.
  exact (proj1 (proj2 (init_resolves_the_key (list string) unit
           (fun _ _ => Some "from-env")
           (fun key w => (Return tt, (w ++ [("configure " ++ key)%string])%list))
           (fun name w => (Return tt, (w ++ [("model " ++ name)%string])%list))
           (Some "given") "gemini" [])) "given" eq_refl).
Defined.

(** The theorem of X22 at a key of two spaces. *)
Lemma config_is_stricter_than_init_witness :
  resolved unit (fun _ _ => Some "  ") None tt = Some "  "
  /\ exists e, Config.get_gemini_api_key (fun _ => Some "  ") = Raise e.
Proof.
  exact (proj2 (config_is_stricter_than_init unit (fun _ _ => Some "  ") tt)
           "  " eq_refl ltac:(discriminate) eq_refl).
Defined.

End ApiKeyFacts.

(** ** The coordinator with the extractors of the package *)

Module StockExtractorsFacts.
Import PyStr PyStrFacts Py Json.
Import ResumeExtractor CoordinatorFacts.

Section Stock.

Variable W : Type.

(** The name and email extractors as the coordinator calls them: they read
    the text only and leave the world as it is. *)
Definition name_extractor : FieldExtractor W :=
  fun text w => (Return (PStr (NameExtractor.extract text)), w).
Definition email_extractor : FieldExtractor W :=
  fun text w => (Return (PStr (EmailExtractor.extract text)), w).

(** X23. With the name and email extractors of the package in the
    registry, only the skills extractor can make [extract] fail. On a text
    that is not blank the outcome is the one of the skills extractor, run
    in the world as it was: its error wrapped, or else a record with its
    result, with a name that is not empty and an email that has the form of
    an address. *)
Theorem only_the_skills_extractor_can_fail
    (self : gmap string (FieldExtractor W)) (skills_x : FieldExtractor W)
    (text : string) (w : W) :
  self !! "name" = Some name_extractor ->
  self !! "email" = Some email_extractor ->
  self !! "skills" = Some skills_x ->
  all_chars isspace text = false ->
  extract W self text w =
    match skills_x text w with
    | (Raise e, w') => (Raise (ExtractionFailed e), w')
    | (Return skills, w') =>
        (Return (ResumeData.mk (PStr (NameExtractor.extract text))
                   (PStr (EmailExtractor.extract text)) skills), w')
    end
  /\ NameExtractor.extract text <> ""
  /\ EmailFacts.email_grammar (EmailExtractor.extract text).
Proof.
  intros Hn He Hs Hb. apply is_blank_false_iff in Hb.
  split; [| split].
  - unfold extract. rewrite Hb. unfold etry, ebind, lift, ret, raise.
    rewrite (getitem_Some W _ _ _ Hn), (getitem_Some W _ _ _ He),
      (getitem_Some W _ _ _ Hs).
    unfold name_extractor, email_extractor.
    destruct (skills_x text w) as [[skills | e] w']; reflexivity.
  - apply NameMoreFacts.name_not_empty.
  - apply EmailMoreFacts.extract_grammar.
Qed.

End Stock.

(** The theorem of X23 with a skills extractor that raises. *)
Lemma only_the_skills_extractor_can_fail_witness :
  extract unit
    (<["name" := name_extractor unit]>
       (<["email" := email_extractor unit]>
          (<["skills" := fun _ w => (Raise (mk_exn Exception "quota"), w)]> ∅)))
    "Ada Lovelace" tt
  = (Raise (mk_exn Exception "Failed to extract resume data: quota"), tt).
Proof.
  exact (proj1 (only_the_skills_extractor_can_fail unit
           (<["name" := name_extractor unit]>
              (<["email" := email_extractor unit]>
                 (<["skills" := fun _ w => (Raise (mk_exn Exception "quota"), w)]> ∅)))
           (fun _ w => (Raise (mk_exn Exception "quota"), w))
           "Ada Lovelace" tt eq_refl eq_refl eq_refl eq_refl)).
Defined.

End StockExtractorsFacts.
